(** * Trading decision engine: risk gate, strategy manager, Ichimoku strategy,
      indicator pipeline and trade-history helper

    A shallow embedding of the Python sources [utils.py], [config.py],
    [risk_manager.py], [base_strategy.py], [ichimoku.py],
    [strategy_manager.py], [data_processor.py] and of the balance request of
    [binance_connection.py].

    Conventions of the embedding.
    - A Python [float] (and the [int]s mixed with them) is an exact rational
      of [Q]: sums, products and quotients are exact and comparisons are the
      decidable ones of [Q].  [round(x, 6)] gives a multiple of 0.000001
      nearest to the exact value; the side it takes when the exact value is
      a tie depends, in Python, on the binary double, and is left open here
      ([Py.Ties]): what is proved of a rounded value holds for either side.
      The examples use inputs on which the binary arithmetic of Python
      answers the same comparisons.
    - A [dict] keyed by strings is a [gmap string _]; a key read with
      [d['k']] is a mandatory record field when the dictionary is a signal or
      a trade, and a key tested with [in] or read with [.get] is an [option].
    - A Python exception is a value of [exn]; a call that can raise returns a
      [result].  [try ... except Exception] is [try_except].
    - An object mutated in place (a signal, a trade, a data frame, the risk
      manager itself) is threaded through explicitly: the function returns
      the object as it is after the call. *)

From Stdlib Require Import ZArith QArith Qabs Qround Lia Lqa List String Ascii.
From Stdlib Require Import Sorting.Sorted Sorting.Permutation.
From stdpp Require Import base option list gmap strings.

Local Open Scope Q_scope.

(** ** Python values and control flow *)

(** The exceptions (subclasses of [Exception]) that the modelled code can
    raise. *)
Inductive exn : Type :=
  | ZeroDivisionError
  | KeyError (key : string)
  | AttributeError (attr : string)
  | IndexError
  | ValueError (msg : string)
  | ConnectionFailure (msg : string).

Inductive result (A : Type) : Type :=
  | Ok (a : A)
  | Raise (e : exn).
Arguments Ok {A} a.
Arguments Raise {A} e.

Definition bind {A B} (r : result A) (k : A -> result B) : result B :=
  match r with
  | Ok a => k a
  | Raise e => Raise e
  end.

(** [try: body  except Exception as e: handler e]. *)
Definition try_except {A} (body : result A) (handler : exn -> result A) : result A :=
  match body with
  | Ok a => Ok a
  | Raise e => handler e
  end.

#[global] Instance result_ret : MRet result := fun A a => Ok a.
#[global] Instance result_bind : MBind result := fun A B k r => bind r k.

Module Py.

(** Comparisons of numbers, as booleans. *)
Definition ltb (x y : Q) : bool := negb (Qle_bool y x).
Definition gtb (x y : Q) : bool := ltb y x.
Definition leb (x y : Q) : bool := Qle_bool x y.
Definition geb (x y : Q) : bool := Qle_bool y x.
Definition eqb (x y : Q) : bool := Qeq_bool x y.

(** [k in d] for an optional entry [k] of the dictionary [d]. *)
Definition contains {A} (entry : option A) : bool :=
  match entry with Some _ => true | None => false end.

(** [min(a, b)] and [max(a, b)] of the builtins: the first argument wins
    unless the second is strictly better. *)
Definition min (a b : Q) : Q := if ltb b a then b else a.
Definition max (a b : Q) : Q := if gtb b a then b else a.

(** [x / y] on numbers raises on a zero divisor. *)
Definition div (x y : Q) : result Q :=
  if eqb y 0 then Raise ZeroDivisionError else Ok (x / y).

(** The side [round] takes when its argument lies exactly half-way between
    two multiples of [10^-ndigits].  Python rounds the binary double that
    stands for the number, and the double that stands for such a decimal tie
    lies on one side of it (or on it, and then the even neighbour wins); the
    exact rationals used here cannot tell which, so the side is read from
    the arithmetic the program runs on: [up_at_tie x ndigits] tells whether
    [round(x, ndigits)] goes to the upper neighbour. *)
Class Ties := up_at_tie : Q -> nat -> bool.

(** [round(x, ndigits)]: a multiple of [10^-ndigits] nearest to [x]. *)
Definition round {ties : Ties} (x : Q) (ndigits : nat) : Q :=
  let scale := inject_Z (10 ^ Z.of_nat ndigits) in
  let y := x * scale in
  let f := Qfloor y in
  let n := match Qcompare (y - inject_Z f) (1 # 2) with
           | Lt => f
           | Gt => (f + 1)%Z
           | Eq => if up_at_tie x ndigits then (f + 1)%Z else f
           end in
  inject_Z n / scale.

(** [s.upper()] on ASCII letters. *)
Definition upper_ascii (c : ascii) : ascii :=
  let n := nat_of_ascii c in
  if ((97 <=? n)%nat && (n <=? 122)%nat)%bool then ascii_of_nat (n - 32) else c.

Fixpoint upper (s : string) : string :=
  match s with
  | EmptyString => EmptyString
  | String c s' => String (upper_ascii c) (upper s')
  end.

(** [s[:-k]] and [s[-k:]] for [k > 0]. *)
Definition drop_last (k : nat) (s : string) : string :=
  substring 0 (String.length s - k) s.
Definition take_last (k : nat) (s : string) : string :=
  substring (String.length s - k) k s.

End Py.


(** ** utils.py *)

Module Utils.

Definition calculate_risk_reward_ratio (entry stop_loss take_profit : Q) (side : string) : Q :=
  let '(risk, reward) :=
    if String.eqb (Py.upper side) "BUY"
    then (Qabs (entry - stop_loss), Qabs (take_profit - entry))
    else (Qabs (stop_loss - entry), Qabs (entry - take_profit)) in
  if Py.eqb risk 0 then 0
  else reward / risk.

End Utils.

(** ** config.py *)

Module Config.

Record ichimoku_settings := {
  tenkan_period : nat;
  kijun_period : nat;
  senkou_span_b_period : nat;
  displacement : nat
}.

Record t := {
  SYMBOL : string;
  TIMEFRAMES : gmap string Q;
  DEFAULT_TIMEFRAME : string;
  MAX_POSITION_SIZE : Q;
  RISK_PER_TRADE : Q;
  MAX_OPEN_TRADES : Z;
  USE_STOP_LOSS : bool;
  STOP_LOSS_PCT : Q;
  TAKE_PROFIT_PCT : Q;
  USE_TRAILING_STOP : bool;
  TRAILING_STOP_PCT : Q;
  ENABLED_STRATEGIES : list string;
  ICHIMOKU : ichimoku_settings;
  (* [PIVOT_POINT.get('lookback_period', 1)] reads an optional entry *)
  PIVOT_POINT_lookback_period : option Z
}.

(** The values [Config.__init__] assigns. *)
Definition defaults : t := {|
  SYMBOL := "BTCUSDT";
  TIMEFRAMES :=
    list_to_map [("1m", 60); ("5m", 300); ("15m", 900); ("1h", 3600);
                 ("4h", 14400); ("1d", 86400)]%string;
  DEFAULT_TIMEFRAME := "5m";
  MAX_POSITION_SIZE := 1 # 100;
  RISK_PER_TRADE := 1 # 100;
  MAX_OPEN_TRADES := 3;
  USE_STOP_LOSS := true;
  STOP_LOSS_PCT := 2 # 100;
  TAKE_PROFIT_PCT := 4 # 100;
  USE_TRAILING_STOP := true;
  TRAILING_STOP_PCT := 1 # 100;
  ENABLED_STRATEGIES :=
    ["ichimoku"; "pivot_point"; "vwap"; "gap"; "pullback";
     "range"; "reversal"; "breakout"; "momentum"; "scalping"]%string;
  ICHIMOKU := {| tenkan_period := 9; kijun_period := 26;
                 senkou_span_b_period := 52; displacement := 26 |};
  PIVOT_POINT_lookback_period := Some 1%Z
|}.

End Config.

(** ** Signals and the exchange collaborator *)

(** A signal dictionary.  [symbol], [side] and [quantity] are read with
    [signal['k']]; [price] with [.get('price', 0)]; [stop_loss],
    [take_profit] and [confidence] are tested with [in]. *)
Record Signal := {
  sig_strategy : string;
  sig_symbol : string;
  sig_side : string;
  sig_price : option Q;
  sig_quantity : Q;
  sig_stop_loss : option Q;
  sig_take_profit : option Q;
  sig_timestamp : Z;
  sig_confidence : option Q
}.

Definition set_quantity (s : Signal) (q : Q) : Signal :=
  {| sig_strategy := sig_strategy s; sig_symbol := sig_symbol s;
     sig_side := sig_side s; sig_price := sig_price s; sig_quantity := q;
     sig_stop_loss := sig_stop_loss s; sig_take_profit := sig_take_profit s;
     sig_timestamp := sig_timestamp s; sig_confidence := sig_confidence s |}.

Definition set_stop_loss (s : Signal) (v : Q) : Signal :=
  {| sig_strategy := sig_strategy s; sig_symbol := sig_symbol s;
     sig_side := sig_side s; sig_price := sig_price s;
     sig_quantity := sig_quantity s;
     sig_stop_loss := Some v; sig_take_profit := sig_take_profit s;
     sig_timestamp := sig_timestamp s; sig_confidence := sig_confidence s |}.

Definition set_take_profit (s : Signal) (v : Q) : Signal :=
  {| sig_strategy := sig_strategy s; sig_symbol := sig_symbol s;
     sig_side := sig_side s; sig_price := sig_price s;
     sig_quantity := sig_quantity s;
     sig_stop_loss := sig_stop_loss s; sig_take_profit := Some v;
     sig_timestamp := sig_timestamp s; sig_confidence := sig_confidence s |}.

(** One entry of the dictionary [BinanceConnection.get_account_balance]
    builds. *)
Record balance := { free : Q; locked : Q; total : Q }.

Record order := { orderId : Z; order_symbol : string }.

(** What the exchange answers to the two requests of one account refresh:
    a value, or the exception [_make_request] raises. *)
Record connection := {
  get_account_balance : result (gmap string balance);
  get_open_orders : result (list order)
}.

(** ** risk_manager.py *)

Module RiskManager.

Import Config.

(** An entry of [open_positions]; only [side] is read by this module. *)
Record position := {
  pos_side : string;
  pos_price : Q;
  pos_quantity : Q
}.

(** The attributes of a [RiskManager].  [balances], [open_orders] and
    [total_exposure] are first assigned by [update_account_state] and do not
    exist before one refresh got that far. *)
Record t := {
  balances : option (gmap string balance);
  open_orders : option (gmap Z order);
  open_positions : gmap string position;
  total_exposure : option Q
}.

Definition set_balances (self : t) (b : gmap string balance) : t :=
  {| balances := Some b; open_orders := open_orders self;
     open_positions := open_positions self;
     total_exposure := total_exposure self |}.

Definition set_open_orders (self : t) (o : gmap Z order) : t :=
  {| balances := balances self; open_orders := Some o;
     open_positions := open_positions self;
     total_exposure := total_exposure self |}.

Definition set_total_exposure (self : t) (e : Q) : t :=
  {| balances := balances self; open_orders := open_orders self;
     open_positions := open_positions self;
     total_exposure := Some e |}.

(** [{order['orderId']: order for order in open_orders}]: a later order
    replaces an earlier one with the same id. *)
Definition orders_by_id (orders : list order) : gmap Z order :=
  fold_left (fun m o => <[orderId o := o]> m) orders ∅.

Definition calculate_exposure (cfg : Config.t) (self : t) : t :=
  let self := set_total_exposure self 0 in
  (* the loop over [[self.config.SYMBOL]], inside [try] *)
  let base_currency := Py.drop_last 4 (SYMBOL cfg) in
  match balances self with
  | None => self                       (* AttributeError, caught and logged *)
  | Some b =>
      match b !! base_currency with
      | Some bal =>
          let price := 1 in
          set_total_exposure self (0 + total bal * price)
      | None => self
      end
  end.

Definition update_account_state (cfg : Config.t) (self : t) (conn : connection) : t :=
  match get_account_balance conn with
  | Raise _ => self
  | Ok b =>
      let self := set_balances self b in
      match get_open_orders conn with
      | Raise _ => self
      | Ok orders =>
          let self := set_open_orders self (orders_by_id orders) in
          calculate_exposure cfg self
      end
  end.

(** [RiskManager.__init__]. *)
Definition init (cfg : Config.t) (conn : connection) : t :=
  update_account_state cfg
    {| balances := None; open_orders := None; open_positions := ∅;
       total_exposure := None |} conn.

Definition get_account_value (cfg : Config.t) (self : t) : result Q :=
  let quote_currency := Py.take_last 4 (SYMBOL cfg) in
  match balances self with
  | None => Raise (AttributeError "balances")
  | Some b =>
      match b !! quote_currency with
      | Some bal => Ok (total bal)
      | None => Ok 10000
      end
  end.

Definition calculate_max_position_size (cfg : Config.t) (self : t)
    (symbol : string) (price : Q) : result Q :=
  account_value ← get_account_value cfg self;
  let risk_amount := account_value * RISK_PER_TRADE cfg in
  max_position_from_risk ← Py.div risk_amount price;
  let max_position_from_config := MAX_POSITION_SIZE cfg in
  Ok (Py.min max_position_from_risk max_position_from_config).

(** The four [return False] sites of [validate_trade], in source order. *)
Inductive reason : Type :=
  | MaxOpenTrades
  | OppositeDirection
  | BelowMinimumSize
  | ExposureCeiling.

Inductive verdict : Type :=
  | Accept                 (* [return True] *)
  | Reject (why : reason). (* [return False] after the matching warning *)

Definition accepted (v : verdict) : bool :=
  match v with Accept => true | Reject _ => false end.

Definition min_position_size : Q := 1 # 100000.

Definition opposite_direction (side : string) (current_position : position) : bool :=
  (String.eqb side "BUY" && String.eqb (pos_side current_position) "SELL")
  || (String.eqb side "SELL" && String.eqb (pos_side current_position) "BUY").

(** The clamp of lines 86-91: the local [quantity] and the signal's entry. *)
Definition clamp_quantity (max_position_size : Q) (signal : Signal) : Q * Signal :=
  let quantity := sig_quantity signal in
  if Py.gtb quantity max_position_size
  then (max_position_size, set_quantity signal max_position_size)
  else (quantity, signal).

(** Lines 99-104. *)
Definition backfill_stop_loss (cfg : Config.t) (price : Q) (signal : Signal) : Signal :=
  if USE_STOP_LOSS cfg && negb (Py.contains (sig_stop_loss signal))
  then
    if String.eqb (sig_side signal) "BUY"
    then set_stop_loss signal (price * (1 - STOP_LOSS_PCT cfg))
    else set_stop_loss signal (price * (1 + STOP_LOSS_PCT cfg))
  else signal.

(** Lines 106-111. *)
Definition backfill_take_profit (cfg : Config.t) (price : Q) (signal : Signal) : Signal :=
  if negb (Py.contains (sig_take_profit signal))
  then
    if String.eqb (sig_side signal) "BUY"
    then set_take_profit signal (price * (1 + TAKE_PROFIT_PCT cfg))
    else set_take_profit signal (price * (1 - TAKE_PROFIT_PCT cfg))
  else signal.

(** Lines 113-119, on the clamped local [quantity]. *)
Definition exposure_check (cfg : Config.t) (self : t) (quantity price : Q) : result verdict :=
  let trade_value := quantity * price in
  match total_exposure self with
  | None => Raise (AttributeError "total_exposure")
  | Some exposure =>
      account_value ← get_account_value cfg self;
      if Py.gtb (exposure + trade_value) (account_value * (9 # 10))
      then Ok (Reject ExposureCeiling)
      else Ok Accept
  end.

(** [validate_trade]: the manager and the signal as they are when the call
    ends, and the value returned or the exception raised. *)
Definition validate_trade (cfg : Config.t) (self : t) (conn : connection)
    (signal : Signal) : t * Signal * result verdict :=
  let self := update_account_state cfg self conn in
  let symbol := sig_symbol signal in
  let side := sig_side signal in
  let price := default 0 (sig_price signal) in
  if (Z.of_nat (size (open_positions self)) >=? MAX_OPEN_TRADES cfg)%Z
  then (self, signal, Ok (Reject MaxOpenTrades))
  else if match open_positions self !! symbol with
          | Some current_position => opposite_direction side current_position
          | None => false
          end
  then (self, signal, Ok (Reject OppositeDirection))
  else
    match calculate_max_position_size cfg self symbol price with
    | Raise e => (self, signal, Raise e)
    | Ok max_position_size =>
        let '(quantity, signal) := clamp_quantity max_position_size signal in
        if Py.ltb quantity min_position_size
        then (self, signal, Ok (Reject BelowMinimumSize))
        else
          let signal := backfill_stop_loss cfg price signal in
          let signal := backfill_take_profit cfg price signal in
          (self, signal, exposure_check cfg self quantity price)
    end.

(** A trade of [open_trades].  [stop_loss] is absent when the signal it came
    from carried none. *)
Record trade := {
  trade_symbol : string;
  trade_side : string;
  trade_price : Q;
  trade_stop_loss : option Q
}.

Definition set_trade_stop_loss (tr : trade) (v : Q) : trade :=
  {| trade_symbol := trade_symbol tr; trade_side := trade_side tr;
     trade_price := trade_price tr; trade_stop_loss := Some v |}.

(** [get_current_price]: the placeholder body of the source. *)
Definition get_current_price (symbol : string) : Q := 50000.

(** The body of the [try] of [adjust_stops] for one trade, with the price
    read from [price_of]. *)
Definition adjust_trade (cfg : Config.t) (price_of : string -> Q) (tr : trade) : result trade :=
  let symbol := trade_symbol tr in
  let side := trade_side tr in
  let entry_price := trade_price tr in
  let current_price := price_of symbol in
  if String.eqb side "BUY" then
    let new_stop := current_price * (1 - TRAILING_STOP_PCT cfg) in
    stop ← from_option Ok (Raise (KeyError "stop_loss")) (trade_stop_loss tr);
    if Py.gtb new_stop stop then Ok (set_trade_stop_loss tr new_stop) else Ok tr
  else
    let new_stop := current_price * (1 + TRAILING_STOP_PCT cfg) in
    stop ← from_option Ok (Raise (KeyError "stop_loss")) (trade_stop_loss tr);
    if Py.ltb new_stop stop then Ok (set_trade_stop_loss tr new_stop) else Ok tr.

(** One iteration of the loop: an exception leaves the trade as it was. *)
Definition adjust_trade_guarded (cfg : Config.t) (price_of : string -> Q) (tr : trade) : trade :=
  match adjust_trade cfg price_of tr with
  | Ok tr' => tr'
  | Raise _ => tr
  end.

(** [adjust_stops] with the market price supplied by [price_of]; the trades
    are updated in place, each on its own. *)
Definition adjust_stops_at (cfg : Config.t) (price_of : string -> Q)
    (open_trades : gmap Z trade) : gmap Z trade :=
  if negb (USE_TRAILING_STOP cfg) then open_trades
  else adjust_trade_guarded cfg price_of <$> open_trades.

Definition adjust_stops (cfg : Config.t) (open_trades : gmap Z trade) : gmap Z trade :=
  adjust_stops_at cfg get_current_price open_trades.

(** Successive calls, one per cycle, the market price of each cycle given by
    one element of [feeds]. *)
Definition adjust_stops_run (cfg : Config.t) (feeds : list (string -> Q))
    (open_trades : gmap Z trade) : gmap Z trade :=
  fold_left (fun trades price_of => adjust_stops_at cfg price_of trades) feeds open_trades.

End RiskManager.

(** ** Data frames *)

(** One numeric cell of a column; [NaN] is the "not available" value pandas
    writes where a window or a shift has nothing to show. *)
Inductive cell : Type :=
  | NaN
  | Val (q : Q).

Abbreviation column := (list cell).

(** A [DataFrame]: its index (candle open times, in milliseconds), the name
    of the index when it has one, and its columns by label. *)
Record frame := {
  index_name : option string;
  index : list Z;
  cols : gmap string column
}.

Module Pd.

(** [pd.DataFrame()]. *)
Definition DataFrame : frame :=
  {| index_name := None; index := []; cols := ∅ |}.

(** [len(df)]. *)
Definition len (df : frame) : nat := length (index df).

(** [df.empty]: some axis has length zero. *)
Definition empty (df : frame) : bool :=
  (len df =? 0)%nat || bool_decide (cols df = ∅).

(** [df[label]]. *)
Definition getitem (df : frame) (label : string) : result column :=
  match cols df !! label with
  | Some c => Ok c
  | None => Raise (KeyError label)
  end.

(** [df[label] = c]. *)
Definition setitem (df : frame) (label : string) (c : column) : frame :=
  {| index_name := index_name df; index := index df;
     cols := <[label := c]> (cols df) |}.

Definition cell_gt (a b : cell) : bool :=
  match a, b with
  | Val x, Val y => Py.gtb x y
  | _, _ => false
  end.
Definition cell_lt (a b : cell) : bool := cell_gt b a.
Definition cell_le (a b : cell) : bool :=
  match a, b with
  | Val x, Val y => Py.leb x y
  | _, _ => false
  end.
Definition cell_ge (a b : cell) : bool := cell_le b a.

(** The builtins [max(a, b)] and [min(a, b)] on cells. *)
Definition cell_max (a b : cell) : cell := if cell_gt b a then b else a.
Definition cell_min (a b : cell) : cell := if cell_lt b a then b else a.

Definition cell_add (a b : cell) : cell :=
  match a, b with
  | Val x, Val y => Val (x + y)
  | _, _ => NaN
  end.
Definition cell_sub (a b : cell) : cell :=
  match a, b with
  | Val x, Val y => Val (x - y)
  | _, _ => NaN
  end.
Definition cell_scale (k : Q) (a : cell) : cell :=
  match a with
  | Val x => Val (k * x)
  | NaN => NaN
  end.
Definition cell_over (k : Q) (a : cell) : cell :=
  match a with
  | Val x => Val (x / k)
  | NaN => NaN
  end.
Definition cell_mul (a b : cell) : cell :=
  match a, b with
  | Val x, Val y => Val (x * y)
  | _, _ => NaN
  end.
(** A quotient of cells.  numpy answers [nan] or an infinity for a zero
    divisor; both are folded into [NaN] here. *)
Definition cell_div (a b : cell) : cell :=
  match a, b with
  | Val x, Val y => if Py.eqb y 0 then NaN else Val (x / y)
  | _, _ => NaN
  end.

(** [a + b], [a - b], [a * b], [k * a] and [a / k] on columns of one
    frame. *)
Definition add (a b : column) : column := zip_with cell_add a b.
Definition sub (a b : column) : column := zip_with cell_sub a b.
Definition mul (a b : column) : column := zip_with cell_mul a b.
Definition scale (k : Q) (a : column) : column := cell_scale k <$> a.
Definition over (k : Q) (a : column) : column := cell_over k <$> a.
Definition half (a : column) : column := over 2 a.

(** The cells a window of [w] rows ending at row [i] covers, when the window
    is full. *)
Definition window (w : nat) (c : column) (i : nat) : option (list cell) :=
  if (1 <=? w)%nat && (w <=? S i)%nat
  then Some (take w (drop (S i - w) c))
  else None.

(** An aggregate over a full window is available only when every cell is. *)
Definition aggregate (pick : Q -> Q -> Q) (win : list cell) : cell :=
  match win with
  | [] => NaN
  | x :: rest => fold_left (fun acc y =>
                   match acc, y with
                   | Val a, Val b => Val (pick a b)
                   | _, _ => NaN
                   end) rest x
  end.

(** [c.rolling(window=w).max()] and [.min()]. *)
Definition rolling (pick : Q -> Q -> Q) (w : nat) (c : column) : column :=
  (fun i => match window w c i with
            | Some win => aggregate pick win
            | None => NaN
            end) <$> seq 0 (length c).
Definition rolling_max (w : nat) (c : column) : column := rolling Py.max w c.
Definition rolling_min (w : nat) (c : column) : column := rolling Py.min w c.

(** [c.shift(k)]: row [i] shows row [i - k], or [NaN] outside the column. *)
Definition shift (k : Z) (c : column) : column :=
  (fun i => let j := (Z.of_nat i - k)%Z in
            if (0 <=? j)%Z && (j <? Z.of_nat (length c))%Z
            then nth (Z.to_nat j) c NaN
            else NaN) <$> seq 0 (length c).

(** [c.iloc[-k]] for [k >= 1]. *)
Definition iloc_neg (k : nat) (c : column) : result cell :=
  if (1 <=? k)%nat && (k <=? length c)%nat
  then Ok (nth (length c - k) c NaN)
  else Raise IndexError.

End Pd.

(** ** base_strategy.py *)

Module BaseStrategy.

Import Config.

Record t := {
  config : Config.t;
  name : string;
  (* [None] until the strategy manager injects the connection *)
  connection_of : option connection
}.

Definition init (cfg : Config.t) : t :=
  {| config := cfg; name := "base"; connection_of := None |}.

Definition generate_signals (self : t) (data : frame) : result (list Signal) :=
  Ok [].

Definition get_account_balance (self : t) : result Q :=
  match connection_of self with
  | Some conn =>
      let quote_currency := Py.take_last 4 (SYMBOL (config self)) in
      balances ← get_account_balance conn;
      match balances !! quote_currency with
      | Some bal => Ok (free bal)
      | None => Ok 10000
      end
  | None => Ok 10000
  end.

Definition calculate_position_size {ties : Py.Ties} (self : t) (price : Q) (side : string)
    : result Q :=
  account_balance ← get_account_balance self;
  let risk_amount := account_balance * RISK_PER_TRADE (config self) in
  position_size ← Py.div risk_amount price;
  let position_size := Py.min position_size (MAX_POSITION_SIZE (config self)) in
  let position_size := Py.round position_size 6 in
  Ok position_size.

End BaseStrategy.

(** ** ichimoku.py *)

Module IchimokuStrategy.

Import Config.

Record t := {
  config : Config.t;
  name : string;
  tenkan_period : nat;
  kijun_period : nat;
  senkou_span_b_period : nat;
  displacement : nat
}.

Definition init (cfg : Config.t) : t :=
  {| config := cfg; name := "ichimoku";
     tenkan_period := Config.tenkan_period (ICHIMOKU cfg);
     kijun_period := Config.kijun_period (ICHIMOKU cfg);
     senkou_span_b_period := Config.senkou_span_b_period (ICHIMOKU cfg);
     displacement := Config.displacement (ICHIMOKU cfg) |}.

(** [calculate_ichimoku]: writes five columns into [df] and returns it. *)
Definition calculate_ichimoku (self : t) (df : frame) : result frame :=
  high ← Pd.getitem df "high";
  let high_tenkan := Pd.rolling_max (tenkan_period self) high in
  low ← Pd.getitem df "low";
  let low_tenkan := Pd.rolling_min (tenkan_period self) low in
  let df := Pd.setitem df "tenkan_sen" (Pd.half (Pd.add high_tenkan low_tenkan)) in
  high ← Pd.getitem df "high";
  let high_kijun := Pd.rolling_max (kijun_period self) high in
  low ← Pd.getitem df "low";
  let low_kijun := Pd.rolling_min (kijun_period self) low in
  let df := Pd.setitem df "kijun_sen" (Pd.half (Pd.add high_kijun low_kijun)) in
  tenkan_sen ← Pd.getitem df "tenkan_sen";
  kijun_sen ← Pd.getitem df "kijun_sen";
  let df := Pd.setitem df "senkou_span_a"
              (Pd.shift (Z.of_nat (displacement self))
                 (Pd.half (Pd.add tenkan_sen kijun_sen))) in
  high ← Pd.getitem df "high";
  let high_senkou := Pd.rolling_max (senkou_span_b_period self) high in
  low ← Pd.getitem df "low";
  let low_senkou := Pd.rolling_min (senkou_span_b_period self) low in
  let df := Pd.setitem df "senkou_span_b"
              (Pd.shift (Z.of_nat (displacement self))
                 (Pd.half (Pd.add high_senkou low_senkou))) in
  close ← Pd.getitem df "close";
  let df := Pd.setitem df "chikou_span"
              (Pd.shift (- Z.of_nat (displacement self)) close) in
  Ok df.

Definition get_account_balance (self : t) : Q := 10000.

Definition calculate_position_size {ties : Py.Ties} (self : t) (price : Q) (side : string)
    : result Q :=
  let account_balance := get_account_balance self in
  let risk_amount := account_balance * RISK_PER_TRADE (config self) in
  position_size ← Py.div risk_amount price;
  let position_size := Py.min position_size (MAX_POSITION_SIZE (config self)) in
  let position_size := Py.round position_size 6 in
  Ok position_size.

(** The signal dictionaries of lines 105-114 and 117-126.  They are built
    only when the comparisons that set [buy_signal] or [sell_signal] held, so
    the price and Kijun-sen are numbers there. *)
Definition buy_dict {ties : Py.Ties} (self : t) (now : Z) (current_price kijun : Q)
    : result Signal :=
  quantity ← calculate_position_size self current_price "BUY";
  Ok {| sig_strategy := name self;
        sig_symbol := SYMBOL (config self);
        sig_side := "BUY";
        sig_price := Some current_price;
        sig_quantity := quantity;
        sig_stop_loss := Some (kijun * (99 # 100));
        sig_take_profit := Some (current_price + (current_price - kijun) * 2);
        sig_timestamp := now;
        sig_confidence := None |}.

Definition sell_dict {ties : Py.Ties} (self : t) (now : Z) (current_price kijun : Q)
    : result Signal :=
  quantity ← calculate_position_size self current_price "SELL";
  Ok {| sig_strategy := name self;
        sig_symbol := SYMBOL (config self);
        sig_side := "SELL";
        sig_price := Some current_price;
        sig_quantity := quantity;
        sig_stop_loss := Some (kijun * (101 # 100));
        sig_take_profit := Some (current_price - (kijun - current_price) * 2);
        sig_timestamp := now;
        sig_confidence := None |}.

(** [generate_signals]; [now] is the value of [pd.Timestamp.now()].  The
    caller's [data] is copied first, so only the copy gets the new columns. *)
Definition generate_signals {ties : Py.Ties} (self : t) (now : Z) (data : frame)
    : result (list Signal) :=
  let df := data in
  df ← calculate_ichimoku self df;
  let signals := [] in
  if (Pd.len df <? senkou_span_b_period self + displacement self)%nat
  then Ok signals
  else
    let d := displacement self in
    close ← Pd.getitem df "close";
    current_price ← Pd.iloc_neg 1 close;
    tenkan_sen ← Pd.getitem df "tenkan_sen";
    tenkan ← Pd.iloc_neg 1 tenkan_sen;
    kijun_sen ← Pd.getitem df "kijun_sen";
    kijun ← Pd.iloc_neg 1 kijun_sen;
    senkou_span_a ← Pd.getitem df "senkou_span_a";
    span_a ← Pd.iloc_neg 1 senkou_span_a;
    senkou_span_b ← Pd.getitem df "senkou_span_b";
    span_b ← Pd.iloc_neg 1 senkou_span_b;
    chikou ← (if (d + 1 <? Pd.len df)%nat
              then chikou_span ← Pd.getitem df "chikou_span";
                   c ← Pd.iloc_neg (d + 1) chikou_span;
                   Ok (Some c)
              else Ok None);
    prev_tenkan ← Pd.iloc_neg 2 tenkan_sen;
    prev_kijun ← Pd.iloc_neg 2 kijun_sen;
    let cloud_top := Pd.cell_max span_a span_b in
    let cloud_bottom := Pd.cell_min span_a span_b in
    let bullish_cloud := Pd.cell_gt span_a span_b in
    let tk_cross_bullish := Pd.cell_gt tenkan kijun && Pd.cell_le prev_tenkan prev_kijun in
    let price_above_cloud := Pd.cell_gt current_price cloud_top in
    chikou_bullish ← (if (2 * d + 1 <? Pd.len df)%nat
                      then match chikou with
                           | None => Ok false
                           | Some c => past ← Pd.iloc_neg (2 * d + 1) close;
                                       Ok (Pd.cell_gt c past)
                           end
                      else Ok false);
    let buy_signal :=
      tk_cross_bullish && price_above_cloud && bullish_cloud && chikou_bullish in
    let tk_cross_bearish := Pd.cell_lt tenkan kijun && Pd.cell_ge prev_tenkan prev_kijun in
    let price_below_cloud := Pd.cell_lt current_price cloud_bottom in
    chikou_bearish ← (if (2 * d + 1 <? Pd.len df)%nat
                      then match chikou with
                           | None => Ok false
                           | Some c => past ← Pd.iloc_neg (2 * d + 1) close;
                                       Ok (Pd.cell_lt c past)
                           end
                      else Ok false);
    let sell_signal :=
      tk_cross_bearish && price_below_cloud && negb bullish_cloud && chikou_bearish in
    signals ← (if buy_signal
               then match current_price, kijun with
                    | Val p, Val k => s ← buy_dict self now p k; Ok (signals ++ [s])
                    | _, _ => Ok signals
                    end
               else Ok signals);
    signals ← (if sell_signal
               then match current_price, kijun with
                    | Val p, Val k => s ← sell_dict self now p k; Ok (signals ++ [s])
                    | _, _ => Ok signals
                    end
               else Ok signals);
    Ok signals.

End IchimokuStrategy.

(** ** strategy_manager.py *)

Module StrategyManager.

(** What the manager asks of a loaded strategy object: its
    [generate_signals], which returns a list of signals or raises. *)
Class Strategy := {
  generate_signals_of : frame -> result (list Signal)
}.

#[export] Instance base_strategy (self : BaseStrategy.t) : Strategy :=
  {| generate_signals_of := BaseStrategy.generate_signals self |}.

#[export] Instance ichimoku_strategy {ties : Py.Ties} (self : IchimokuStrategy.t) (now : Z)
    : Strategy :=
  {| generate_signals_of := IchimokuStrategy.generate_signals self now |}.

Record t := {
  strategies : gmap string Strategy;
  enabled_strategies : list string
}.

(** One iteration of the loop of [generate_signals]: [all_signals] after it.
    The [try] covers the call and the [extend]. *)
Definition run_strategy (self : t) (data : frame) (all_signals : list Signal)
    (strategy_name : string) : result (list Signal) :=
  match strategies self !! strategy_name with
  | None => Ok all_signals                      (* warning, [continue] *)
  | Some strategy =>
      try_except
        (signals ← @generate_signals_of strategy data;
         Ok (all_signals ++ signals))
        (fun e => Ok all_signals)               (* logged *)
  end.

Fixpoint run_strategies (self : t) (data : frame) (names : list string)
    (all_signals : list Signal) : result (list Signal) :=
  match names with
  | [] => Ok all_signals
  | strategy_name :: rest =>
      all_signals ← run_strategy self data all_signals strategy_name;
      run_strategies self data rest all_signals
  end.

(** [x.get('confidence', 0)]. *)
Definition confidence_key (x : Signal) : Q := default 0 (sig_confidence x).

(** ['confidence' in x]. *)
Definition has_confidence (x : Signal) : bool :=
  Py.contains (sig_confidence x).

(** [l.sort(key=key, reverse=True)]: descending, and signals with equal keys
    keep their order. *)
Fixpoint insert_desc (key : Signal -> Q) (x : Signal) (l : list Signal) : list Signal :=
  match l with
  | [] => [x]
  | y :: l' =>
      if Py.gtb (key y) (key x) then y :: insert_desc key x l'
      else x :: y :: l'
  end.

Definition sort_desc (key : Signal -> Q) (l : list Signal) : list Signal :=
  fold_right (insert_desc key) [] l.

(** Lines 96-98. *)
Definition order_signals (all_signals : list Signal) : list Signal :=
  match all_signals with
  | first :: _ =>
      if has_confidence first then sort_desc confidence_key all_signals
      else all_signals
  | [] => all_signals
  end.

Definition generate_signals (self : t) (data : frame) : result (list Signal) :=
  all_signals ← run_strategies self data (enabled_strategies self) [];
  Ok (order_signals all_signals).

(** [max(first :: rest, key=key)]: the first signal whose key is maximal. *)
Definition max_by (key : Signal -> Q) (first : Signal) (rest : list Signal) : Signal :=
  fold_left (fun best y => if Py.gtb (key y) (key best) then y else best) rest first.

(** Lines 124 and 131. *)
Definition best_signal (side_signals : list Signal) : option Signal :=
  match side_signals with
  | first :: rest =>
      Some (if has_confidence first then max_by confidence_key first rest
            else first)
  | [] => None
  end.

Definition combine_signals (signals : list Signal) : list Signal :=
  let buy_signals := filter (fun s => sig_side s = "BUY"%string) signals in
  let sell_signals := filter (fun s => sig_side s = "SELL"%string) signals in
  let total_signals := length signals in
  if (total_signals =? 0)%nat then []
  else
    let buy_percentage :=
      inject_Z (Z.of_nat (length buy_signals)) / inject_Z (Z.of_nat total_signals) in
    let sell_percentage :=
      inject_Z (Z.of_nat (length sell_signals)) / inject_Z (Z.of_nat total_signals) in
    let combined_signals := [] in
    let combined_signals :=
      if Py.gtb buy_percentage (6 # 10)
      then match best_signal buy_signals with
           | Some best => combined_signals ++ [best]
           | None => combined_signals
           end
      else combined_signals in
    let combined_signals :=
      if Py.gtb sell_percentage (6 # 10)
      then match best_signal sell_signals with
           | Some best => combined_signals ++ [best]
           | None => combined_signals
           end
      else combined_signals in
    combined_signals.

End StrategyManager.

(** ** data_processor.py *)

Module DataProcessor.

Import Config.

(** The functions of the external package [ta] that [calculate_indicators]
    calls, each from its input columns to the column it returns. *)
Record ta_library := {
  sma_indicator : column -> nat -> column;
  ema_indicator : column -> nat -> column;
  macd : column -> column;
  macd_signal : column -> column;
  macd_diff : column -> column;
  rsi : column -> column;
  bollinger_hband : column -> column;
  bollinger_mavg : column -> column;
  bollinger_lband : column -> column;
  on_balance_volume : column -> column -> column
}.

(** A statement that assigns columns of [df] in place: it raises before it
    changes anything, or returns [df] as changed. *)
Definition statement := frame -> result frame.

(** The statements of a body in order; at an exception the frame keeps what
    the earlier statements wrote. *)
Fixpoint run (body : list statement) (df : frame) : frame * result () :=
  match body with
  | [] => (df, Ok ())
  | st :: rest =>
      match st df with
      | Ok df' => run rest df'
      | Raise e => (df, Raise e)
      end
  end.

(** [df[dst] = f(df[src])]. *)
Definition assign (dst src : string) (f : column -> column) : statement :=
  fun df => c ← Pd.getitem df src; Ok (Pd.setitem df dst (f c)).

(** Milliseconds in a day, and the calendar day of an open time. *)
Definition day_ms : Z := 86400000.
Definition date_of (open_time : Z) : Z := (open_time / day_ms)%Z.

(** [cumsum()] of a group, read at its last row: the sum of the available
    cells, and [NaN] where the row's own cell is not available. *)
Definition cumsum_last (group : list cell) (own : cell) : cell :=
  match own with
  | NaN => NaN
  | Val _ => fold_left (fun acc y => match y with
                                     | Val v => Pd.cell_add acc (Val v)
                                     | NaN => acc
                                     end) group (Val 0)
  end.

(** The [vwap] cell of row [i]: the rows of the same date up to [i] form
    the part of its group that the two cumulative sums have seen. *)
Definition vwap_at (dates : list Z) (volume vol_price : column) (i : nat) : cell :=
  let day := nth i dates 0%Z in
  let same_day (c : column) : list cell :=
    snd <$> filter (fun p => fst p = day) (zip (take (S i) dates) (take (S i) c)) in
  let cum_vol := cumsum_last (same_day volume) (nth i volume NaN) in
  let cum_vol_price := cumsum_last (same_day vol_price) (nth i vol_price NaN) in
  Pd.cell_div cum_vol_price cum_vol.

(** [calculate_vwap].  The frame returned has the columns of [df] and
    [vwap]; a [vwap] column that [df] already had is replaced (pandas would
    carry both under the same label). *)
Definition calculate_vwap (df : frame) : result frame :=
  (* [df.reset_index()] and [df_copy['open_time'].dt.date] *)
  if Py.contains (cols df !! "open_time"%string)
  then Raise (if bool_decide (index_name df = Some "open_time"%string)
              then ValueError "cannot insert open_time, already exists"
              else KeyError "open_time")
  else if negb (bool_decide (index_name df = Some "open_time"%string))
  then Raise (KeyError "open_time")
  else
    let dates := date_of <$> index df in
    let date_column : column := (fun d => Val (inject_Z d)) <$> dates in
    match index df with
    | [] =>
        (* no group: the loop body never runs *)
        Ok (Pd.setitem df "vwap" [])
    | _ :: _ =>
        volume ← Pd.getitem df "volume";
        high ← Pd.getitem df "high";
        low ← Pd.getitem df "low";
        close ← Pd.getitem df "close";
        let vol_price := Pd.over 3 (Pd.mul volume (Pd.add (Pd.add high low) close)) in
        let vwap := vwap_at dates volume vol_price <$> seq 0 (Pd.len df) in
        (* [df_copy[df.columns.tolist() + ['vwap']]]: an original [date]
           column comes back overwritten *)
        let kept := if Py.contains (cols df !! "date"%string)
                    then Pd.setitem df "date" date_column
                    else df in
        Ok (Pd.setitem kept "vwap" vwap)
    end.

(** [calculate_pivot_points]: works on [df.copy()], which it returns. *)
Definition calculate_pivot_points (cfg : Config.t) (df : frame) : result frame :=
  let df_copy := df in
  let lookback := default 1%Z (PIVOT_POINT_lookback_period cfg) in
  let shifted (label : string) (d : frame) : result column :=
    c ← Pd.getitem d label; Ok (Pd.shift lookback c) in
  high ← shifted "high" df_copy;
  low ← shifted "low" df_copy;
  close ← shifted "close" df_copy;
  let df_copy := Pd.setitem df_copy "pivot" (Pd.over 3 (Pd.add (Pd.add high low) close)) in
  pivot ← Pd.getitem df_copy "pivot";
  low ← shifted "low" df_copy;
  let df_copy := Pd.setitem df_copy "r1" (Pd.sub (Pd.scale 2 pivot) low) in
  pivot ← Pd.getitem df_copy "pivot";
  high ← shifted "high" df_copy;
  let df_copy := Pd.setitem df_copy "s1" (Pd.sub (Pd.scale 2 pivot) high) in
  pivot ← Pd.getitem df_copy "pivot";
  high ← shifted "high" df_copy;
  low ← shifted "low" df_copy;
  let df_copy := Pd.setitem df_copy "r2" (Pd.add pivot (Pd.sub high low)) in
  pivot ← Pd.getitem df_copy "pivot";
  high ← shifted "high" df_copy;
  low ← shifted "low" df_copy;
  let df_copy := Pd.setitem df_copy "s2" (Pd.sub pivot (Pd.sub high low)) in
  high ← shifted "high" df_copy;
  pivot ← Pd.getitem df_copy "pivot";
  low ← shifted "low" df_copy;
  let df_copy := Pd.setitem df_copy "r3" (Pd.add high (Pd.scale 2 (Pd.sub pivot low))) in
  low ← shifted "low" df_copy;
  high ← shifted "high" df_copy;
  pivot ← Pd.getitem df_copy "pivot";
  let df_copy := Pd.setitem df_copy "s3" (Pd.sub low (Pd.scale 2 (Pd.sub high pivot))) in
  Ok df_copy.

(** The assignments of lines 98-121, each writing into the frame it was
    given. *)
Definition indicator_statements (ta : ta_library) : list statement :=
  [ assign "sma_20" "close" (fun c => sma_indicator ta c 20);
    assign "sma_50" "close" (fun c => sma_indicator ta c 50);
    assign "sma_200" "close" (fun c => sma_indicator ta c 200);
    assign "ema_12" "close" (fun c => ema_indicator ta c 12);
    assign "ema_26" "close" (fun c => ema_indicator ta c 26);
    (* [macd = ta.trend.MACD(df['close'])] and its three columns *)
    (fun df => close ← Pd.getitem df "close";
               let df := Pd.setitem df "macd_line" (macd ta close) in
               let df := Pd.setitem df "macd_signal" (macd_signal ta close) in
               Ok (Pd.setitem df "macd_histogram" (macd_diff ta close)));
    assign "rsi" "close" (rsi ta);
    (* [bollinger = ta.volatility.BollingerBands(df['close'])] *)
    (fun df => close ← Pd.getitem df "close";
               let df := Pd.setitem df "bb_upper" (bollinger_hband ta close) in
               let df := Pd.setitem df "bb_middle" (bollinger_mavg ta close) in
               Ok (Pd.setitem df "bb_lower" (bollinger_lband ta close)));
    (fun df => close ← Pd.getitem df "close";
               volume ← Pd.getitem df "volume";
               Ok (Pd.setitem df "obv" (on_balance_volume ta close volume))) ]%string.

(** The labels those statements write. *)
Definition indicator_labels : list string :=
  [ "sma_20"; "sma_50"; "sma_200"; "ema_12"; "ema_26";
    "macd_line"; "macd_signal"; "macd_histogram"; "rsi";
    "bb_upper"; "bb_middle"; "bb_lower"; "obv" ]%string.

(** [calculate_indicators]: the caller's frame as the call leaves it, and
    the frame returned or the exception raised. *)
Definition calculate_indicators (ta : ta_library) (cfg : Config.t) (df : frame)
    : frame * result frame :=
  if Pd.empty df then (df, Ok df)
  else
    match run (indicator_statements ta) df with
    | (df, Raise e) => (df, Raise e)
    | (df, Ok _) =>
        (df, (with_vwap ← calculate_vwap df;
              calculate_pivot_points cfg with_vwap))
    end.

(** One candle as the exchange reports it, already converted by [astype]. *)
Record kline := {
  k_open_time : Z;
  k_open : Q; k_high : Q; k_low : Q; k_close : Q; k_volume : Q;
  k_close_time : Z;
  k_quote_asset_volume : Q;
  k_number_of_trades : Q;
  k_taker_buy_base_asset_volume : Q;
  k_taker_buy_quote_asset_volume : Q;
  k_ignore : Q
}.

Definition _klines_to_dataframe (klines : list kline) : frame :=
  let col (f : kline -> Q) : column := (fun k => Val (f k)) <$> klines in
  {| index_name := Some "open_time"%string;
     index := k_open_time <$> klines;
     cols := list_to_map
       [ ("open", col k_open); ("high", col k_high); ("low", col k_low);
         ("close", col k_close); ("volume", col k_volume);
         ("close_time", col (fun k => inject_Z (k_close_time k)));
         ("quote_asset_volume", col k_quote_asset_volume);
         ("number_of_trades", col k_number_of_trades);
         ("taker_buy_base_asset_volume", col k_taker_buy_base_asset_volume);
         ("taker_buy_quote_asset_volume", col k_taker_buy_quote_asset_volume);
         ("ignore", col k_ignore) ]%string |}.

Record t := {
  data_cache : gmap string frame;
  last_update : gmap string Q
}.

Definition init : t := {| data_cache := ∅; last_update := ∅ |}.

(** [get_latest_data(symbol, timeframe)]: [current_time] is the clock in
    seconds and [klines] the answer of [connection.get_klines]. *)
Definition get_latest_data (ta : ta_library) (cfg : Config.t) (self : t)
    (current_time : Q) (klines : result (list kline))
    (symbol timeframe : option string) : t * result frame :=
  let symbol := default (SYMBOL cfg) symbol in
  let timeframe := default (DEFAULT_TIMEFRAME cfg) timeframe in
  let cache_key := (symbol +:+ "_" +:+ timeframe)%string in
  let refresh :=
    match (ks ← klines;
           (calculate_indicators ta cfg (_klines_to_dataframe ks)).2) with
    | Ok df =>
        ({| data_cache := <[cache_key := df]> (data_cache self);
            last_update := <[cache_key := current_time]> (last_update self) |},
         Ok df)
    | Raise _ =>
        (self, Ok (default Pd.DataFrame (data_cache self !! cache_key)))
    end in
  match last_update self !! cache_key with
  | Some updated =>
      let seconds_since_update := current_time - updated in
      match TIMEFRAMES cfg !! timeframe with
      | None => (self, Raise (KeyError timeframe))
      | Some period =>
          if Py.ltb seconds_since_update (period / 2)
          then (self, from_option Ok (Raise (KeyError cache_key))
                        (data_cache self !! cache_key))
          else refresh
      end
  | None => refresh
  end.

End DataProcessor.

(** ** binance_connection.py: the account balances *)

Module BinanceConnection.

(** One element of [response['balances']], its amounts already through
    [float()]. *)
Record asset_entry := {
  asset : string;
  asset_free : Q;
  asset_locked : Q
}.

(** The body of the loop of [get_account_balance]. *)
Definition record_asset (balances : gmap string balance) (a : asset_entry)
    : gmap string balance :=
  if Py.gtb (asset_free a) 0 || Py.gtb (asset_locked a) 0
  then <[asset a := {| free := asset_free a; locked := asset_locked a;
                       total := asset_free a + asset_locked a |}]> balances
  else balances.

(** [get_account_balance], [response] being what [_make_request] returns for
    [/v3/account] or the exception it raises. *)
Definition get_account_balance (response : result (list asset_entry))
    : result (gmap string balance) :=
  entries ← response;
  Ok (fold_left record_asset entries ∅).

End BinanceConnection.

(** ** strategy_manager.py: the registry *)

Module StrategyRegistry.

(** [strategy_modules] of [_load_strategies]. *)
Definition strategy_modules : gmap string string :=
  list_to_map
    [ ("ichimoku", "strategies.ichimoku"); ("pivot_point", "strategies.pivot_point");
      ("vwap", "strategies.vwap"); ("gap", "strategies.gap");
      ("pullback", "strategies.pullback"); ("news", "strategies.news");
      ("range", "strategies.range"); ("reversal", "strategies.reversal");
      ("breakout", "strategies.breakout"); ("momentum", "strategies.momentum");
      ("scalping", "strategies.scalping") ]%string.

Definition is_lower (c : ascii) : bool :=
  let n := nat_of_ascii c in (97 <=? n)%nat && (n <=? 122)%nat.
Definition is_upper (c : ascii) : bool :=
  let n := nat_of_ascii c in (65 <=? n)%nat && (n <=? 90)%nat.
Definition lower_ascii (c : ascii) : ascii :=
  if is_upper c then ascii_of_nat (nat_of_ascii c + 32) else c.

(** [word.title()] on ASCII: a letter that follows a letter is lowered, any
    other letter is raised. *)
Fixpoint title_from (previous_is_cased : bool) (s : string) : string :=
  match s with
  | EmptyString => EmptyString
  | String c s' =>
      if is_lower c || is_upper c
      then String (if previous_is_cased then lower_ascii c else Py.upper_ascii c)
                  (title_from true s')
      else String c (title_from false s')
  end.
Definition title (s : string) : string := title_from false s.

(** [s.split('_')]. *)
Fixpoint split_underscore (current : string) (s : string) : list string :=
  match s with
  | EmptyString => [current]
  | String c s' =>
      if Ascii.eqb c "_" then current :: split_underscore EmptyString s'
      else split_underscore (current +:+ String c EmptyString) s'
  end.

(** [''.join(word.title() for word in strategy_name.split('_')) + 'Strategy']. *)
Definition class_name (strategy_name : string) : string :=
  (fold_right String.append EmptyString (title <$> split_underscore EmptyString strategy_name)
   +:+ "Strategy")%string.

(** The import machinery and the constructor: for a module path and a class
    name, the strategy object built (the connection and the risk manager
    already attached) or the exception raised on the way. *)
Definition importer := string -> string -> result StrategyManager.Strategy.

(** One iteration of the loop of [_load_strategies]: the registry after
    it. *)
Definition load_strategy (import : importer) (strategies : gmap string StrategyManager.Strategy)
    (strategy_name : string) : gmap string StrategyManager.Strategy :=
  match strategy_modules !! strategy_name with
  | None => strategies                          (* error logged, [continue] *)
  | Some module_path =>
      match import module_path (class_name strategy_name) with
      | Ok strategy => <[strategy_name := strategy]> strategies
      | Raise _ => strategies                   (* logged *)
      end
  end.

Definition _load_strategies (import : importer) (self : StrategyManager.t) : StrategyManager.t :=
  {| StrategyManager.strategies :=
       fold_left (load_strategy import) (StrategyManager.enabled_strategies self)
         (StrategyManager.strategies self);
     StrategyManager.enabled_strategies := StrategyManager.enabled_strategies self |}.

(** [StrategyManager.__init__]. *)
Definition init (import : importer) (cfg : Config.t) : StrategyManager.t :=
  _load_strategies import
    {| StrategyManager.strategies := ∅;
       StrategyManager.enabled_strategies := Config.ENABLED_STRATEGIES cfg |}.

Definition set_enabled_strategies (import : importer) (self : StrategyManager.t)
    (strategy_list : list string) : StrategyManager.t :=
  _load_strategies import
    {| StrategyManager.strategies := StrategyManager.strategies self;
       StrategyManager.enabled_strategies := strategy_list |}.

Definition get_enabled_strategies (self : StrategyManager.t) : list string :=
  StrategyManager.enabled_strategies self.

End StrategyRegistry.

(** ** utils.py: the trade history *)

Module TradeHistory.






End TradeHistory.

(** ** Vocabulary of the statements *)

Module Spec.

(** The stop that a trade with stop [stop] shows after one iteration of the
    loop of [adjust_stops]: the candidate replaces the stop only when it is
    strictly on the tightening side. *)
Definition ratchet (cfg : Config.t) (price_of : string -> Q)
    (tr : RiskManager.trade) (stop : Q) : Q :=
  if String.eqb (RiskManager.trade_side tr) "BUY" then
    let new_stop :=
      price_of (RiskManager.trade_symbol tr) * (1 - Config.TRAILING_STOP_PCT cfg) in
    if Py.gtb new_stop stop then new_stop else stop
  else
    let new_stop :=
      price_of (RiskManager.trade_symbol tr) * (1 + Config.TRAILING_STOP_PCT cfg) in
    if Py.ltb new_stop stop then new_stop else stop.

(** What a strategy name of the enabled list adds to [all_signals]: the
    list its strategy returns, and nothing ([None]) when no strategy is
    loaded under the name or when the strategy raises. *)
Definition produced (self : StrategyManager.t) (data : frame) (strategy_name : string)
    : option (list Signal) :=
  match StrategyManager.strategies self !! strategy_name with
  | Some strategy =>
      match @StrategyManager.generate_signals_of strategy data with
      | Ok signals => Some signals
      | Raise _ => None
      end
  | None => None
  end.

(** The concatenation, in the order of the enabled list, of what the enabled
    strategies produced. *)
Definition gathered (self : StrategyManager.t) (data : frame) : list Signal :=
  concat (omap (produced self data) (StrategyManager.enabled_strategies self)).

(** The manager with [strategy_name] struck from its enabled list. *)
Definition without (self : StrategyManager.t) (strategy_name : string) : StrategyManager.t :=
  {| StrategyManager.strategies := StrategyManager.strategies self;
     StrategyManager.enabled_strategies :=
       filter (fun n => n <> strategy_name) (StrategyManager.enabled_strategies self) |}.

(** Descending order of the sort key. *)
Definition descending (key : Signal -> Q) (l : list Signal) : Prop :=
  StronglySorted (fun a b => key b <= key a) l.

(** The signals of [l] whose key equals [q], in the order of [l]. *)
Definition with_key (key : Signal -> Q) (q : Q) (l : list Signal) : list Signal :=
  List.filter (fun s => Py.eqb (key s) q) l.

(** [best] is the first signal of [l] whose key is the greatest of [l]. *)
Definition first_greatest (key : Signal -> Q) (l : list Signal) (best : Signal) : Prop :=
  exists before after,
    l = before ++ best :: after
    /\ Forall (fun y => key y < key best) before
    /\ Forall (fun y => key y <= key best) after.

(** The share of [k] signals among [n]. *)
Definition fraction (k n : nat) : Q :=
  inject_Z (Z.of_nat k) / inject_Z (Z.of_nat n).

Definition buys (signals : list Signal) : list Signal :=
  filter (fun s => sig_side s = "BUY"%string) signals.
Definition sells (signals : list Signal) : list Signal :=
  filter (fun s => sig_side s = "SELL"%string) signals.

End Spec.

(** ** Concrete accounts, signals and frames used in the examples *)

Module Scenarios.

Definition account (usdt btc : Q) : gmap string balance :=
  {[ "USDT"%string := {| free := usdt; locked := 0; total := usdt |};
     "BTC"%string := {| free := btc; locked := 0; total := btc |} ]}.

Definition exchange (usdt btc : Q) : connection :=
  {| get_account_balance := Ok (account usdt btc);
     get_open_orders := Ok [] |}.

Definition fresh_manager : RiskManager.t :=
  {| RiskManager.balances := None; RiskManager.open_orders := None;
     RiskManager.open_positions := ∅; RiskManager.total_exposure := None |}.

(** A bare Buy signal for [quantity] BTC at 50000, without stops. *)
Definition buy_at_50000 (quantity : Q) : Signal :=
  {| sig_strategy := "ichimoku"; sig_symbol := "BTCUSDT"; sig_side := "BUY";
     sig_price := Some 50000; sig_quantity := quantity;
     sig_stop_loss := None; sig_take_profit := None;
     sig_timestamp := 0; sig_confidence := None |}.

(** A long position opened at 50000 with its stop at 49000, and a short one
    with its stop at 51000. *)
Definition long_trade : RiskManager.trade :=
  {| RiskManager.trade_symbol := "BTCUSDT"; RiskManager.trade_side := "BUY";
     RiskManager.trade_price := 50000; RiskManager.trade_stop_loss := Some 49000 |}.

Definition short_trade : RiskManager.trade :=
  {| RiskManager.trade_symbol := "BTCUSDT"; RiskManager.trade_side := "SELL";
     RiskManager.trade_price := 50000; RiskManager.trade_stop_loss := Some 51000 |}.

Definition two_trades : gmap Z RiskManager.trade :=
  {[ 1%Z := long_trade; 2%Z := short_trade ]}.

(** A risk manager after its first refresh against an account holding
    [usdt] and [btc]. *)
Definition manager (usdt btc : Q) : RiskManager.t :=
  RiskManager.init Config.defaults (exchange usdt btc).

(** A base strategy with the default configuration, connected to an account
    whose free quote balance is [usdt]. *)
Definition connected_strategy (usdt : Q) : BaseStrategy.t :=
  {| BaseStrategy.config := Config.defaults; BaseStrategy.name := "base";
     BaseStrategy.connection_of := Some (exchange usdt 0) |}.

(** A frame of candles from integer highs, lows and closes, indexed by
    [open_time] one minute apart. *)
Definition candles (highs lows closes : list Z) : frame :=
  let col (l : list Z) : column := (fun z => Val (inject_Z z)) <$> l in
  {| index_name := Some "open_time"%string;
     index := (fun i => (60000 * Z.of_nat i)%Z) <$> seq 0 (length closes);
     cols := {[ "high"%string := col highs; "low"%string := col lows;
                "close"%string := col closes ]} |}.

(** An Ichimoku strategy with short windows (1, 3, 4, displaced by 1). *)
Definition short_ichimoku : IchimokuStrategy.t :=
  {| IchimokuStrategy.config := Config.defaults;
     IchimokuStrategy.name := "ichimoku";
     IchimokuStrategy.tenkan_period := 1;
     IchimokuStrategy.kijun_period := 3;
     IchimokuStrategy.senkou_span_b_period := 4;
     IchimokuStrategy.displacement := 1 |}.

(** Eight quiet candles that end in a break upwards. *)
Definition breakout : frame :=
  candles [10; 10; 10; 10; 10; 10; 10; 20]%Z [8; 8; 8; 2; 8; 8; 8; 18]%Z
          [9; 9; 9; 9; 9; 9; 9; 19]%Z.

(** A signal of [side] named [tag], with or without a confidence score. *)
Definition tagged (tag side : string) (confidence : option Q) : Signal :=
  {| sig_strategy := tag; sig_symbol := "BTCUSDT"; sig_side := side;
     sig_price := Some 50000; sig_quantity := 1 # 1000;
     sig_stop_loss := None; sig_take_profit := None;
     sig_timestamp := 0; sig_confidence := confidence |}.

(** A strategy that returns [signals] whatever the data, and one that
    raises. *)
Definition returning (signals : list Signal) : StrategyManager.Strategy :=
  {| StrategyManager.generate_signals_of := fun _ => Ok signals |}.
Definition raising (e : exn) : StrategyManager.Strategy :=
  {| StrategyManager.generate_signals_of := fun _ => Raise e |}.

(** Three enabled strategies, the middle one failing. *)
Definition manager_with_failure : StrategyManager.t :=
  {| StrategyManager.strategies :=
       {[ "vwap"%string := returning [tagged "vwap" "BUY" None];
          "gap"%string := raising (KeyError "gap_up");
          "momentum"%string := returning [tagged "momentum" "SELL" None;
                                          tagged "momentum2" "BUY" None] ]};
     StrategyManager.enabled_strategies := ["vwap"; "gap"; "momentum"]%string |}.

(** One strategy whose second signal carries no confidence score. *)
Definition manager_mixed_confidence : StrategyManager.t :=
  {| StrategyManager.strategies :=
       {[ "momentum"%string :=
            returning [tagged "a" "BUY" (Some (1 # 10)); tagged "b" "BUY" None;
                       tagged "c" "BUY" (Some (9 # 10))] ]};
     StrategyManager.enabled_strategies := ["momentum"]%string |}.

(** One candle as the exchange reports it, and the frame the pipeline
    builds from it. *)
Definition one_kline : DataProcessor.kline :=
  {| DataProcessor.k_open_time := 1700000000000;
     DataProcessor.k_open := 50000; DataProcessor.k_high := 50100;
     DataProcessor.k_low := 49900; DataProcessor.k_close := 50050;
     DataProcessor.k_volume := 12;
     DataProcessor.k_close_time := 1700000059999;
     DataProcessor.k_quote_asset_volume := 600000;
     DataProcessor.k_number_of_trades := 42;
     DataProcessor.k_taker_buy_base_asset_volume := 6;
     DataProcessor.k_taker_buy_quote_asset_volume := 300000;
     DataProcessor.k_ignore := 0 |}.

Definition one_candle : frame := DataProcessor._klines_to_dataframe [one_kline].

(** A stand-in for the package [ta], enough to run the examples: the simple
    moving average is the mean of each full window, and every other
    indicator is a column without values. *)
Definition mean (win : list cell) : cell :=
  match Pd.aggregate Qplus win with
  | Val total => Val (total / inject_Z (Z.of_nat (length win)))
  | NaN => NaN
  end.

Definition simple_moving_average (c : column) (w : nat) : column :=
  (fun i => match Pd.window w c i with
            | Some win => mean win
            | None => NaN
            end) <$> seq 0 (length c).

Definition unavailable (c : column) : column := (fun _ => NaN) <$> c.

Definition sample_ta : DataProcessor.ta_library :=
  {| DataProcessor.sma_indicator := simple_moving_average;
     DataProcessor.ema_indicator := fun c _ => unavailable c;
     DataProcessor.macd := unavailable;
     DataProcessor.macd_signal := unavailable;
     DataProcessor.macd_diff := unavailable;
     DataProcessor.rsi := unavailable;
     DataProcessor.bollinger_hband := unavailable;
     DataProcessor.bollinger_mavg := unavailable;
     DataProcessor.bollinger_lband := unavailable;
     DataProcessor.on_balance_volume := fun c _ => unavailable c |}.


Definition exposed_buy_call : RiskManager.t * Signal * result RiskManager.verdict :=
  RiskManager.validate_trade Config.defaults fresh_manager
    (exchange 10000 9500) (buy_at_50000 (12 # 1000)).

(** The indicator pass over the frame of one candle. *)
Definition one_candle_pass : frame * result frame :=
  DataProcessor.calculate_indicators sample_ta Config.defaults one_candle.

(** A Buy without a score followed by a Buy with one. *)
Definition unscored_buy : Signal := tagged "b1" "BUY" None.
Definition scored_buy : Signal := tagged "b2" "BUY" (Some (9 # 10)).

(** A market that quotes [p] for every symbol. *)
Definition quote (p : Q) : string -> Q := fun _ => p.

End Scenarios.

(** ** Further vocabulary and cases used in the statements and examples *)

Module Cases.

(** An exchange that answers the balance request and fails the open-orders
    request. *)
Definition orders_down (usdt btc : Q) : connection :=
  {| get_account_balance := Ok (Scenarios.account usdt btc);
     get_open_orders := Raise (ConnectionFailure "openOrders") |}.

(** An exchange that fails the balance request. *)
Definition exchange_down : connection :=
  {| get_account_balance := Raise (ConnectionFailure "account");
     get_open_orders := Ok [] |}.


(** The connection as the risk manager and the strategies see it, its
    balance request answered by [BinanceConnection.get_account_balance] from
    the exchange's [account] answer. *)
Definition binance (account : result (list BinanceConnection.asset_entry))
    (orders : result (list order)) : connection :=
  {| get_account_balance := BinanceConnection.get_account_balance account;
     get_open_orders := orders |}.

(** An account that holds bitcoin and no USDT. *)
Definition bitcoin_only : list BinanceConnection.asset_entry :=
  [ {| BinanceConnection.asset := "BTC"; BinanceConnection.asset_free := 1;
       BinanceConnection.asset_locked := 0 |};
    {| BinanceConnection.asset := "USDT"; BinanceConnection.asset_free := 0;
       BinanceConnection.asset_locked := 0 |} ].

(** What [_load_strategies] can build for a name: the strategy object the
    import gives for the module and class of a known name, and nothing for
    an unknown name or an import that raises. *)
Definition imported (import : StrategyRegistry.importer) (strategy_name : string)
    : option StrategyManager.Strategy :=
  match StrategyRegistry.strategy_modules !! strategy_name with
  | Some module_path =>
      match import module_path (StrategyRegistry.class_name strategy_name) with
      | Ok strategy => Some strategy
      | Raise _ => None
      end
  | None => None
  end.

(** The list a strategy object answers for [data], and nothing when it
    raises. *)
Definition answered (data : frame) (strategy : StrategyManager.Strategy)
    : option (list Signal) :=
  match @StrategyManager.generate_signals_of strategy data with
  | Ok signals => Some signals
  | Raise _ => None
  end.

(** The labels [calculate_pivot_points] writes. *)
Definition pivot_labels : list string :=
  ["pivot"; "r1"; "s1"; "r2"; "s2"; "r3"; "s3"]%string.

(** The key under which [get_latest_data] caches a symbol and a timeframe. *)
Definition cache_key (cfg : Config.t) (symbol timeframe : option string) : string :=
  (default (Config.SYMBOL cfg) symbol +:+ "_"
   +:+ default (Config.DEFAULT_TIMEFRAME cfg) timeframe)%string.

(** Every key that has a time of last update has a cached frame. *)
Definition stamped_are_cached (self : DataProcessor.t) : Prop :=
  forall key, is_Some (DataProcessor.last_update self !! key) ->
              is_Some (DataProcessor.data_cache self !! key).


(** The cell of column [label] at row [i] of a frame, when there is one. *)
Definition cell_at (df : frame) (label : string) (i : nat) : option cell :=
  cols df !! label ≫= fun c => c !! i.

(** Arithmetic on which every decimal tie goes up, and arithmetic on which
    every decimal tie goes down. *)
Definition ties_up : Py.Ties := fun _ _ => true.
Definition ties_down : Py.Ties := fun _ _ => false.

(** The default configuration with a maximum position size of 0.0000016,
    which is no multiple of 0.000001, and a base strategy that uses it on an
    account with 10000 USDT free. *)
Definition off_grid_maximum : Config.t :=
  {| Config.SYMBOL := Config.SYMBOL Config.defaults;
     Config.TIMEFRAMES := Config.TIMEFRAMES Config.defaults;
     Config.DEFAULT_TIMEFRAME := Config.DEFAULT_TIMEFRAME Config.defaults;
     Config.MAX_POSITION_SIZE := 16 # 10000000;
     Config.RISK_PER_TRADE := Config.RISK_PER_TRADE Config.defaults;
     Config.MAX_OPEN_TRADES := Config.MAX_OPEN_TRADES Config.defaults;
     Config.USE_STOP_LOSS := Config.USE_STOP_LOSS Config.defaults;
     Config.STOP_LOSS_PCT := Config.STOP_LOSS_PCT Config.defaults;
     Config.TAKE_PROFIT_PCT := Config.TAKE_PROFIT_PCT Config.defaults;
     Config.USE_TRAILING_STOP := Config.USE_TRAILING_STOP Config.defaults;
     Config.TRAILING_STOP_PCT := Config.TRAILING_STOP_PCT Config.defaults;
     Config.ENABLED_STRATEGIES := Config.ENABLED_STRATEGIES Config.defaults;
     Config.ICHIMOKU := Config.ICHIMOKU Config.defaults;
     Config.PIVOT_POINT_lookback_period :=
       Config.PIVOT_POINT_lookback_period Config.defaults |}.

Definition capped_strategy : BaseStrategy.t :=
  {| BaseStrategy.config := off_grid_maximum; BaseStrategy.name := "base";
     BaseStrategy.connection_of := Some (Scenarios.exchange 10000 0) |}.


(** Seven quiet candles and a last one that closes at zero. *)
Definition crash : frame :=
  Scenarios.candles [10; 10; 10; 10; 10; 10; 10; 1]%Z [8; 8; 8; 8; 8; 8; 8; 0]%Z
                    [9; 9; 9; 9; 9; 9; 9; 0]%Z.

End Cases.

(** * Properties *)

(** ** Comparisons and rounding *)

Section PyFacts.

Lemma ltb_true (x y : Q) : Py.ltb x y = true <-> x < y.
Proof.
  unfold Py.ltb. rewrite negb_true_iff.
  split; intros H.
  - apply Qnot_le_lt. intros Hle. apply Qle_bool_iff in Hle. congruence.
  - destruct (Qle_bool y x) eqn:E; [|reflexivity].
    apply Qle_bool_iff in E. exfalso. exact (Qlt_not_le _ _ H E).
Qed.

Lemma ltb_false (x y : Q) : Py.ltb x y = false <-> y <= x.
Proof.
  unfold Py.ltb. rewrite negb_false_iff. apply Qle_bool_iff.
Qed.

Lemma gtb_true (x y : Q) : Py.gtb x y = true <-> y < x.
Proof. apply ltb_true. Qed.

Lemma gtb_false (x y : Q) : Py.gtb x y = false <-> x <= y.
Proof. apply ltb_false. Qed.

Lemma eqb_true (x y : Q) : Py.eqb x y = true <-> x == y.
Proof. apply Qeq_bool_iff. Qed.

Lemma eqb_false (x y : Q) : Py.eqb x y = false <-> ~ x == y.
Proof.
  unfold Py.eqb. split; intros H.
  - intros E. apply Qeq_bool_iff in E. congruence.
  - destruct (Qeq_bool x y) eqn:E; [|reflexivity].
    apply Qeq_bool_iff in E. contradiction.
Qed.

Lemma min_le_l (a b : Q) : Py.min a b <= a.
Proof.
  unfold Py.min. destruct (Py.ltb b a) eqn:E.
  - apply ltb_true in E. apply Qlt_le_weak, E.
  - apply Qle_refl.
Qed.

Lemma min_le_r (a b : Q) : Py.min a b <= b.
Proof.
  unfold Py.min. destruct (Py.ltb b a) eqn:E.
  - apply Qle_refl.
  - apply ltb_false in E. exact E.
Qed.

End PyFacts.

(** ** utils.py: the risk:reward ratio *)

(** C9.  [calculate_risk_reward_ratio] answers exactly [0] when the risk
    distance [|entry - stop_loss|] is zero; otherwise it answers
    [|take_profit - entry| / |entry - stop_loss|] for a Buy (any spelling
    [side.upper()] turns into ["BUY"]) and the mirrored quotient
    [|entry - take_profit| / |stop_loss - entry|] for any other side. *)
Theorem calculate_risk_reward_ratio_spec (entry stop_loss take_profit : Q) (side : string) :
  (Qabs (entry - stop_loss) == 0 ->
     Utils.calculate_risk_reward_ratio entry stop_loss take_profit side = 0)
  /\ (~ Qabs (entry - stop_loss) == 0 ->
      (Py.upper side = "BUY"%string ->
         Utils.calculate_risk_reward_ratio entry stop_loss take_profit side
         = Qabs (take_profit - entry) / Qabs (entry - stop_loss))
      /\ (Py.upper side <> "BUY"%string ->
         Utils.calculate_risk_reward_ratio entry stop_loss take_profit side
         = Qabs (entry - take_profit) / Qabs (stop_loss - entry))).
Proof.
  assert (Hsym : Qabs (stop_loss - entry) == Qabs (entry - stop_loss)).
  { rewrite <- (Qabs_opp (entry - stop_loss)).
    apply Qabs_wd. ring. }
  unfold Utils.calculate_risk_reward_ratio.
  split.
  - intros Hz. destruct (String.eqb (Py.upper side) "BUY").
    + apply eqb_true in Hz. rewrite Hz. reflexivity.
    + rewrite <- Hsym in Hz. apply eqb_true in Hz. rewrite Hz. reflexivity.
  - intros Hnz. split; intros Hside.
    + apply String.eqb_eq in Hside. rewrite Hside.
      apply eqb_false in Hnz. rewrite Hnz. reflexivity.
    + apply String.eqb_neq in Hside. rewrite Hside.
      rewrite <- Hsym in Hnz. apply eqb_false in Hnz. rewrite Hnz. reflexivity.
Qed.

Lemma calculate_risk_reward_ratio_spec_witness :
  Utils.calculate_risk_reward_ratio 100 100 104 "buy" = 0
  /\ Utils.calculate_risk_reward_ratio 100 98 104 "buy"
     = Qabs (104 - 100) / Qabs (100 - 98)
  /\ Utils.calculate_risk_reward_ratio 100 102 96 "SELL"
     = Qabs (100 - 96) / Qabs (102 - 100).
Proof.
  split; [|split].
  - exact (proj1 (calculate_risk_reward_ratio_spec 100 100 104 "buy") eq_refl).
  - refine (proj1 (proj2 (calculate_risk_reward_ratio_spec 100 98 104 "buy") _) eq_refl).
    intros H. vm_compute in H. discriminate.
  - refine (proj2 (proj2 (calculate_risk_reward_ratio_spec 100 102 96 "SELL") _) _).
    + intros H. vm_compute in H. discriminate.
    + intros H. vm_compute in H. discriminate.
Defined.

(** ** risk_manager.py: the validation gate *)

Section ValidateTrade.

Import RiskManager.

Variable cfg : Config.t.

(** The paths through [validate_trade], one per [return] and one for an
    exception of the sizing. *)
Lemma validate_trade_paths (self : RiskManager.t) (conn : connection) (signal : Signal)
    (self' : RiskManager.t) (signal' : Signal) (r : result verdict) :
  validate_trade cfg self conn signal = (self', signal', r) ->
  let price := default 0 (sig_price signal) in
  self' = update_account_state cfg self conn
  /\ ((signal' = signal /\
       (r = Ok (Reject MaxOpenTrades) \/ r = Ok (Reject OppositeDirection)
        \/ exists e, r = Raise e))
      \/ exists max_position_size,
           calculate_max_position_size cfg self' (sig_symbol signal) price
             = Ok max_position_size
           /\ ((signal' = (clamp_quantity max_position_size signal).2
                /\ Py.ltb (clamp_quantity max_position_size signal).1 min_position_size = true
                /\ r = Ok (Reject BelowMinimumSize))
               \/ (signal' = backfill_take_profit cfg price
                               (backfill_stop_loss cfg price
                                  (clamp_quantity max_position_size signal).2)
                   /\ Py.ltb (clamp_quantity max_position_size signal).1 min_position_size = false
                   /\ r = exposure_check cfg self'
                            (clamp_quantity max_position_size signal).1 price))).
Proof.
  unfold validate_trade. intros H. cbv zeta.
  set (st := update_account_state cfg self conn) in *.
  destruct (Z.of_nat (size (open_positions st)) >=? Config.MAX_OPEN_TRADES cfg)%Z.
  { injection H as <- <- <-. split; [reflexivity|]. left. auto. }
  destruct (match open_positions st !! sig_symbol signal with
            | Some current_position => opposite_direction (sig_side signal) current_position
            | None => false
            end).
  { injection H as <- <- <-. split; [reflexivity|]. left. auto. }
  destruct (calculate_max_position_size cfg st (sig_symbol signal)
              (default 0 (sig_price signal))) as [m|e] eqn:Hmax.
  2:{ injection H as <- <- <-. split; [reflexivity|]. left. eauto. }
  destruct (clamp_quantity m signal) as [q s1] eqn:Hclamp.
  destruct (Py.ltb q min_position_size) eqn:Hmin.
  - injection H as <- <- <-. split; [reflexivity|]. right. exists m.
    split; [exact Hmax|]. left. rewrite Hclamp. simpl. auto.
  - injection H as <- <- <-. split; [reflexivity|]. right. exists m.
    split; [exact Hmax|]. right. rewrite Hclamp. simpl. auto.
Qed.






Lemma exposure_check_reject (self : RiskManager.t) (quantity price : Q) (why : reason) :
  exposure_check cfg self quantity price = Ok (Reject why) ->
  why = ExposureCeiling
  /\ exists exposure account_value,
       total_exposure self = Some exposure
       /\ get_account_value cfg self = Ok account_value
       /\ account_value * (9 # 10) < exposure + quantity * price.
Proof.
  unfold exposure_check. destruct (total_exposure self) as [e|]; [|discriminate].
  destruct (get_account_value cfg self) as [av|]; [|discriminate]. simpl.
  destruct (Py.gtb _ _) eqn:E; [|discriminate]. intros [= <-].
  split; [reflexivity|]. exists e, av. repeat split. apply gtb_true in E. exact E.
Qed.

End ValidateTrade.




(** C10.  A rejection at the exposure check comes after the mutations: when
    [validate_trade] rejects for the exposure ceiling, the signal's quantity
    is already the clamped one (the maximum position size when the request
    exceeded it), its take-profit is filled in, and its stop-loss is filled
    in as the configuration prescribes; and there is a call that rejects so
    and leaves the signal different from the one it received. *)
Theorem validate_trade_rejection_mutates_signal :
  (forall (cfg : Config.t) (self : RiskManager.t) (conn : connection)
          (signal : Signal) (self' : RiskManager.t) (signal' : Signal),
     RiskManager.validate_trade cfg self conn signal
       = (self', signal', Ok (RiskManager.Reject RiskManager.ExposureCeiling)) ->
     let price := default 0 (sig_price signal) in
     exists max_position_size,
       RiskManager.calculate_max_position_size cfg self' (sig_symbol signal) price
         = Ok max_position_size
       /\ sig_quantity signal'
          = (if Py.gtb (sig_quantity signal) max_position_size
             then max_position_size else sig_quantity signal)
       /\ sig_stop_loss signal'
          = match sig_stop_loss signal with
            | Some stop => Some stop
            | None =>
                if Config.USE_STOP_LOSS cfg
                then if String.eqb (sig_side signal) "BUY"
                     then Some (price * (1 - Config.STOP_LOSS_PCT cfg))
                     else Some (price * (1 + Config.STOP_LOSS_PCT cfg))
                else None
            end
       /\ sig_take_profit signal'
          = match sig_take_profit signal with
            | Some target => Some target
            | None =>
                if String.eqb (sig_side signal) "BUY"
                then Some (price * (1 + Config.TAKE_PROFIT_PCT cfg))
                else Some (price * (1 - Config.TAKE_PROFIT_PCT cfg))
            end)
  /\ (exists (cfg : Config.t) (self : RiskManager.t) (conn : connection)
             (signal : Signal) (self' : RiskManager.t) (signal' : Signal),
        RiskManager.validate_trade cfg self conn signal
          = (self', signal', Ok (RiskManager.Reject RiskManager.ExposureCeiling))
        /\ signal' <> signal).
Proof.
  split.
  - intros cfg self conn signal self' signal' H price.
    destruct (validate_trade_paths cfg _ _ _ _ _ _ H) as [_ Hpaths].
    destruct Hpaths as [[_ [Hr|[Hr|[e Hr]]]]|[m [Hm [(_ & _ & Hr)|(Hs & _ & Hr)]]]];
      try discriminate.
    exists m. split; [exact Hm|]. subst signal'. fold price.
    unfold RiskManager.backfill_take_profit, RiskManager.backfill_stop_loss,
      RiskManager.clamp_quantity.
    clear H Hr Hm.
    destruct signal as [strategy symbol side pr quantity [stop|] [target|] ts conf];
      simpl in *;
      destruct (Py.gtb quantity m); simpl;
      destruct (Config.USE_STOP_LOSS cfg); simpl;
      destruct (String.eqb side "BUY") eqn:E; simpl; rewrite ?E; simpl; auto.
  - exists Config.defaults, Scenarios.fresh_manager, (Scenarios.exchange 10000 9500),
      (Scenarios.buy_at_50000 (12 # 1000)).
    eexists. eexists. split.
    + vm_compute. reflexivity.
    + intros E. apply (f_equal sig_stop_loss) in E. vm_compute in E. discriminate.
Qed.

Lemma validate_trade_rejection_mutates_signal_witness :
  Scenarios.exposed_buy_call.2 = Ok (RiskManager.Reject RiskManager.ExposureCeiling)
  /\ sig_quantity Scenarios.exposed_buy_call.1.2 == 2 # 1000
  /\ sig_stop_loss Scenarios.exposed_buy_call.1.2 = Some (50000 * (1 - (2 # 100)))
  /\ sig_take_profit Scenarios.exposed_buy_call.1.2 = Some (50000 * (1 + (4 # 100))).
Proof.
  assert (H : RiskManager.validate_trade Config.defaults Scenarios.fresh_manager
                (Scenarios.exchange 10000 9500) (Scenarios.buy_at_50000 (12 # 1000))
              = (Scenarios.exposed_buy_call.1.1, Scenarios.exposed_buy_call.1.2,
                 Ok (RiskManager.Reject RiskManager.ExposureCeiling))).
  { vm_compute. reflexivity. }
  split; [vm_compute; reflexivity|].
  destruct (proj1 validate_trade_rejection_mutates_signal _ _ _ _ _ _ H)
    as (m & Hm & Hq & Hsl & Htp).
  split; [|split].
  - vm_compute. reflexivity.
  - exact Hsl.
  - exact Htp.
Defined.

(** ** risk_manager.py: the trailing-stop ratchet *)

Section AdjustStops.

Import RiskManager.

Variable cfg : Config.t.

Local Abbreviation ratchet := (Spec.ratchet cfg).

Lemma adjust_trade_guarded_frame (price_of : string -> Q) (tr : trade) :
  trade_symbol (adjust_trade_guarded cfg price_of tr) = trade_symbol tr
  /\ trade_side (adjust_trade_guarded cfg price_of tr) = trade_side tr
  /\ trade_price (adjust_trade_guarded cfg price_of tr) = trade_price tr.
Proof.
  unfold adjust_trade_guarded, adjust_trade.
  destruct (String.eqb (trade_side tr) "BUY"), (trade_stop_loss tr) as [s|]; simpl; auto.
  - destruct (Py.gtb _ s); simpl; auto.
  - destruct (Py.ltb _ s); simpl; auto.
Qed.

Lemma adjust_trade_guarded_stop (price_of : string -> Q) (tr : trade) (stop : Q) :
  trade_stop_loss tr = Some stop ->
  trade_stop_loss (adjust_trade_guarded cfg price_of tr) = Some (ratchet price_of tr stop).
Proof.
  intros Hs. unfold adjust_trade_guarded, adjust_trade, Spec.ratchet. rewrite Hs.
  destruct (String.eqb (trade_side tr) "BUY"); simpl.
  - destruct (Py.gtb _ stop); simpl; auto.
  - destruct (Py.ltb _ stop); simpl; auto.
Qed.

Lemma adjust_trade_guarded_no_stop (price_of : string -> Q) (tr : trade) :
  trade_stop_loss tr = None -> adjust_trade_guarded cfg price_of tr = tr.
Proof.
  intros Hs. unfold adjust_trade_guarded, adjust_trade. rewrite Hs.
  destruct (String.eqb (trade_side tr) "BUY"); reflexivity.
Qed.

Lemma ratchet_long (price_of : string -> Q) (tr : trade) (stop : Q) :
  trade_side tr = "BUY"%string -> stop <= ratchet price_of tr stop.
Proof.
  intros Hside. unfold Spec.ratchet. rewrite Hside. simpl.
  destruct (Py.gtb _ stop) eqn:E.
  - apply gtb_true in E. apply Qlt_le_weak, E.
  - apply Qle_refl.
Qed.

Lemma ratchet_short (price_of : string -> Q) (tr : trade) (stop : Q) :
  trade_side tr <> "BUY"%string -> ratchet price_of tr stop <= stop.
Proof.
  intros Hside. unfold Spec.ratchet. apply String.eqb_neq in Hside. rewrite Hside.
  destruct (Py.ltb _ stop) eqn:E.
  - apply ltb_true in E. apply Qlt_le_weak, E.
  - apply Qle_refl.
Qed.

(** One call of [adjust_stops_at] on a trade that carries a stop. *)
Lemma adjust_stops_at_lookup (price_of : string -> Q) (open_trades : gmap Z trade)
    (id : Z) (tr : trade) (stop : Q) :
  open_trades !! id = Some tr ->
  trade_stop_loss tr = Some stop ->
  exists tr' stop',
    adjust_stops_at cfg price_of open_trades !! id = Some tr'
    /\ trade_symbol tr' = trade_symbol tr
    /\ trade_side tr' = trade_side tr
    /\ trade_stop_loss tr' = Some stop'
    /\ stop' = (if Config.USE_TRAILING_STOP cfg then ratchet price_of tr stop else stop).
Proof.
  intros Hid Hs. unfold adjust_stops_at.
  destruct (Config.USE_TRAILING_STOP cfg); simpl.
  - exists (adjust_trade_guarded cfg price_of tr), (ratchet price_of tr stop).
    rewrite lookup_fmap, Hid. simpl.
    destruct (adjust_trade_guarded_frame price_of tr) as (Hsym & Hside & _).
    repeat split; auto using adjust_trade_guarded_stop.
  - exists tr, stop. auto.
Qed.

(** Any number of later calls moves the stop of a long up or not at all, and
    the stop of any other trade down or not at all. *)
Lemma adjust_stops_run_monotone (feeds : list (string -> Q)) :
  forall (open_trades : gmap Z trade) (id : Z) (tr : trade) (stop : Q),
    open_trades !! id = Some tr ->
    trade_stop_loss tr = Some stop ->
    exists tr' stop',
      adjust_stops_run cfg feeds open_trades !! id = Some tr'
      /\ trade_side tr' = trade_side tr
      /\ trade_stop_loss tr' = Some stop'
      /\ (trade_side tr = "BUY"%string -> stop <= stop')
      /\ (trade_side tr <> "BUY"%string -> stop' <= stop).
Proof.
  induction feeds as [|price_of feeds IH]; intros open_trades id tr stop Hid Hs.
  - exists tr, stop. simpl. repeat split; auto using Qle_refl.
  - destruct (adjust_stops_at_lookup price_of open_trades id tr stop Hid Hs)
      as (tr1 & s1 & Hid1 & _ & Hside1 & Hs1 & Hval).
    destruct (IH _ _ _ _ Hid1 Hs1) as (tr' & s' & Hid' & Hside' & Hs' & Hup & Hdown).
    exists tr', s'. simpl. unfold adjust_stops_run in Hid'.
    split; [exact Hid'|]. split; [congruence|]. split; [exact Hs'|].
    split; intros Hside.
    + apply Qle_trans with s1.
      * subst s1. destruct (Config.USE_TRAILING_STOP cfg);
          [apply ratchet_long; exact Hside | apply Qle_refl].
      * apply Hup. congruence.
    + apply Qle_trans with s1.
      * apply Hdown. congruence.
      * subst s1. destruct (Config.USE_TRAILING_STOP cfg);
          [apply ratchet_short; exact Hside | apply Qle_refl].
Qed.

Lemma adjust_stops_run_app (earlier later : list (string -> Q)) (open_trades : gmap Z trade) :
  adjust_stops_run cfg (earlier ++ later) open_trades
  = adjust_stops_run cfg later (adjust_stops_run cfg earlier open_trades).
Proof. unfold adjust_stops_run. apply fold_left_app. Qed.

End AdjustStops.

(** C2.  The trailing stop is a ratchet.  One call of [adjust_stops] (with
    trailing stops enabled) replaces the stop of a long (BUY) trade by the
    candidate [current_price * (1 - TRAILING_STOP_PCT)] only when the
    candidate is strictly greater, and the stop of any other (SELL) trade by
    [current_price * (1 + TRAILING_STOP_PCT)] only when it is strictly less.
    Over every sequence of calls, whatever the prices of the cycles, the stop
    of a long after more calls is at least its stop after fewer calls, and
    the stop of a short is at most it.  The method of the source is the
    instance that reads every price from [get_current_price]. *)
Theorem adjust_stops_ratchet (cfg : Config.t) :
  (forall (price_of : string -> Q) (open_trades : gmap Z RiskManager.trade)
          (id : Z) (tr : RiskManager.trade) (stop : Q),
     open_trades !! id = Some tr ->
     RiskManager.trade_stop_loss tr = Some stop ->
     Config.USE_TRAILING_STOP cfg = true ->
     exists tr',
       RiskManager.adjust_stops_at cfg price_of open_trades !! id = Some tr'
       /\ RiskManager.trade_side tr' = RiskManager.trade_side tr
       /\ RiskManager.trade_stop_loss tr'
          = Some (if String.eqb (RiskManager.trade_side tr) "BUY" then
                    let new_stop := price_of (RiskManager.trade_symbol tr)
                                    * (1 - Config.TRAILING_STOP_PCT cfg) in
                    if Py.gtb new_stop stop then new_stop else stop
                  else
                    let new_stop := price_of (RiskManager.trade_symbol tr)
                                    * (1 + Config.TRAILING_STOP_PCT cfg) in
                    if Py.ltb new_stop stop then new_stop else stop))
  /\ (forall (earlier later : list (string -> Q))
             (open_trades : gmap Z RiskManager.trade)
             (id : Z) (tr : RiskManager.trade) (stop : Q),
        open_trades !! id = Some tr ->
        RiskManager.trade_stop_loss tr = Some stop ->
        exists tr1 stop1 tr2 stop2,
          RiskManager.adjust_stops_run cfg earlier open_trades !! id = Some tr1
          /\ RiskManager.trade_stop_loss tr1 = Some stop1
          /\ RiskManager.adjust_stops_run cfg (earlier ++ later) open_trades !! id
             = Some tr2
          /\ RiskManager.trade_stop_loss tr2 = Some stop2
          /\ RiskManager.trade_side tr1 = RiskManager.trade_side tr
          /\ RiskManager.trade_side tr2 = RiskManager.trade_side tr
          /\ (RiskManager.trade_side tr = "BUY"%string -> stop1 <= stop2)
          /\ (RiskManager.trade_side tr <> "BUY"%string -> stop2 <= stop1))
  /\ (forall (n : nat) (open_trades : gmap Z RiskManager.trade),
        Nat.iter n (RiskManager.adjust_stops cfg) open_trades
        = RiskManager.adjust_stops_run cfg
            (replicate n RiskManager.get_current_price) open_trades).
Proof.
  split; [|split].
  - intros price_of open_trades id tr stop Hid Hs Hon.
    destruct (adjust_stops_at_lookup cfg price_of open_trades id tr stop Hid Hs)
      as (tr' & s' & Hid' & _ & Hside & Hs' & Hval).
    rewrite Hon in Hval. exists tr'. subst s'. auto.
  - intros earlier later open_trades id tr stop Hid Hs.
    destruct (adjust_stops_run_monotone cfg earlier open_trades id tr stop Hid Hs)
      as (tr1 & s1 & Hid1 & Hside1 & Hs1 & _ & _).
    destruct (adjust_stops_run_monotone cfg later _ id tr1 s1 Hid1 Hs1)
      as (tr2 & s2 & Hid2 & Hside2 & Hs2 & Hup & Hdown).
    exists tr1, s1, tr2, s2. rewrite adjust_stops_run_app.
    repeat split; auto; try congruence.
    + intros Hside. apply Hup. congruence.
    + intros Hside. apply Hdown. congruence.
  - induction n as [|n IH]; intros open_trades; [reflexivity|].
    rewrite replicate_S_end, adjust_stops_run_app. simpl. rewrite IH. reflexivity.
Qed.

Lemma adjust_stops_ratchet_witness :
  (exists tr',
     RiskManager.adjust_stops_at Config.defaults (Scenarios.quote 50500)
       Scenarios.two_trades !! 1%Z = Some tr'
     /\ RiskManager.trade_stop_loss tr' = Some (50500 * (1 - (1 # 100))))
  /\ (exists tr1 stop1 tr2 stop2,
        RiskManager.adjust_stops_run Config.defaults [Scenarios.quote 50500]
          Scenarios.two_trades !! 1%Z = Some tr1
        /\ RiskManager.trade_stop_loss tr1 = Some stop1
        /\ RiskManager.adjust_stops_run Config.defaults
             ([Scenarios.quote 50500] ++ [Scenarios.quote 50000])
             Scenarios.two_trades !! 1%Z = Some tr2
        /\ RiskManager.trade_stop_loss tr2 = Some stop2
        /\ stop1 <= stop2).
Proof.
  split.
  - destruct (proj1 (adjust_stops_ratchet Config.defaults) (Scenarios.quote 50500)
                Scenarios.two_trades 1%Z Scenarios.long_trade 49000
                eq_refl eq_refl eq_refl) as (tr' & Hid & _ & Hs).
    exists tr'. split; [exact Hid|]. exact Hs.
  - destruct (proj1 (proj2 (adjust_stops_ratchet Config.defaults))
                [Scenarios.quote 50500] [Scenarios.quote 50000]
                Scenarios.two_trades 1%Z Scenarios.long_trade 49000
                eq_refl eq_refl)
      as (tr1 & s1 & tr2 & s2 & H1 & Hs1 & H2 & Hs2 & _ & _ & Hup & _).
    exists tr1, s1, tr2, s2. repeat split; auto.
Defined.

Example scenario_D_stops :
  RiskManager.trade_stop_loss
    <$> (RiskManager.adjust_stops_run Config.defaults
           [Scenarios.quote 50500] Scenarios.two_trades !! 1%Z)
  = Some (Some (50500 * (1 - (1 # 100))))
  /\ RiskManager.trade_stop_loss
       <$> (RiskManager.adjust_stops_run Config.defaults
              [Scenarios.quote 50500; Scenarios.quote 50000] Scenarios.two_trades !! 1%Z)
     = Some (Some (50500 * (1 - (1 # 100)))).
Proof. split; reflexivity. Qed.

(** ** Position sizing *)

Section Rounding.

Context {ties : Py.Ties}.

Variable ndigits : nat.

Local Abbreviation scale := (inject_Z (10 ^ Z.of_nat ndigits)).

Lemma scale_pos : 0 < scale.
Proof.
  change 0 with (inject_Z 0). rewrite <- Zlt_Qlt.
  apply Z.pow_pos_nonneg; lia.
Qed.

(** The integer [round] settles on is within one half of the scaled input,
    whichever way a tie goes. *)
Lemma round_numerator (x : Q) :
  exists n : Z,
    Py.round x ndigits = inject_Z n / scale
    /\ inject_Z n - (1 # 2) <= x * scale
    /\ x * scale <= inject_Z n + (1 # 2)
    /\ (n = Qfloor (x * scale) \/ n = (Qfloor (x * scale) + 1)%Z)
    /\ (x * scale - inject_Z (Qfloor (x * scale)) < 1 # 2 -> n = Qfloor (x * scale)).
Proof.
  unfold Py.round. cbv zeta.
  set (y := x * scale). set (f := Qfloor y).
  pose proof (Qfloor_le y) as Hlo. pose proof (Qlt_floor y) as Hhi.
  fold f in Hlo, Hhi. rewrite inject_Z_plus in Hhi.
  change (inject_Z 1) with 1 in Hhi.
  destruct (Qcompare (y - inject_Z f) (1 # 2)) eqn:E.
  - apply Qeq_alt in E.
    destruct (Py.up_at_tie x ndigits).
    + exists (f + 1)%Z. rewrite inject_Z_plus. change (inject_Z 1) with 1.
      repeat split; auto; lra.
    + exists f. repeat split; auto; lra.
  - apply Qlt_alt in E. exists f. repeat split; auto; lra.
  - apply Qgt_alt in E. exists (f + 1)%Z. rewrite inject_Z_plus.
    change (inject_Z 1) with 1. repeat split; auto; lra.
Qed.

(** [round] moves its argument by at most half a unit of the last place. *)
Lemma round_error (x : Q) :
  Py.round x ndigits - x <= (1 # 2) / scale
  /\ x - Py.round x ndigits <= (1 # 2) / scale.
Proof.
  destruct (round_numerator x) as (n & -> & Hlo & Hhi & _).
  pose proof scale_pos as Hs.
  assert (Hx : x == (x * scale) / scale) by (field; lra).
  split.
  - apply Qle_minus_iff.
    assert (E : (1 # 2) / scale + - (inject_Z n / scale - x)
                == (x * scale + (1 # 2) - inject_Z n) / scale) by (field; lra).
    rewrite E. apply Qle_shift_div_l; [exact Hs|]. lra.
  - apply Qle_minus_iff.
    assert (E : (1 # 2) / scale + - (x - inject_Z n / scale)
                == (inject_Z n + (1 # 2) - x * scale) / scale) by (field; lra).
    rewrite E. apply Qle_shift_div_l; [exact Hs|]. lra.
Qed.

(** [round] never crosses a multiple of the unit of the last place. *)
Lemma round_below_grid (x : Q) (k : Z) :
  x <= inject_Z k / scale -> Py.round x ndigits <= inject_Z k / scale.
Proof.
  intros Hx. pose proof scale_pos as Hs.
  destruct (round_numerator x) as (n & -> & _ & _ & Hn & Hexact).
  assert (Hy : x * scale <= inject_Z k).
  { apply Qle_trans with (inject_Z k / scale * scale).
    - apply Qmult_le_compat_r; [exact Hx | lra].
    - assert (E : inject_Z k / scale * scale == inject_Z k) by (field; lra).
      rewrite E. apply Qle_refl. }
  assert (Hf : (Qfloor (x * scale) <= k)%Z).
  { rewrite <- (Qfloor_Z k). apply Qfloor_resp_le. exact Hy. }
  assert (Hnk : (n <= k)%Z).
  { destruct Hn as [->| ->]; [exact Hf|].
    destruct (Z.eq_dec (Qfloor (x * scale)) k) as [Heq|Hne]; [|lia].
    exfalso.
    assert (Hlt : x * scale - inject_Z (Qfloor (x * scale)) < 1 # 2).
    { pose proof (Qfloor_le (x * scale)) as Hlo. rewrite Heq in *. lra. }
    specialize (Hexact Hlt). lia. }
  apply Qmult_le_compat_r.
  - rewrite <- Zle_Qle. exact Hnk.
  - apply Qlt_le_weak, Qinv_lt_0_compat, Hs.
Qed.

End Rounding.

Lemma div_positive (x y : Q) : 0 < y -> Py.div x y = Ok (x / y).
Proof.
  intros Hy. unfold Py.div.
  destruct (Py.eqb y 0) eqn:E; [|reflexivity].
  apply eqb_true in E. lra.
Qed.

Lemma half_unit_6 : (1 # 2) / inject_Z (10 ^ Z.of_nat 6) == 1 # 2000000.
Proof. reflexivity. Qed.

(** What [round(min(raw, cap), 6)] guarantees on every arithmetic: a
    multiple of 0.000001 within 0.0000005 of the minimum. *)
Lemma rounded_size_bounds {ties : Py.Ties} (raw cap : Q) :
  (exists n : Z, Py.round (Py.min raw cap) 6 = inject_Z n / inject_Z (10 ^ 6))
  /\ Py.round (Py.min raw cap) 6 <= Py.min raw cap + (1 # 2000000)
  /\ Py.min raw cap - (1 # 2000000) <= Py.round (Py.min raw cap) 6
  /\ Py.round (Py.min raw cap) 6 <= raw + (1 # 2000000)
  /\ Py.round (Py.min raw cap) 6 <= cap + (1 # 2000000)
  /\ (forall k : Z, cap == inject_Z k / inject_Z (10 ^ 6) ->
      Py.round (Py.min raw cap) 6 <= cap).
Proof.
  destruct (round_error 6 (Py.min raw cap)) as [Hup Hdown].
  rewrite half_unit_6 in Hup, Hdown.
  pose proof (min_le_l raw cap). pose proof (min_le_r raw cap).
  split.
  { destruct (round_numerator 6 (Py.min raw cap)) as (n & Hn & _).
    exists n. exact Hn. }
  repeat split; try lra.
  intros k Hk. apply Qle_trans with (inject_Z k / inject_Z (10 ^ 6)).
  - apply (round_below_grid 6 (Py.min raw cap) k).
    change (Z.of_nat 6) with 6%Z. lra.
  - lra.
Qed.

(** C3, as the code has it, on every arithmetic.  For every price > 0:
    [RiskManager.calculate_max_position_size] returns
    [min(account_value * RISK_PER_TRADE / price, MAX_POSITION_SIZE)], so its
    result is at most the configured maximum and at most
    [account_value * RISK_PER_TRADE / price].  The strategy-side
    [calculate_position_size] (of [BaseStrategy] and of [IchimokuStrategy])
    returns [round(_, 6)] of that minimum: a multiple of 0.000001 that is
    within 0.0000005 of the minimum on either side.  So it exceeds neither
    [account_value * RISK_PER_TRADE / price] nor the configured maximum by
    more than 0.0000005, and it is at most the configured maximum when that
    maximum is itself a multiple of 0.000001.  With account value 10000,
    risk per trade 0.01, price 50000 and maximum 0.01, all three return
    0.002. *)
Theorem position_sizing_bounds {ties : Py.Ties} :
  (forall (cfg : Config.t) (self : RiskManager.t) (symbol : string)
          (price account_value : Q),
     0 < price ->
     RiskManager.get_account_value cfg self = Ok account_value ->
     exists quantity,
       RiskManager.calculate_max_position_size cfg self symbol price = Ok quantity
       /\ quantity = Py.min (account_value * Config.RISK_PER_TRADE cfg / price)
                            (Config.MAX_POSITION_SIZE cfg)
       /\ quantity <= Config.MAX_POSITION_SIZE cfg
       /\ quantity <= account_value * Config.RISK_PER_TRADE cfg / price)
  /\ (forall (self : BaseStrategy.t) (price : Q) (side : string) (account_balance : Q),
        0 < price ->
        BaseStrategy.get_account_balance self = Ok account_balance ->
        let cfg := BaseStrategy.config self in
        let raw := account_balance * Config.RISK_PER_TRADE cfg / price in
        exists quantity,
          BaseStrategy.calculate_position_size self price side = Ok quantity
          /\ (exists n : Z, quantity = inject_Z n / inject_Z (10 ^ 6))
          /\ quantity <= Py.min raw (Config.MAX_POSITION_SIZE cfg) + (1 # 2000000)
          /\ Py.min raw (Config.MAX_POSITION_SIZE cfg) - (1 # 2000000) <= quantity
          /\ quantity <= raw + (1 # 2000000)
          /\ quantity <= Config.MAX_POSITION_SIZE cfg + (1 # 2000000)
          /\ (forall k : Z,
                Config.MAX_POSITION_SIZE cfg == inject_Z k / inject_Z (10 ^ 6) ->
                quantity <= Config.MAX_POSITION_SIZE cfg))
  /\ (forall (self : IchimokuStrategy.t) (price : Q) (side : string),
        0 < price ->
        let cfg := IchimokuStrategy.config self in
        let raw := 10000 * Config.RISK_PER_TRADE cfg / price in
        exists quantity,
          IchimokuStrategy.calculate_position_size self price side = Ok quantity
          /\ (exists n : Z, quantity = inject_Z n / inject_Z (10 ^ 6))
          /\ quantity <= Py.min raw (Config.MAX_POSITION_SIZE cfg) + (1 # 2000000)
          /\ Py.min raw (Config.MAX_POSITION_SIZE cfg) - (1 # 2000000) <= quantity
          /\ quantity <= raw + (1 # 2000000)
          /\ quantity <= Config.MAX_POSITION_SIZE cfg + (1 # 2000000)
          /\ (forall k : Z,
                Config.MAX_POSITION_SIZE cfg == inject_Z k / inject_Z (10 ^ 6) ->
                quantity <= Config.MAX_POSITION_SIZE cfg))
  /\ (exists q1 q2 q3,
        RiskManager.calculate_max_position_size Config.defaults
          (Scenarios.manager 10000 0) "BTCUSDT" 50000 = Ok q1
        /\ BaseStrategy.calculate_position_size
             (Scenarios.connected_strategy 10000) 50000 "BUY" = Ok q2
        /\ IchimokuStrategy.calculate_position_size
             (IchimokuStrategy.init Config.defaults) 50000 "BUY" = Ok q3
        /\ q1 == 2 # 1000 /\ q2 == 2 # 1000 /\ q3 == 2 # 1000).
Proof.
  split; [|split; [|split]].
  - intros cfg self symbol price av Hp Hav.
    unfold RiskManager.calculate_max_position_size. rewrite Hav. simpl.
    rewrite (div_positive _ _ Hp). simpl.
    eexists. split; [reflexivity|]. split; [reflexivity|].
    split; [apply min_le_r | apply min_le_l].
  - intros self price side bal Hp Hbal cfg raw.
    unfold BaseStrategy.calculate_position_size. rewrite Hbal. simpl.
    rewrite (div_positive _ _ Hp). simpl.
    eexists. split; [reflexivity|].
    apply rounded_size_bounds.
  - intros self price side Hp cfg raw.
    unfold IchimokuStrategy.calculate_position_size, IchimokuStrategy.get_account_balance.
    rewrite (div_positive _ _ Hp). simpl.
    eexists. split; [reflexivity|].
    apply rounded_size_bounds.
  - eexists. eexists. eexists.
    split; [vm_compute; reflexivity|].
    split; [vm_compute; reflexivity|].
    split; [vm_compute; reflexivity|].
    repeat split; reflexivity.
Qed.

Lemma position_sizing_bounds_witness :
  (exists quantity,
     RiskManager.calculate_max_position_size Config.defaults
       (Scenarios.manager 10000 0) "BTCUSDT" 50000 = Ok quantity
     /\ quantity = Py.min (10000 * (1 # 100) / 50000) (1 # 100)
     /\ quantity <= 1 # 100 /\ quantity <= 10000 * (1 # 100) / 50000)
  /\ (exists quantity,
        BaseStrategy.calculate_position_size (ties := Cases.ties_down)
          (Scenarios.connected_strategy 8) 50000 "BUY" = Ok quantity
        /\ quantity <= 8 * (1 # 100) / 50000 + (1 # 2000000)
        /\ quantity <= 1 # 100)
  /\ (exists quantity,
        IchimokuStrategy.calculate_position_size (ties := Cases.ties_up)
          (IchimokuStrategy.init Config.defaults) 50000 "SELL" = Ok quantity
        /\ quantity <= 1 # 100).
Proof.
  split; [|split].
  - destruct (proj1 (position_sizing_bounds (ties := Cases.ties_down)) Config.defaults
                (Scenarios.manager 10000 0) "BTCUSDT" 50000 10000)
      as (q & Hq & Hmin & Hmax & Hrisk); [reflexivity | reflexivity |].
    exists q. auto.
  - destruct (proj1 (proj2 (position_sizing_bounds (ties := Cases.ties_down)))
                (Scenarios.connected_strategy 8) 50000 "BUY" 8)
      as (q & Hq & _ & _ & _ & Hraw & _ & Hgrid); [reflexivity | reflexivity |].
    exists q. split; [exact Hq|]. split; [exact Hraw|].
    apply (Hgrid 10000%Z). reflexivity.
  - destruct (proj1 (proj2 (proj2 (position_sizing_bounds (ties := Cases.ties_up))))
                (IchimokuStrategy.init Config.defaults) 50000 "SELL")
      as (q & Hq & _ & _ & _ & _ & _ & Hgrid); [reflexivity |].
    exists q. split; [exact Hq|]. apply (Hgrid 10000%Z). reflexivity.
Defined.

(** The claim of C3 fails for the strategy-side sizing, on both of its
    bounds.  With a free balance of 8 USDT, risk per trade 0.01, price 50000
    and maximum 0.01 the raw size is 0.0000016, which [round(_, 6)] turns
    into 0.000002, above [account_value * RISK_PER_TRADE / price].  With a
    free balance of 10000 USDT and a configured maximum of 0.0000016 the
    minimum is that maximum, and the result 0.000002 is above the configured
    maximum.  Neither input is a tie, so the arithmetic makes no
    difference. *)
Lemma position_size_exceeds_risk_bound :
  (exists quantity,
     0 < 50000
     /\ BaseStrategy.get_account_balance (Scenarios.connected_strategy 8) = Ok 8
     /\ BaseStrategy.calculate_position_size (ties := Cases.ties_down)
          (Scenarios.connected_strategy 8) 50000 "BUY" = Ok quantity
     /\ BaseStrategy.calculate_position_size (ties := Cases.ties_up)
          (Scenarios.connected_strategy 8) 50000 "BUY" = Ok quantity
     /\ quantity == 2 # 1000000
     /\ ~ quantity <= 8 * Config.RISK_PER_TRADE Config.defaults / 50000)
  /\ (exists quantity,
        BaseStrategy.get_account_balance Cases.capped_strategy = Ok 10000
        /\ BaseStrategy.calculate_position_size (ties := Cases.ties_down)
             Cases.capped_strategy 50000 "BUY" = Ok quantity
        /\ BaseStrategy.calculate_position_size (ties := Cases.ties_up)
             Cases.capped_strategy 50000 "BUY" = Ok quantity
        /\ quantity == 2 # 1000000
        /\ ~ quantity <= Config.MAX_POSITION_SIZE Cases.off_grid_maximum).
Proof.
  split.
  - eexists. split; [reflexivity|]. split; [reflexivity|].
    split; [vm_compute; reflexivity|].
    split; [vm_compute; reflexivity|].
    split; [reflexivity|].
    intros H. vm_compute in H. apply H. reflexivity.
  - eexists. split; [reflexivity|].
    split; [vm_compute; reflexivity|].
    split; [vm_compute; reflexivity|].
    split; [reflexivity|].
    intros H. vm_compute in H. apply H. reflexivity.
Qed.

(** The Ichimoku strategy sizes against its fixed balance of 10000: at a
    price of 62500000 the raw size is again 0.0000016. *)
Example ichimoku_position_size_rounds_up {ties : Py.Ties} :
  exists quantity,
    IchimokuStrategy.calculate_position_size
      (IchimokuStrategy.init Config.defaults) 62500000 "BUY" = Ok quantity
    /\ quantity == 2 # 1000000
    /\ ~ quantity <= 10000 * Config.RISK_PER_TRADE Config.defaults / 62500000.
Proof.
  eexists. split; [vm_compute; reflexivity|]. split; [reflexivity|].
  intros H. vm_compute in H. apply H. reflexivity.
Qed.

(** ** ichimoku.py: insufficient history *)

Section Ichimoku.

Import IchimokuStrategy.

Context {ties : Py.Ties}.

Variable self : IchimokuStrategy.t.

(** [calculate_ichimoku] succeeds on a frame that has the three price
    columns, and leaves the index alone. *)
Lemma calculate_ichimoku_ok (df : frame) (high low close : column) :
  cols df !! "high"%string = Some high ->
  cols df !! "low"%string = Some low ->
  cols df !! "close"%string = Some close ->
  exists df', calculate_ichimoku self df = Ok df' /\ index df' = index df.
Proof.
  intros Hh Hl Hc. unfold calculate_ichimoku, Pd.getitem, Pd.setitem. simpl.
  rewrite Hh, Hl. simpl.
  repeat (rewrite ?lookup_insert_eq, ?Hh, ?Hl, ?Hc;
          try (rewrite lookup_insert_ne by discriminate); simpl).
  eexists. split; reflexivity.
Qed.

(** On the frames the pipeline builds from candles, a series shorter than
    [senkou_span_b_period + displacement] yields no signal and no error. *)
Lemma generate_signals_short_series (now : Z) (data : frame) (high low close : column) :
  cols data !! "high"%string = Some high ->
  cols data !! "low"%string = Some low ->
  cols data !! "close"%string = Some close ->
  (Pd.len data < senkou_span_b_period self + displacement self)%nat ->
  generate_signals self now data = Ok [].
Proof.
  intros Hh Hl Hc Hlen.
  destruct (calculate_ichimoku_ok data high low close Hh Hl Hc) as (df' & Hdf & Hidx).
  unfold generate_signals. rewrite Hdf. simpl.
  unfold Pd.len in *. rewrite Hidx.
  apply Nat.ltb_lt in Hlen. rewrite Hlen. reflexivity.
Qed.

(** A frame without a [high] column stops [calculate_ichimoku] at its first
    line, before the length of the series is looked at. *)
Lemma generate_signals_without_high (now : Z) (data : frame) :
  cols data !! "high"%string = None ->
  generate_signals self now data = Raise (KeyError "high").
Proof.
  intros Hh. unfold generate_signals, calculate_ichimoku, Pd.getitem.
  rewrite Hh. reflexivity.
Qed.

End Ichimoku.

(** With enough history the strategy does speak: the break upwards gives one
    Buy at the last close, stopped 1% under Kijun-sen (14) and aimed twice
    the distance to it above the price. *)
Example ichimoku_breakout_buys {ties : Py.Ties} :
  exists s stop target,
    IchimokuStrategy.generate_signals Scenarios.short_ichimoku 0 Scenarios.breakout
      = Ok [s]
    /\ sig_side s = "BUY"%string
    /\ sig_price s = Some 19
    /\ sig_stop_loss s = Some stop /\ stop == 14 * (99 # 100)
    /\ sig_take_profit s = Some target /\ target == 19 + (19 - 14) * 2
    /\ sig_quantity s == 1 # 100.
Proof.
  eexists. eexists. eexists. split; [vm_compute; reflexivity|].
  repeat split; reflexivity.
Qed.

Example ichimoku_four_candles_silent {ties : Py.Ties} :
  IchimokuStrategy.generate_signals Scenarios.short_ichimoku 0
    (Scenarios.candles [10; 10; 10; 20]%Z [8; 8; 8; 18]%Z [9; 9; 9; 19]%Z) = Ok [].
Proof. reflexivity. Qed.

(** When the candle request fails and nothing is cached, [get_latest_data]
    hands out [pd.DataFrame()], which the main loop passes to the
    strategies. *)
Lemma get_latest_data_degrades_to_empty_frame (ta : DataProcessor.ta_library)
    (cfg : Config.t) (now : Q) (e : exn) :
  DataProcessor.get_latest_data ta cfg DataProcessor.init now (Raise e) None None
  = (DataProcessor.init, Ok Pd.DataFrame).
Proof. reflexivity. Qed.

(** C4 at the empty frame.  [pd.DataFrame()] has no candle at all, fewer than
    [senkou_span_b_period + displacement] (78 by default), and
    [generate_signals] answers it with [KeyError 'high'] instead of an empty
    list. *)
Theorem ichimoku_generate_signals_empty_frame {ties : Py.Ties} (now : Z) :
  (Pd.len Pd.DataFrame
   < IchimokuStrategy.senkou_span_b_period (IchimokuStrategy.init Config.defaults)
     + IchimokuStrategy.displacement (IchimokuStrategy.init Config.defaults))%nat
  /\ IchimokuStrategy.generate_signals (IchimokuStrategy.init Config.defaults) now
       Pd.DataFrame
     = Raise (KeyError "high").
Proof.
  split.
  - vm_compute. lia.
  - apply generate_signals_without_high. reflexivity.
Qed.

(** ** strategy_manager.py: gathering the signals *)

Section GenerateSignals.

Import StrategyManager.

Variable self : StrategyManager.t.
Variable data : frame.

Lemma run_strategy_produced (all_signals : list Signal) (strategy_name : string) :
  run_strategy self data all_signals strategy_name
  = Ok (all_signals ++ default [] (Spec.produced self data strategy_name)).
Proof.
  unfold run_strategy, Spec.produced.
  destruct (strategies self !! strategy_name) as [strategy|]; simpl.
  - destruct (@generate_signals_of strategy data) as [signals|e]; simpl.
    + reflexivity.
    + rewrite app_nil_r. reflexivity.
  - rewrite app_nil_r. reflexivity.
Qed.

Lemma run_strategies_produced (names : list string) :
  forall all_signals : list Signal,
    run_strategies self data names all_signals
    = Ok (all_signals ++ concat (omap (Spec.produced self data) names)).
Proof.
  induction names as [|strategy_name names IH]; intros all_signals; simpl.
  - rewrite app_nil_r. reflexivity.
  - rewrite run_strategy_produced. simpl. rewrite IH.
    destruct (Spec.produced self data strategy_name) as [signals|]; simpl.
    + rewrite app_assoc. reflexivity.
    + rewrite app_nil_r. reflexivity.
Qed.

Lemma omap_produced_without (strategy_name : string) (names : list string) :
  Spec.produced self data strategy_name = None ->
  omap (Spec.produced self data) (filter (fun n => n <> strategy_name) names)
  = omap (Spec.produced self data) names.
Proof.
  intros Hnone. induction names as [|n names IH]; [reflexivity|].
  rewrite filter_cons. destruct (decide (n <> strategy_name)) as [Hne|Heq]; simpl.
  - destruct (Spec.produced self data n); [f_equal|]; exact IH.
  - assert (n = strategy_name) as -> by (destruct (decide (n = strategy_name)); tauto).
    rewrite Hnone. exact IH.
Qed.

(** The loop gathers the concatenation and the ordering step is applied to
    it; no path raises. *)
Lemma generate_signals_gathered :
  run_strategies self data (enabled_strategies self) [] = Ok (Spec.gathered self data)
  /\ generate_signals self data = Ok (order_signals (Spec.gathered self data)).
Proof.
  assert (Hrun : run_strategies self data (enabled_strategies self) []
                 = Ok (Spec.gathered self data)).
  { rewrite run_strategies_produced. reflexivity. }
  split; [exact Hrun|].
  unfold generate_signals. rewrite Hrun. reflexivity.
Qed.

End GenerateSignals.

(** C5.  [StrategyManager.generate_signals] never raises.  The list it
    gathers is the concatenation, in the order of the enabled list, of the
    lists returned by the strategies that returned; a strategy that raised
    adds nothing.  The value returned is that list after the ordering step
    of lines 96-98, and it is the value the manager returns with the failing
    strategy struck from the enabled list. *)
Theorem generate_signals_isolates_failures (self : StrategyManager.t) (data : frame) :
  StrategyManager.run_strategies self data (StrategyManager.enabled_strategies self) []
    = Ok (Spec.gathered self data)
  /\ StrategyManager.generate_signals self data
     = Ok (StrategyManager.order_signals (Spec.gathered self data))
  /\ (forall (strategy_name : string) (strategy : StrategyManager.Strategy) (e : exn),
        StrategyManager.strategies self !! strategy_name = Some strategy ->
        @StrategyManager.generate_signals_of strategy data = Raise e ->
        Spec.produced self data strategy_name = None
        /\ Spec.gathered self data = Spec.gathered (Spec.without self strategy_name) data
        /\ StrategyManager.generate_signals self data
           = StrategyManager.generate_signals (Spec.without self strategy_name) data).
Proof.
  destruct (generate_signals_gathered self data) as [Hrun Hgen].
  split; [exact Hrun|]. split; [exact Hgen|].
  intros strategy_name strategy e Hlook Hraise.
  assert (Hnone : Spec.produced self data strategy_name = None).
  { unfold Spec.produced. rewrite Hlook, Hraise. reflexivity. }
  assert (Hsame : Spec.gathered self data
                  = Spec.gathered (Spec.without self strategy_name) data).
  { unfold Spec.gathered. simpl.
    change (Spec.produced (Spec.without self strategy_name) data)
      with (Spec.produced self data).
    rewrite (omap_produced_without self data strategy_name _ Hnone). reflexivity. }
  split; [exact Hnone|]. split; [exact Hsame|].
  rewrite Hgen.
  rewrite (proj2 (generate_signals_gathered (Spec.without self strategy_name) data)).
  rewrite Hsame. reflexivity.
Qed.

Lemma generate_signals_isolates_failures_witness :
  StrategyManager.generate_signals Scenarios.manager_with_failure Pd.DataFrame
  = Ok [Scenarios.tagged "vwap" "BUY" None; Scenarios.tagged "momentum" "SELL" None;
        Scenarios.tagged "momentum2" "BUY" None]
  /\ StrategyManager.generate_signals Scenarios.manager_with_failure Pd.DataFrame
     = StrategyManager.generate_signals
         (Spec.without Scenarios.manager_with_failure "gap") Pd.DataFrame.
Proof.
  destruct (generate_signals_isolates_failures Scenarios.manager_with_failure Pd.DataFrame)
    as (_ & Hgen & Hiso).
  split.
  - rewrite Hgen. reflexivity.
  - exact (proj2 (proj2 (Hiso "gap"%string (Scenarios.raising (KeyError "gap_up"))
                           (KeyError "gap_up") eq_refl eq_refl))).
Defined.

(** ** strategy_manager.py: the ordering step *)

Section SortDesc.

Import StrategyManager.

Variable key : Signal -> Q.

Lemma insert_desc_perm (x : Signal) (l : list Signal) :
  Permutation (x :: l) (insert_desc key x l).
Proof.
  induction l as [|y l IH]; simpl; [reflexivity|].
  destruct (Py.gtb (key y) (key x)); [|reflexivity].
  rewrite perm_swap. apply perm_skip. exact IH.
Qed.

Lemma sort_desc_perm (l : list Signal) : Permutation l (sort_desc key l).
Proof.
  induction l as [|x l IH]; simpl; [reflexivity|].
  rewrite <- insert_desc_perm. apply perm_skip. exact IH.
Qed.

Lemma insert_desc_sorted (x : Signal) (l : list Signal) :
  Spec.descending key l -> Spec.descending key (insert_desc key x l).
Proof.
  unfold Spec.descending. induction 1 as [|y l Hl IH Hy]; simpl.
  - repeat constructor.
  - destruct (Py.gtb (key y) (key x)) eqn:E.
    + constructor; [exact IH|].
      apply gtb_true in E.
      rewrite <- (insert_desc_perm x l). constructor; [lra | exact Hy].
    + apply gtb_false in E.
      constructor; [constructor; assumption|].
      constructor; [exact E|].
      eapply Forall_impl; [exact Hy|]. simpl. intros z Hz. lra.
Qed.

Lemma sort_desc_sorted (l : list Signal) : Spec.descending key (sort_desc key l).
Proof.
  induction l as [|x l IH]; simpl.
  - constructor.
  - apply insert_desc_sorted, IH.
Qed.

(** Stability: among the signals of one key the insertion keeps [x] first. *)
Lemma insert_desc_with_key (q : Q) (x : Signal) (l : list Signal) :
  Spec.with_key key q (insert_desc key x l) = Spec.with_key key q (x :: l).
Proof.
  unfold Spec.with_key. induction l as [|y l IH]; [reflexivity|].
  simpl. destruct (Py.gtb (key y) (key x)) eqn:E; [|reflexivity].
  apply gtb_true in E. simpl. rewrite IH. simpl.
  destruct (Py.eqb (key x) q) eqn:Ex; [|reflexivity].
  destruct (Py.eqb (key y) q) eqn:Ey; [|reflexivity].
  apply eqb_true in Ex, Ey. lra.
Qed.

Lemma sort_desc_with_key (q : Q) (l : list Signal) :
  Spec.with_key key q (sort_desc key l) = Spec.with_key key q l.
Proof.
  induction l as [|x l IH]; [reflexivity|].
  simpl. rewrite insert_desc_with_key. unfold Spec.with_key in *. simpl.
  rewrite IH. reflexivity.
Qed.

End SortDesc.

(** Where every signal carries a score, descending keys are descending
    scores. *)
Lemma descending_scores (l : list Signal) :
  Spec.descending StrategyManager.confidence_key l ->
  Forall (fun s => is_Some (sig_confidence s)) l ->
  StronglySorted (fun a b => exists ca cb, sig_confidence a = Some ca
                                           /\ sig_confidence b = Some cb
                                           /\ cb <= ca) l.
Proof.
  unfold Spec.descending. induction 1 as [|x l Hl IH Hx]; intros Hall.
  - constructor.
  - apply Forall_cons in Hall. destruct Hall as [[cx Hcx] Hall].
    constructor; [apply IH, Hall|].
    rewrite Forall_forall in Hx, Hall. apply Forall_forall. intros y Hy.
    destruct (Hall y Hy) as [cy Hcy]. specialize (Hx y Hy).
    unfold StrategyManager.confidence_key in Hx. rewrite Hcx, Hcy in Hx.
    exists cx, cy. auto.
Qed.

(** C7, as the code has it.  The list [generate_signals] returns is a
    rearrangement of the gathered list.  If the first gathered signal carries
    a confidence score, the result is in descending order of confidence, a
    signal without a score counting as 0 and signals of equal confidence
    keeping their generation order; in particular it is in descending order
    of confidence when every signal carries a score.  If no signal was
    gathered or the first one carries no score, the result is the gathered
    list in generation order. *)
Theorem generate_signals_ordering (self : StrategyManager.t) (data : frame) :
  exists all_signals result,
    StrategyManager.run_strategies self data (StrategyManager.enabled_strategies self) []
      = Ok all_signals
    /\ StrategyManager.generate_signals self data = Ok result
    /\ Permutation all_signals result
    /\ ((exists first rest, all_signals = first :: rest
                            /\ is_Some (sig_confidence first)) ->
        Spec.descending StrategyManager.confidence_key result
        /\ forall q, Spec.with_key StrategyManager.confidence_key q result
                     = Spec.with_key StrategyManager.confidence_key q all_signals)
    /\ (Forall (fun s => is_Some (sig_confidence s)) all_signals ->
        StronglySorted (fun a b => exists ca cb, sig_confidence a = Some ca
                                                 /\ sig_confidence b = Some cb
                                                 /\ cb <= ca) result)
    /\ (match all_signals with
        | [] => True
        | first :: _ => sig_confidence first = None
        end -> result = all_signals).
Proof.
  destruct (generate_signals_gathered self data) as [Hrun Hgen].
  set (all_signals := Spec.gathered self data) in *.
  exists all_signals, (StrategyManager.order_signals all_signals).
  split; [exact Hrun|]. split; [exact Hgen|].
  assert (Hsorts : forall first rest,
             all_signals = first :: rest -> is_Some (sig_confidence first) ->
             StrategyManager.order_signals all_signals
             = StrategyManager.sort_desc StrategyManager.confidence_key all_signals).
  { intros first rest -> [c Hc]. unfold StrategyManager.order_signals,
      StrategyManager.has_confidence. rewrite Hc. reflexivity. }
  assert (Hkeeps : match all_signals with
                   | [] => True
                   | first :: _ => sig_confidence first = None
                   end -> StrategyManager.order_signals all_signals = all_signals).
  { destruct all_signals as [|first rest]; [reflexivity|].
    intros Hc. unfold StrategyManager.order_signals, StrategyManager.has_confidence.
    rewrite Hc. reflexivity. }
  assert (Hperm : Permutation all_signals (StrategyManager.order_signals all_signals)).
  { destruct all_signals as [|first rest] eqn:E; [reflexivity|].
    destruct (sig_confidence first) as [c|] eqn:Hc.
    - rewrite (Hsorts first rest eq_refl) by (rewrite Hc; eauto).
      apply sort_desc_perm.
    - rewrite Hkeeps by reflexivity. reflexivity. }
  split; [exact Hperm|]. split; [|split].
  - intros (first & rest & E & Hc). rewrite (Hsorts first rest E Hc).
    split; [apply sort_desc_sorted|]. intros q. apply sort_desc_with_key.
  - intros Hall. destruct all_signals as [|first rest] eqn:E; [constructor|].
    assert (Hc : is_Some (sig_confidence first)) by (apply Forall_cons in Hall; tauto).
    apply descending_scores.
    + rewrite (Hsorts first rest eq_refl Hc). apply sort_desc_sorted.
    + rewrite <- Hperm. exact Hall.
  - exact Hkeeps.
Qed.

Lemma generate_signals_ordering_witness :
  (exists all_signals result,
     StrategyManager.generate_signals Scenarios.manager_mixed_confidence Pd.DataFrame
       = Ok result
     /\ Permutation all_signals result
     /\ Spec.descending StrategyManager.confidence_key result)
  /\ (exists all_signals result,
        StrategyManager.run_strategies Scenarios.manager_with_failure Pd.DataFrame
          (StrategyManager.enabled_strategies Scenarios.manager_with_failure) []
          = Ok all_signals
        /\ StrategyManager.generate_signals Scenarios.manager_with_failure Pd.DataFrame
           = Ok result
        /\ result = all_signals).
Proof.
  split.
  - destruct (generate_signals_ordering Scenarios.manager_mixed_confidence Pd.DataFrame)
      as (all_signals & result & Hrun & Hgen & Hperm & Hsorted & _ & _).
    exists all_signals, result. split; [exact Hgen|]. split; [exact Hperm|].
    apply Hsorted. vm_compute in Hrun. injection Hrun as <-.
    eexists. eexists. split; [reflexivity|]. eexists. reflexivity.
  - destruct (generate_signals_ordering Scenarios.manager_with_failure Pd.DataFrame)
      as (all_signals & result & Hrun & Hgen & _ & _ & _ & Hkeeps).
    exists all_signals, result. split; [exact Hrun|]. split; [exact Hgen|].
    apply Hkeeps. vm_compute in Hrun. injection Hrun as <-. reflexivity.
Defined.

(** The claim of C7 fails where a score is missing further down the list:
    the first signal carries a score, so the list is sorted all the same and
    the generation order [a; b; c] comes back as [c; a; b]. *)
Lemma generate_signals_reorders_mixed_confidence :
  exists all_signals result,
    StrategyManager.run_strategies Scenarios.manager_mixed_confidence Pd.DataFrame
      (StrategyManager.enabled_strategies Scenarios.manager_mixed_confidence) []
      = Ok all_signals
    /\ StrategyManager.generate_signals Scenarios.manager_mixed_confidence Pd.DataFrame
       = Ok result
    /\ ~ Forall (fun s => is_Some (sig_confidence s)) all_signals
    /\ all_signals = [Scenarios.tagged "a" "BUY" (Some (1 # 10));
                      Scenarios.tagged "b" "BUY" None;
                      Scenarios.tagged "c" "BUY" (Some (9 # 10))]
    /\ result = [Scenarios.tagged "c" "BUY" (Some (9 # 10));
                 Scenarios.tagged "a" "BUY" (Some (1 # 10));
                 Scenarios.tagged "b" "BUY" None]
    /\ result <> all_signals.
Proof.
  eexists. eexists.
  split; [vm_compute; reflexivity|]. split; [vm_compute; reflexivity|].
  split; [|split; [reflexivity|split; [reflexivity|discriminate]]].
  intros Hall. apply Forall_cons in Hall. destruct Hall as [_ Hall].
  apply Forall_cons in Hall. destruct Hall as [[c Hc] _]. discriminate.
Qed.

(** ** strategy_manager.py: majority vote *)

Section CombineSignals.

Import StrategyManager.

Lemma max_by_invariant (key : Signal -> Q) (rest : list Signal) :
  forall (before : list Signal) (best : Signal) (between : list Signal),
    Forall (fun y => key y < key best) before ->
    Forall (fun y => key y <= key best) between ->
    Spec.first_greatest key (before ++ best :: between ++ rest)
      (max_by key best rest).
Proof.
  unfold max_by.
  induction rest as [|y rest IH]; intros before best between Hbefore Hbetween; simpl.
  - exists before, between. rewrite app_nil_r. auto.
  - destruct (Py.gtb (key y) (key best)) eqn:E.
    + apply gtb_true in E.
      replace (before ++ best :: between ++ y :: rest)
        with ((before ++ best :: between) ++ y :: [] ++ rest)
        by (rewrite <- app_assoc; reflexivity).
      apply IH; [|constructor].
      apply Forall_app. split.
      * eapply Forall_impl; [exact Hbefore|]. simpl. intros z Hz. lra.
      * constructor; [exact E|].
        eapply Forall_impl; [exact Hbetween|]. simpl. intros z Hz. lra.
    + apply gtb_false in E.
      replace (before ++ best :: between ++ y :: rest)
        with (before ++ best :: (between ++ [y]) ++ rest)
        by (rewrite <- app_assoc; reflexivity).
      apply IH; [exact Hbefore|].
      apply Forall_app. split; [exact Hbetween|]. constructor; [exact E|constructor].
Qed.

Lemma max_by_first_greatest (key : Signal -> Q) (first : Signal) (rest : list Signal) :
  Spec.first_greatest key (first :: rest) (max_by key first rest).
Proof.
  apply (max_by_invariant key rest [] first []); constructor.
Qed.

Lemma first_greatest_elem (key : Signal -> Q) (l : list Signal) (best : Signal) :
  Spec.first_greatest key l best -> best ∈ l.
Proof.
  intros (before & after & -> & _). apply elem_of_app. right. apply elem_of_cons. auto.
Qed.

(** The choice of lines 124 and 131 on a non-empty side. *)
Lemma best_signal_cons (first : Signal) (rest : list Signal) :
  exists best,
    best_signal (first :: rest) = Some best
    /\ best ∈ first :: rest
    /\ (is_Some (sig_confidence first) ->
        Spec.first_greatest confidence_key (first :: rest) best)
    /\ (sig_confidence first = None -> best = first).
Proof.
  unfold best_signal, has_confidence.
  destruct (sig_confidence first) as [c|] eqn:Hc; simpl.
  - exists (max_by confidence_key first rest).
    pose proof (max_by_first_greatest confidence_key first rest) as Hmax.
    split; [reflexivity|]. split; [exact (first_greatest_elem _ _ _ Hmax)|].
    split; [auto | discriminate].
  - exists first. split; [reflexivity|]. split; [apply elem_of_cons; auto|].
    split; [intros [c Hc']; discriminate | reflexivity].
Qed.

(** [combine_signals] on a non-empty list, side by side. *)
Lemma combine_signals_sides (signals : list Signal) :
  signals <> [] ->
  let n := length signals in
  combine_signals signals
  = (if Py.gtb (Spec.fraction (length (Spec.buys signals)) n) (6 # 10)
     then option_list (best_signal (Spec.buys signals)) else [])
    ++ (if Py.gtb (Spec.fraction (length (Spec.sells signals)) n) (6 # 10)
        then option_list (best_signal (Spec.sells signals)) else []).
Proof.
  intros Hne n. unfold combine_signals.
  destruct (Nat.eqb_spec (length signals) 0) as [Hz|_].
  { destruct signals; [contradiction | discriminate]. }
  fold (Spec.buys signals). fold (Spec.sells signals). fold n.
  unfold Spec.fraction.
  destruct (Py.gtb _ (6 # 10)); destruct (Py.gtb _ (6 # 10));
    destruct (best_signal (Spec.buys signals));
    destruct (best_signal (Spec.sells signals)); reflexivity.
Qed.

Lemma sides_length (signals : list Signal) :
  (length (Spec.buys signals) + length (Spec.sells signals) <= length signals)%nat.
Proof.
  unfold Spec.buys, Spec.sells.
  induction signals as [|s signals IH]; [reflexivity|].
  rewrite !filter_cons.
  destruct (decide (sig_side s = "BUY"%string)) as [Hb|Hb];
    destruct (decide (sig_side s = "SELL"%string)) as [Hs|Hs]; simpl; try lia.
  rewrite Hb in Hs. discriminate.
Qed.

(** A share above 0.6, in whole numbers. *)
Lemma fraction_above (k n : nat) :
  (0 < n)%nat -> (6 # 10 < Spec.fraction k n <-> (3 * n < 5 * k)%nat).
Proof.
  intros Hn. unfold Spec.fraction.
  assert (Hpos : 0 < inject_Z (Z.of_nat n)).
  { change 0 with (inject_Z 0). rewrite <- Zlt_Qlt. lia. }
  assert (Hscaled : (6 # 10) * inject_Z (Z.of_nat n) < inject_Z (Z.of_nat k)
                    <-> (3 * n < 5 * k)%nat).
  { unfold Qlt, Qmult, inject_Z. simpl. lia. }
  rewrite <- Hscaled. split; intros H.
  - apply Qmult_lt_compat_r with (z := inject_Z (Z.of_nat n)) in H; [|exact Hpos].
    assert (E : inject_Z (Z.of_nat k) / inject_Z (Z.of_nat n) * inject_Z (Z.of_nat n)
                == inject_Z (Z.of_nat k)) by (field; lra).
    rewrite E in H. exact H.
  - apply Qlt_shift_div_l; assumption.
Qed.

End CombineSignals.

(** One side of the vote wins: the other side cannot be above 0.6 too. *)
Lemma combine_signals_winner (signals : list Signal) (winners losers : list Signal) :
  signals <> [] ->
  (length winners + length losers <= length signals)%nat ->
  6 # 10 < Spec.fraction (length winners) (length signals) ->
  Py.gtb (Spec.fraction (length winners) (length signals)) (6 # 10) = true
  /\ Py.gtb (Spec.fraction (length losers) (length signals)) (6 # 10) = false
  /\ exists first rest, winners = first :: rest.
Proof.
  intros Hne Hlen Hwin.
  assert (Hn : (0 < length signals)%nat).
  { destruct signals; [contradiction | simpl; lia]. }
  split; [apply gtb_true; exact Hwin|].
  apply fraction_above in Hwin; [|exact Hn]. split.
  - destruct (Py.gtb _ (6 # 10)) eqn:E; [|reflexivity].
    apply gtb_true, fraction_above in E; [|exact Hn]. lia.
  - destruct winners as [|first rest]; [simpl in Hwin; lia | eauto].
Qed.

(** C6, as the code has it.  [combine_signals] returns nothing for an empty
    input.  For a non-empty input it returns exactly one Buy signal when the
    share of Buy signals exceeds 0.6, exactly one Sell signal when the share of
    Sell signals exceeds 0.6, and nothing otherwise.  The signal returned for
    the winning side is, if the first signal of that side carries a
    confidence score, the first among those of the greatest confidence (a
    missing score counting as 0), and otherwise the first signal of that
    side.  With 2 Buy and 1 Sell signals without scores the result is the
    first Buy alone. *)
Theorem combine_signals_majority :
  StrategyManager.combine_signals [] = []
  /\ (forall signals : list Signal,
        signals <> [] ->
        let n := length signals in
        (6 # 10 < Spec.fraction (length (Spec.buys signals)) n ->
         exists first rest best,
           Spec.buys signals = first :: rest
           /\ StrategyManager.combine_signals signals = [best]
           /\ best ∈ Spec.buys signals
           /\ (is_Some (sig_confidence first) ->
               Spec.first_greatest StrategyManager.confidence_key (first :: rest) best)
           /\ (sig_confidence first = None -> best = first))
        /\ (6 # 10 < Spec.fraction (length (Spec.sells signals)) n ->
            exists first rest best,
              Spec.sells signals = first :: rest
              /\ StrategyManager.combine_signals signals = [best]
              /\ best ∈ Spec.sells signals
              /\ (is_Some (sig_confidence first) ->
                  Spec.first_greatest StrategyManager.confidence_key (first :: rest) best)
              /\ (sig_confidence first = None -> best = first))
        /\ (Spec.fraction (length (Spec.buys signals)) n <= 6 # 10 ->
            Spec.fraction (length (Spec.sells signals)) n <= 6 # 10 ->
            StrategyManager.combine_signals signals = []))
  /\ (forall signals : list Signal,
        length signals = 3%nat ->
        length (Spec.buys signals) = 2%nat ->
        length (Spec.sells signals) = 1%nat ->
        Forall (fun s => sig_confidence s = None) signals ->
        exists first rest,
          Spec.buys signals = first :: rest
          /\ StrategyManager.combine_signals signals = [first]).
Proof.
  assert (Hmain : forall signals : list Signal,
        signals <> [] ->
        let n := length signals in
        (6 # 10 < Spec.fraction (length (Spec.buys signals)) n ->
         exists first rest best,
           Spec.buys signals = first :: rest
           /\ StrategyManager.combine_signals signals = [best]
           /\ best ∈ Spec.buys signals
           /\ (is_Some (sig_confidence first) ->
               Spec.first_greatest StrategyManager.confidence_key (first :: rest) best)
           /\ (sig_confidence first = None -> best = first))
        /\ (6 # 10 < Spec.fraction (length (Spec.sells signals)) n ->
            exists first rest best,
              Spec.sells signals = first :: rest
              /\ StrategyManager.combine_signals signals = [best]
              /\ best ∈ Spec.sells signals
              /\ (is_Some (sig_confidence first) ->
                  Spec.first_greatest StrategyManager.confidence_key (first :: rest) best)
              /\ (sig_confidence first = None -> best = first))
        /\ (Spec.fraction (length (Spec.buys signals)) n <= 6 # 10 ->
            Spec.fraction (length (Spec.sells signals)) n <= 6 # 10 ->
            StrategyManager.combine_signals signals = [])).
  { intros signals Hne n. pose proof (sides_length signals) as Hlen.
    pose proof (combine_signals_sides signals Hne) as Hsides. cbv zeta in Hsides.
    fold n in Hsides. split; [|split].
    - intros Hwin.
      destruct (combine_signals_winner signals _ _ Hne Hlen Hwin)
        as (Hb & Hs & first & rest & Hbuys).
      fold n in Hb, Hs. rewrite Hb, Hs, Hbuys in Hsides.
      destruct (best_signal_cons first rest) as (best & Hbest & Hin & Hconf & Hfirst).
      rewrite Hbest in Hsides. simpl in Hsides.
      exists first, rest, best. rewrite Hbuys. auto.
    - intros Hwin.
      assert (Hlen' : (length (Spec.sells signals) + length (Spec.buys signals)
                       <= length signals)%nat) by lia.
      destruct (combine_signals_winner signals _ _ Hne Hlen' Hwin)
        as (Hs & Hb & first & rest & Hsells).
      fold n in Hb, Hs. rewrite Hb, Hs, Hsells in Hsides.
      destruct (best_signal_cons first rest) as (best & Hbest & Hin & Hconf & Hfirst).
      rewrite Hbest in Hsides. simpl in Hsides.
      exists first, rest, best. rewrite Hsells. auto.
    - intros Hb Hs. apply gtb_false in Hb, Hs. rewrite Hb, Hs in Hsides. exact Hsides. }
  split; [reflexivity|]. split; [exact Hmain|].
  intros signals Hn Hb Hs Hnone.
  assert (Hne : signals <> []) by (destruct signals; [discriminate | congruence]).
  destruct (Hmain signals Hne) as (Hbuy & _ & _).
  destruct Hbuy as (first & rest & best & Hbuys & Hcomb & _ & _ & Hfirst).
  { rewrite Hb, Hn. reflexivity. }
  exists first, rest. split; [exact Hbuys|].
  rewrite Hcomb. f_equal. apply Hfirst.
  rewrite Forall_forall in Hnone. apply Hnone.
  assert (Hin : first ∈ Spec.buys signals) by (rewrite Hbuys; apply elem_of_cons; auto).
  unfold Spec.buys in Hin. apply list_elem_of_filter in Hin. tauto.
Qed.

Lemma combine_signals_majority_witness :
  (exists first rest,
     Spec.buys [Scenarios.tagged "s1" "SELL" None; Scenarios.tagged "b1" "BUY" None;
                Scenarios.tagged "b2" "BUY" None] = first :: rest
     /\ StrategyManager.combine_signals
          [Scenarios.tagged "s1" "SELL" None; Scenarios.tagged "b1" "BUY" None;
           Scenarios.tagged "b2" "BUY" None] = [first]
     /\ first = Scenarios.tagged "b1" "BUY" None)
  /\ (exists best,
        StrategyManager.combine_signals
          [Scenarios.tagged "b1" "BUY" (Some (2 # 10));
           Scenarios.tagged "b2" "BUY" (Some (9 # 10));
           Scenarios.tagged "b3" "BUY" (Some (9 # 10))] = [best]
        /\ Spec.first_greatest StrategyManager.confidence_key
             [Scenarios.tagged "b1" "BUY" (Some (2 # 10));
              Scenarios.tagged "b2" "BUY" (Some (9 # 10));
              Scenarios.tagged "b3" "BUY" (Some (9 # 10))] best).
Proof.
  split.
  - destruct (proj2 (proj2 combine_signals_majority)
                [Scenarios.tagged "s1" "SELL" None; Scenarios.tagged "b1" "BUY" None;
                 Scenarios.tagged "b2" "BUY" None])
      as (first & rest & Hbuys & Hcomb);
      [reflexivity | reflexivity | reflexivity | repeat constructor |].
    exists first, rest. split; [exact Hbuys|]. split; [exact Hcomb|].
    vm_compute in Hbuys. injection Hbuys as <- _. reflexivity.
  - destruct (proj1 (proj2 combine_signals_majority)
                [Scenarios.tagged "b1" "BUY" (Some (2 # 10));
                 Scenarios.tagged "b2" "BUY" (Some (9 # 10));
                 Scenarios.tagged "b3" "BUY" (Some (9 # 10))])
      as (Hbuy & _ & _); [discriminate|].
    destruct Hbuy as (first & rest & best & Hbuys & Hcomb & _ & Hgreat & _);
      [reflexivity|].
    exists best. split; [exact Hcomb|].
    vm_compute in Hbuys. injection Hbuys as <- <-.
    apply Hgreat. eexists. reflexivity.
Defined.

(** The claim of C6 fails when only a later Buy carries a score: both signals
    are Buys, the second has the highest confidence, and the first, which
    has none, is the one returned. *)
Lemma combine_signals_ignores_later_confidence :
  6 # 10 < Spec.fraction
             (length (Spec.buys [Scenarios.unscored_buy; Scenarios.scored_buy]))
             (length [Scenarios.unscored_buy; Scenarios.scored_buy])
  /\ StrategyManager.combine_signals [Scenarios.unscored_buy; Scenarios.scored_buy]
     = [Scenarios.unscored_buy]
  /\ sig_confidence Scenarios.scored_buy = Some (9 # 10)
  /\ Spec.first_greatest StrategyManager.confidence_key
       (Spec.buys [Scenarios.unscored_buy; Scenarios.scored_buy]) Scenarios.scored_buy
  /\ StrategyManager.combine_signals [Scenarios.unscored_buy; Scenarios.scored_buy]
     <> [Scenarios.scored_buy].
Proof.
  split; [reflexivity|]. split; [reflexivity|]. split; [reflexivity|].
  split.
  - exists [Scenarios.unscored_buy], []. split; [reflexivity|]. split; [|constructor].
    constructor; [reflexivity | constructor].
  - discriminate.
Qed.

(** ** data_processor.py: what [calculate_indicators] touches *)

Section CalculateIndicators.

Import DataProcessor.

Variable ta : ta_library.
Variable cfg : Config.t.

(** Looking a label up under the assignments of other labels. *)
Ltac through_inserts :=
  repeat (rewrite lookup_insert_ne by discriminate);
  try (rewrite lookup_insert_eq); try reflexivity; try assumption.

(** A statement that finds its value already written changes nothing. *)
Lemma assign_settled (df : frame) (dst src : string) (f : column -> column) (c : column) :
  cols df !! src = Some c ->
  cols df !! dst = Some (f c) ->
  assign dst src f df = Ok df.
Proof.
  intros Hsrc Hdst. unfold assign, Pd.getitem, Pd.setitem. rewrite Hsrc. simpl.
  rewrite (insert_id _ _ _ Hdst). destruct df; reflexivity.
Qed.

Lemma setitem_settled (df : frame) (label : string) (c : column) :
  cols df !! label = Some c -> Pd.setitem df label c = df.
Proof.
  intros H. unfold Pd.setitem. rewrite (insert_id _ _ _ H). destruct df; reflexivity.
Qed.

(** The labels the statements write are not the ones they read. *)
Lemma run_indicator_statements_frame (df df' : frame) (r : result ()) :
  run (indicator_statements ta) df = (df', r) ->
  index df' = index df /\ index_name df' = index_name df
  /\ (forall label, label ∉ indicator_labels -> cols df' !! label = cols df !! label).
Proof.
  destruct df as [nm idx m].
  unfold indicator_statements, run, assign, Pd.getitem, Pd.setitem. simpl.
  destruct (m !! "close"%string) as [close|] eqn:Hc; simpl.
  2:{ intros [= <- <-]. auto. }
  repeat (rewrite ?Hc; try (rewrite lookup_insert_ne by discriminate); simpl).
  assert (Hother : forall (label : string) (P : Prop),
             label ∉ indicator_labels ->
             (label <> "sma_20" -> label <> "sma_50" -> label <> "sma_200" ->
              label <> "ema_12" -> label <> "ema_26" -> label <> "macd_line" ->
              label <> "macd_signal" -> label <> "macd_histogram" ->
              label <> "rsi" -> label <> "bb_upper" -> label <> "bb_middle" ->
              label <> "bb_lower" -> label <> "obv" -> P)%string -> P).
  { intros label P Hnot HP. unfold indicator_labels in Hnot.
    apply HP; intros ->; apply Hnot; set_solver. }
  destruct (m !! "volume"%string) as [volume|] eqn:Hv; simpl;
    intros [= <- <-]; simpl; (split; [reflexivity|]); (split; [reflexivity|]);
    intros label Hnot; apply (Hother label _ Hnot); intros;
    repeat (rewrite lookup_insert_ne by congruence); reflexivity.
Qed.

Local Arguments Pd.setitem : simpl never.

(** Running the statements again on the frame they left gives that frame
    and the same outcome. *)
Lemma run_indicator_statements_again (df df' : frame) (r : result ()) :
  run (indicator_statements ta) df = (df', r) ->
  run (indicator_statements ta) df' = (df', r).
Proof.
  destruct df as [nm idx m].
  unfold indicator_statements at 1, run at 1, assign, Pd.getitem, Pd.setitem. simpl.
  destruct (m !! "close"%string) as [close|] eqn:Hc; simpl.
  2:{ intros [= <- <-]. unfold indicator_statements, run, assign, Pd.getitem. simpl.
      rewrite Hc. reflexivity. }
  repeat (rewrite ?Hc; try (rewrite lookup_insert_ne by discriminate); simpl).
  destruct (m !! "volume"%string) as [volume|] eqn:Hv; simpl; intros [= <- <-].
  - set (M := <["obv"%string := _]> _).
    assert (HMc : M !! "close"%string = Some close) by (subst M; through_inserts).
    assert (HMv : M !! "volume"%string = Some volume) by (subst M; through_inserts).
    assert (H1 : M !! "sma_20"%string = Some (sma_indicator ta close 20))
      by (subst M; through_inserts).
    assert (H2 : M !! "sma_50"%string = Some (sma_indicator ta close 50))
      by (subst M; through_inserts).
    assert (H3 : M !! "sma_200"%string = Some (sma_indicator ta close 200))
      by (subst M; through_inserts).
    assert (H4 : M !! "ema_12"%string = Some (ema_indicator ta close 12))
      by (subst M; through_inserts).
    assert (H5 : M !! "ema_26"%string = Some (ema_indicator ta close 26))
      by (subst M; through_inserts).
    assert (H6 : M !! "macd_line"%string = Some (macd ta close))
      by (subst M; through_inserts).
    assert (H7 : M !! "macd_signal"%string = Some (macd_signal ta close))
      by (subst M; through_inserts).
    assert (H8 : M !! "macd_histogram"%string = Some (macd_diff ta close))
      by (subst M; through_inserts).
    assert (H9 : M !! "rsi"%string = Some (rsi ta close))
      by (subst M; through_inserts).
    assert (H10 : M !! "bb_upper"%string = Some (bollinger_hband ta close))
      by (subst M; through_inserts).
    assert (H11 : M !! "bb_middle"%string = Some (bollinger_mavg ta close))
      by (subst M; through_inserts).
    assert (H12 : M !! "bb_lower"%string = Some (bollinger_lband ta close))
      by (subst M; through_inserts).
    assert (H13 : M !! "obv"%string = Some (on_balance_volume ta close volume))
      by (subst M; through_inserts).
    clearbody M.
    unfold indicator_statements, run, Pd.getitem.
    repeat first
      [ rewrite (insert_id M) by assumption
      | rewrite HMc
      | rewrite HMv
      | rewrite (setitem_settled {| index_name := nm; index := idx; cols := M |})
          by (simpl; assumption)
      | rewrite (assign_settled {| index_name := nm; index := idx; cols := M |}
                   _ _ _ close) by (simpl; assumption)
      | progress simpl ].
    reflexivity.
  - set (M := <["bb_lower"%string := _]> _).
    assert (HMc : M !! "close"%string = Some close) by (subst M; through_inserts).
    assert (HMv : M !! "volume"%string = None) by (subst M; through_inserts).
    assert (H1 : M !! "sma_20"%string = Some (sma_indicator ta close 20))
      by (subst M; through_inserts).
    assert (H2 : M !! "sma_50"%string = Some (sma_indicator ta close 50))
      by (subst M; through_inserts).
    assert (H3 : M !! "sma_200"%string = Some (sma_indicator ta close 200))
      by (subst M; through_inserts).
    assert (H4 : M !! "ema_12"%string = Some (ema_indicator ta close 12))
      by (subst M; through_inserts).
    assert (H5 : M !! "ema_26"%string = Some (ema_indicator ta close 26))
      by (subst M; through_inserts).
    assert (H6 : M !! "macd_line"%string = Some (macd ta close))
      by (subst M; through_inserts).
    assert (H7 : M !! "macd_signal"%string = Some (macd_signal ta close))
      by (subst M; through_inserts).
    assert (H8 : M !! "macd_histogram"%string = Some (macd_diff ta close))
      by (subst M; through_inserts).
    assert (H9 : M !! "rsi"%string = Some (rsi ta close))
      by (subst M; through_inserts).
    assert (H10 : M !! "bb_upper"%string = Some (bollinger_hband ta close))
      by (subst M; through_inserts).
    assert (H11 : M !! "bb_middle"%string = Some (bollinger_mavg ta close))
      by (subst M; through_inserts).
    assert (H12 : M !! "bb_lower"%string = Some (bollinger_lband ta close))
      by (subst M; through_inserts).
    clearbody M.
    unfold indicator_statements, run, Pd.getitem.
    repeat first
      [ rewrite (insert_id M) by assumption
      | rewrite HMc
      | rewrite HMv
      | rewrite (setitem_settled {| index_name := nm; index := idx; cols := M |})
          by (simpl; assumption)
      | rewrite (assign_settled {| index_name := nm; index := idx; cols := M |}
                   _ _ _ close) by (simpl; assumption)
      | progress simpl ].
    reflexivity.
Qed.

(** With [close] and [volume] in the frame every statement runs, and the
    thirteen labels are in the caller's frame afterwards. *)
Lemma run_indicator_statements_writes (df : frame) (close volume : column) :
  cols df !! "close"%string = Some close ->
  cols df !! "volume"%string = Some volume ->
  exists df',
    run (indicator_statements ta) df = (df', Ok ())
    /\ (forall label, label ∈ indicator_labels -> is_Some (cols df' !! label))
    /\ cols df' !! "sma_20"%string = Some (sma_indicator ta close 20)
    /\ cols df' !! "close"%string = Some close.
Proof.
  intros Hc Hv. destruct df as [nm idx m]. simpl in *.
  unfold indicator_statements, run, assign, Pd.getitem, Pd.setitem. simpl.
  repeat (rewrite ?Hc, ?Hv; try (rewrite lookup_insert_ne by discriminate); simpl).
  eexists. split; [reflexivity|]. simpl. split; [|split].
  - intros label Hin. unfold indicator_labels in Hin.
    repeat (apply elem_of_cons in Hin; destruct Hin as [->|Hin];
            [through_inserts; eauto|]).
    apply elem_of_nil in Hin. contradiction.
  - through_inserts.
  - through_inserts.
Qed.

(** A run that ends well found [close] and [volume]. *)
Lemma run_indicator_statements_reads (df df' : frame) :
  run (indicator_statements ta) df = (df', Ok ()) ->
  is_Some (cols df !! "close"%string) /\ is_Some (cols df !! "volume"%string).
Proof.
  destruct df as [nm idx m].
  unfold indicator_statements, run, assign, Pd.getitem, Pd.setitem. simpl.
  destruct (m !! "close"%string) as [close|] eqn:Hc; simpl; [|discriminate].
  repeat (rewrite ?Hc; try (rewrite lookup_insert_ne by discriminate); simpl).
  destruct (m !! "volume"%string) as [volume|] eqn:Hv; simpl; [|discriminate].
  eauto.
Qed.

(** The statements only add or replace columns. *)
Lemma run_indicator_statements_grows (df df' : frame) (r : result ()) (label : string) :
  run (indicator_statements ta) df = (df', r) ->
  is_Some (cols df !! label) -> is_Some (cols df' !! label).
Proof.
  destruct df as [nm idx m].
  unfold indicator_statements, run, assign, Pd.getitem, Pd.setitem. simpl.
  destruct (m !! "close"%string) as [close|] eqn:Hc; simpl.
  2:{ intros [= <- <-]. auto. }
  repeat (rewrite ?Hc; try (rewrite lookup_insert_ne by discriminate); simpl).
  destruct (m !! "volume"%string) as [volume|] eqn:Hv; simpl;
    intros [= <- <-] Hsome; simpl;
    repeat (rewrite lookup_insert; case_decide; [eauto|]); exact Hsome.
Qed.

Lemma empty_after_run (df df' : frame) (r : result ()) :
  run (indicator_statements ta) df = (df', r) ->
  Pd.empty df = false -> Pd.empty df' = false.
Proof.
  intros Hrun Hne. unfold Pd.empty, Pd.len in *.
  destruct (run_indicator_statements_frame _ _ _ Hrun) as (Hidx & _ & _).
  rewrite Hidx. apply orb_false_iff in Hne. destruct Hne as [Hlen Hcols].
  rewrite Hlen. simpl. apply bool_decide_eq_false in Hcols.
  apply bool_decide_eq_false. intros Hempty.
  destruct (map_choose _ Hcols) as (label & c & Hlabel).
  assert (Hsome : is_Some (cols df' !! label))
    by (eapply run_indicator_statements_grows; eauto).
  rewrite Hempty, lookup_empty in Hsome. destruct Hsome; discriminate.
Qed.

(** Calling [calculate_indicators] again on the frame it was given returns
    what the first call returned and changes nothing more. *)
Lemma calculate_indicators_again (df : frame) :
  calculate_indicators ta cfg (calculate_indicators ta cfg df).1
  = calculate_indicators ta cfg df.
Proof.
  unfold calculate_indicators at 2 3.
  destruct (Pd.empty df) eqn:Hempty.
  { simpl. unfold calculate_indicators. rewrite Hempty. reflexivity. }
  destruct (run (indicator_statements ta) df) as [df' r] eqn:Hrun.
  destruct r as [u|e]; cbn [fst]; unfold calculate_indicators;
    rewrite (empty_after_run _ _ _ Hrun Hempty);
    rewrite (run_indicator_statements_again _ _ _ Hrun); reflexivity.
Qed.

(** [calculate_vwap] and [calculate_pivot_points] put their columns into the
    frame they return. *)
Lemma calculate_vwap_column (df returned : frame) :
  calculate_vwap df = Ok returned -> is_Some (cols returned !! "vwap"%string).
Proof.
  unfold calculate_vwap.
  destruct (Py.contains _); [intros; discriminate|].
  destruct (negb _); [intros; discriminate|].
  destruct (index df); simpl.
  - intros [= <-]. simpl. rewrite lookup_insert_eq. eauto.
  - destruct (Pd.getitem df "volume"); simpl; [|discriminate].
    destruct (Pd.getitem df "high"); simpl; [|discriminate].
    destruct (Pd.getitem df "low"); simpl; [|discriminate].
    destruct (Pd.getitem df "close"); simpl; [|discriminate].
    intros [= <-]. simpl. rewrite lookup_insert_eq. eauto.
Qed.

Lemma calculate_pivot_points_columns (df returned : frame) :
  calculate_pivot_points cfg df = Ok returned ->
  is_Some (cols returned !! "pivot"%string)
  /\ cols returned !! "vwap"%string = cols df !! "vwap"%string.
Proof.
  destruct df as [nm idx m].
  unfold calculate_pivot_points, Pd.getitem, Pd.setitem. simpl.
  destruct (m !! "high"%string) as [high|] eqn:Hh; simpl; [|discriminate].
  destruct (m !! "low"%string) as [low|] eqn:Hl; simpl; [|discriminate].
  destruct (m !! "close"%string) as [close|] eqn:Hc; simpl; [|discriminate].
  repeat (rewrite ?lookup_insert_eq, ?Hh, ?Hl, ?Hc;
          try (rewrite lookup_insert_ne by discriminate); simpl).
  intros [= <-]. simpl. split; through_inserts. eauto.
Qed.

End CalculateIndicators.

(** X20.  What [calculate_indicators] does to the frame it is given.  The
    call is a function of its input: a second call on the very frame the first call was given returns
    the same frame and leaves the caller's frame as the first call left it.
    The call keeps the index of the caller's frame and every column other
    than the thirteen indicator labels [sma_20 ... obv]; an empty frame is
    returned untouched.  On a non-empty frame for which the call returns, the
    thirteen indicator columns have been written into the caller's frame
    itself, while [vwap] and the pivot levels exist only in the frame
    returned. *)
Theorem calculate_indicators_effects (ta : DataProcessor.ta_library) (cfg : Config.t)
    (df : frame) :
  let out := DataProcessor.calculate_indicators ta cfg df in
  DataProcessor.calculate_indicators ta cfg out.1 = out
  /\ index out.1 = index df
  /\ index_name out.1 = index_name df
  /\ (forall label, label ∉ DataProcessor.indicator_labels ->
        cols out.1 !! label = cols df !! label)
  /\ (Pd.empty df = true -> out = (df, Ok df))
  /\ (forall returned,
        Pd.empty df = false ->
        out.2 = Ok returned ->
        (forall label, label ∈ DataProcessor.indicator_labels ->
           is_Some (cols out.1 !! label))
        /\ (exists close,
              cols df !! "close"%string = Some close
              /\ cols out.1 !! "sma_20"%string
                 = Some (DataProcessor.sma_indicator ta close 20))
        /\ is_Some (cols returned !! "vwap"%string)
        /\ is_Some (cols returned !! "pivot"%string)
        /\ cols out.1 !! "vwap"%string = cols df !! "vwap"%string
        /\ cols out.1 !! "pivot"%string = cols df !! "pivot"%string).
Proof.
  intros out. split; [apply calculate_indicators_again|].
  subst out. unfold DataProcessor.calculate_indicators.
  destruct (Pd.empty df) eqn:Hempty.
  { simpl. repeat split; auto; discriminate. }
  destruct (DataProcessor.run (DataProcessor.indicator_statements ta) df)
    as [df' r] eqn:Hrun.
  destruct (run_indicator_statements_frame ta _ _ _ Hrun) as (Hidx & Hname & Hother).
  assert (Hfst : (match r with
                  | Ok _ => (df', with_vwap ← DataProcessor.calculate_vwap df';
                                  DataProcessor.calculate_pivot_points cfg with_vwap)
                  | Raise e => (df', Raise e)
                  end).1 = df') by (destruct r; reflexivity).
  rewrite Hfst.
  split; [exact Hidx|]. split; [exact Hname|]. split; [exact Hother|].
  split; [discriminate|].
  intros returned _ Hret. destruct r as [[]|e]; [|discriminate]. simpl in Hret.
  destruct (run_indicator_statements_reads ta _ _ Hrun) as [[close Hc] [volume Hv]].
  destruct (run_indicator_statements_writes ta df close volume Hc Hv)
    as (df'' & Hrun' & Hlabels & Hsma & _).
  rewrite Hrun in Hrun'. injection Hrun' as <-.
  split; [exact Hlabels|]. split; [eauto|].
  destruct (DataProcessor.calculate_vwap df') as [with_vwap|] eqn:Hvwap;
    [|discriminate].
  simpl in Hret.
  destruct (calculate_pivot_points_columns cfg _ _ Hret) as [Hpivot Hsame].
  split; [rewrite Hsame; exact (calculate_vwap_column _ _ Hvwap)|].
  split; [exact Hpivot|].
  split; apply Hother; unfold DataProcessor.indicator_labels;
    rewrite !not_elem_of_cons; repeat split; try discriminate; apply not_elem_of_nil.
Qed.

Lemma calculate_indicators_effects_witness :
  (exists returned, Scenarios.one_candle_pass.2 = Ok returned
                    /\ is_Some (cols returned !! "vwap"%string)
                    /\ is_Some (cols returned !! "pivot"%string))
  /\ (forall label, label ∈ DataProcessor.indicator_labels ->
        is_Some (cols Scenarios.one_candle_pass.1 !! label))
  /\ cols Scenarios.one_candle_pass.1 !! "vwap"%string
     = cols Scenarios.one_candle !! "vwap"%string
  /\ DataProcessor.calculate_indicators Scenarios.sample_ta Config.defaults
       Scenarios.one_candle_pass.1 = Scenarios.one_candle_pass.
Proof.
  destruct (calculate_indicators_effects Scenarios.sample_ta Config.defaults
              Scenarios.one_candle) as (Hagain & _ & _ & _ & _ & Hwrites).
  fold Scenarios.one_candle_pass in Hagain, Hwrites.
  destruct Scenarios.one_candle_pass.2 as [returned|e] eqn:Hret;
    [|vm_compute in Hret; discriminate].
  destruct (Hwrites returned eq_refl eq_refl) as (Hlabels & _ & Hvwap & Hpivot & Hv & _).
  split; [eauto|]. split; [exact Hlabels|]. split; [exact Hv | exact Hagain].
Defined.

(** C8 at the frame of one candle.  The claim has the call leave its input
    unchanged; after the call the caller's frame has a column [sma_20] that
    it did not have before. *)
Theorem calculate_indicators_alters_input :
  Pd.empty Scenarios.one_candle = false
  /\ cols Scenarios.one_candle !! "sma_20"%string = None
  /\ cols Scenarios.one_candle_pass.1 !! "sma_20"%string = Some [NaN]
  /\ Scenarios.one_candle_pass.1 <> Scenarios.one_candle.
Proof.
  split; [reflexivity|]. split; [reflexivity|]. split; [vm_compute; reflexivity|].
  intros E. apply (f_equal (fun d => cols d !! "sma_20"%string)) in E.
  vm_compute in E. discriminate.
Qed.

(** * Further properties of the code *)

(** ** risk_manager.py: what the gate leaves alone *)

Lemma clamp_quantity_frame (m : Q) (signal : Signal) :
  let clamped := (RiskManager.clamp_quantity m signal).2 in
  sig_strategy clamped = sig_strategy signal
  /\ sig_symbol clamped = sig_symbol signal
  /\ sig_side clamped = sig_side signal
  /\ sig_price clamped = sig_price signal
  /\ sig_stop_loss clamped = sig_stop_loss signal
  /\ sig_take_profit clamped = sig_take_profit signal
  /\ sig_timestamp clamped = sig_timestamp signal
  /\ sig_confidence clamped = sig_confidence signal
  /\ sig_quantity clamped <= sig_quantity signal
  /\ sig_quantity clamped <= m.
Proof.
  unfold RiskManager.clamp_quantity.
  destruct (Py.gtb (sig_quantity signal) m) eqn:E; simpl.
  - apply gtb_true in E. repeat split; lra.
  - apply gtb_false in E. repeat split; lra.
Qed.

Lemma backfill_frame (cfg : Config.t) (price : Q) (signal : Signal) :
  let filled := RiskManager.backfill_take_profit cfg price
                  (RiskManager.backfill_stop_loss cfg price signal) in
  sig_strategy filled = sig_strategy signal
  /\ sig_symbol filled = sig_symbol signal
  /\ sig_side filled = sig_side signal
  /\ sig_price filled = sig_price signal
  /\ sig_quantity filled = sig_quantity signal
  /\ sig_timestamp filled = sig_timestamp signal
  /\ sig_confidence filled = sig_confidence signal
  /\ (forall v, sig_stop_loss signal = Some v -> sig_stop_loss filled = Some v)
  /\ (forall v, sig_take_profit signal = Some v -> sig_take_profit filled = Some v)
  /\ is_Some (sig_take_profit filled)
  /\ (Config.USE_STOP_LOSS cfg = true -> is_Some (sig_stop_loss filled)).
Proof.
  unfold RiskManager.backfill_take_profit, RiskManager.backfill_stop_loss.
  destruct signal as [strategy symbol side pr quantity [stop|] [target|] ts conf];
    simpl;
    destruct (Config.USE_STOP_LOSS cfg); simpl;
    destruct (String.eqb side "BUY") eqn:E; simpl; rewrite ?E; simpl;
    repeat split; eauto; try discriminate.
Qed.

(** X1.  Whatever its outcome, [validate_trade] leaves the strategy, symbol,
    side, price, timestamp and confidence of the signal as they were, never
    raises its quantity, never replaces a stop-loss or take-profit the
    signal already carried, and leaves the manager as the account refresh
    left it. *)
Theorem validate_trade_signal_frame (cfg : Config.t) (self : RiskManager.t)
    (conn : connection) (signal : Signal) :
  (RiskManager.validate_trade cfg self conn signal).1.1
    = RiskManager.update_account_state cfg self conn
  /\ sig_strategy (RiskManager.validate_trade cfg self conn signal).1.2
     = sig_strategy signal
  /\ sig_symbol (RiskManager.validate_trade cfg self conn signal).1.2 = sig_symbol signal
  /\ sig_side (RiskManager.validate_trade cfg self conn signal).1.2 = sig_side signal
  /\ sig_price (RiskManager.validate_trade cfg self conn signal).1.2 = sig_price signal
  /\ sig_timestamp (RiskManager.validate_trade cfg self conn signal).1.2
     = sig_timestamp signal
  /\ sig_confidence (RiskManager.validate_trade cfg self conn signal).1.2
     = sig_confidence signal
  /\ sig_quantity (RiskManager.validate_trade cfg self conn signal).1.2
     <= sig_quantity signal
  /\ (forall v, sig_stop_loss signal = Some v ->
        sig_stop_loss (RiskManager.validate_trade cfg self conn signal).1.2 = Some v)
  /\ (forall v, sig_take_profit signal = Some v ->
        sig_take_profit (RiskManager.validate_trade cfg self conn signal).1.2 = Some v).
Proof.
  destruct (RiskManager.validate_trade cfg self conn signal) as [[self' signal'] r] eqn:H.
  simpl.
  destruct (validate_trade_paths cfg _ _ _ _ _ _ H) as [Hself Hpaths].
  split; [exact Hself|].
  destruct Hpaths as [[-> _]|[m [_ [(-> & _)|(-> & _)]]]].
  - repeat split; auto; apply Qle_refl.
  - pose proof (clamp_quantity_frame m signal) as Hc. cbv zeta in Hc.
    destruct Hc as (H1 & H2 & H3 & H4 & H5 & H6 & H7 & H8 & H9 & _).
    repeat split; congruence.
  - pose proof (clamp_quantity_frame m signal) as Hc. cbv zeta in Hc.
    destruct Hc as (H1 & H2 & H3 & H4 & H5 & H6 & H7 & H8 & H9 & _).
    pose proof (backfill_frame cfg (default 0 (sig_price signal))
                  (RiskManager.clamp_quantity m signal).2) as Hb. cbv zeta in Hb.
    destruct Hb as (B1 & B2 & B3 & B4 & B5 & B6 & B7 & B8 & B9 & _).
    repeat split; try congruence;
      try (intros v Hv; first [apply B8 | apply B9]; congruence);
      try (rewrite B5; exact H9).
Qed.





(** X4.  While the open-orders request has never succeeded the manager has
    no [total_exposure], and [validate_trade] accepts nothing: every signal
    that gets past the minimum-size check ends in
    [AttributeError 'total_exposure'], after the signal has been clamped and
    backfilled. *)
Theorem validate_trade_without_exposure (cfg : Config.t) (self : RiskManager.t)
    (conn : connection) (signal : Signal) :
  RiskManager.total_exposure (RiskManager.update_account_state cfg self conn) = None ->
  (RiskManager.validate_trade cfg self conn signal).2 <> Ok RiskManager.Accept
  /\ (RiskManager.validate_trade cfg self conn signal).2
     <> Ok (RiskManager.Reject RiskManager.ExposureCeiling)
  /\ (forall max_position_size,
        RiskManager.calculate_max_position_size cfg
          (RiskManager.update_account_state cfg self conn)
          (sig_symbol signal) (default 0 (sig_price signal)) = Ok max_position_size ->
        (RiskManager.validate_trade cfg self conn signal).2
          = Ok (RiskManager.Reject RiskManager.MaxOpenTrades)
        \/ (RiskManager.validate_trade cfg self conn signal).2
             = Ok (RiskManager.Reject RiskManager.OppositeDirection)
        \/ (RiskManager.validate_trade cfg self conn signal).2
             = Ok (RiskManager.Reject RiskManager.BelowMinimumSize)
        \/ (RiskManager.validate_trade cfg self conn signal).2
             = Raise (AttributeError "total_exposure")).
Proof.
  intros Hnone. unfold RiskManager.validate_trade.
  set (self' := RiskManager.update_account_state cfg self conn) in *.
  assert (Hcheck : forall q p, RiskManager.exposure_check cfg self' q p
                               = Raise (AttributeError "total_exposure")).
  { intros q p. unfold RiskManager.exposure_check. rewrite Hnone. reflexivity. }
  destruct (_ >=? _)%Z; [simpl; repeat split; try discriminate; auto|].
  destruct (match RiskManager.open_positions self' !! _ with
            | Some _ => _ | None => _ end);
    [simpl; repeat split; try discriminate; auto|].
  destruct (RiskManager.calculate_max_position_size cfg self' (sig_symbol signal)
              (default 0 (sig_price signal))) as [m|e]; simpl.
  - destruct (RiskManager.clamp_quantity m signal) as [q s1].
    destruct (Py.ltb q RiskManager.min_position_size); simpl; rewrite ?Hcheck;
      repeat split; try discriminate; auto.
  - repeat split; discriminate.
Qed.

Lemma validate_trade_without_exposure_witness :
  (RiskManager.validate_trade Config.defaults Scenarios.fresh_manager
     (Cases.orders_down 10000 (1 # 2)) (Scenarios.buy_at_50000 (1 # 1000))).2
  <> Ok RiskManager.Accept
  /\ (RiskManager.validate_trade Config.defaults Scenarios.fresh_manager
        (Cases.orders_down 10000 (1 # 2)) (Scenarios.buy_at_50000 (1 # 1000))).2
     = Raise (AttributeError "total_exposure")
  /\ sig_take_profit
       (RiskManager.validate_trade Config.defaults Scenarios.fresh_manager
          (Cases.orders_down 10000 (1 # 2)) (Scenarios.buy_at_50000 (1 # 1000))).1.2
     = Some (50000 * (1 + (4 # 100))).
Proof.
  destruct (validate_trade_without_exposure Config.defaults Scenarios.fresh_manager
              (Cases.orders_down 10000 (1 # 2)) (Scenarios.buy_at_50000 (1 # 1000)))
    as (Hacc & _ & _).
  - reflexivity.
  - split; [exact Hacc|]. split; vm_compute; reflexivity.
Defined.

(** X5.  Nothing in the risk manager ever opens a position:
    [open_positions] is empty after [__init__] and is left as it is by the
    account refresh and by [validate_trade].  With no open position the
    direction check rejects nothing, and the position-count check rejects
    only under a [MAX_OPEN_TRADES] of 0 or less. *)
Theorem open_positions_never_change :
  (forall (cfg : Config.t) (conn : connection),
     RiskManager.open_positions (RiskManager.init cfg conn) = ∅)
  /\ (forall (cfg : Config.t) (self : RiskManager.t) (conn : connection),
        RiskManager.open_positions (RiskManager.update_account_state cfg self conn)
        = RiskManager.open_positions self)
  /\ (forall (cfg : Config.t) (self : RiskManager.t) (conn : connection) (signal : Signal),
        RiskManager.open_positions (RiskManager.validate_trade cfg self conn signal).1.1
        = RiskManager.open_positions self)
  /\ (forall (cfg : Config.t) (self : RiskManager.t) (conn : connection) (signal : Signal),
        RiskManager.open_positions self = ∅ ->
        (RiskManager.validate_trade cfg self conn signal).2
          <> Ok (RiskManager.Reject RiskManager.OppositeDirection)
        /\ ((0 < Config.MAX_OPEN_TRADES cfg)%Z ->
            (RiskManager.validate_trade cfg self conn signal).2
              <> Ok (RiskManager.Reject RiskManager.MaxOpenTrades))).
Proof.
  assert (Hrefresh : forall cfg self conn,
             RiskManager.open_positions (RiskManager.update_account_state cfg self conn)
             = RiskManager.open_positions self).
  { intros cfg self conn.
    unfold RiskManager.update_account_state, RiskManager.calculate_exposure.
    destruct (get_account_balance conn) as [b|]; [|reflexivity].
    destruct (get_open_orders conn) as [orders|]; [|reflexivity]. simpl.
    destruct (b !! Py.drop_last 4 (Config.SYMBOL cfg)); reflexivity. }
  split; [|split; [exact Hrefresh|split]].
  - intros cfg conn. unfold RiskManager.init. rewrite Hrefresh. reflexivity.
  - intros cfg self conn signal.
    rewrite (proj1 (validate_trade_signal_frame cfg self conn signal)).
    apply Hrefresh.
  - intros cfg self conn signal Hempty. unfold RiskManager.validate_trade.
    rewrite !(Hrefresh cfg self conn), Hempty, lookup_empty, map_size_empty. simpl.
    change (Z.of_nat 0) with 0%Z.
    destruct (0 >=? Config.MAX_OPEN_TRADES cfg)%Z eqn:Hmax.
    + simpl. split; [discriminate|]. intros Hpos. exfalso.
      apply Z.geb_le in Hmax. lia.
    + destruct (RiskManager.calculate_max_position_size _ _ _ _) as [m|e]; simpl.
      * destruct (RiskManager.clamp_quantity m signal) as [q s1].
        destruct (Py.ltb q RiskManager.min_position_size); simpl;
          [split; intros; discriminate|].
        unfold RiskManager.exposure_check.
        destruct (RiskManager.total_exposure _); simpl; [|split; intros; discriminate].
        destruct (RiskManager.get_account_value _ _); simpl;
          [|split; intros; discriminate].
        destruct (Py.gtb _ _); split; intros; discriminate.
      * split; intros; discriminate.
Qed.

(** ** risk_manager.py: the account refresh *)

(** X6.  [update_account_state] never raises and degrades field by field.
    When the balance request fails the manager is left exactly as it was.
    When it succeeds the new balances are stored; if the open-orders request
    then fails, the orders and the exposure of the previous refresh stay in
    place beside the new balances.  When both succeed the exposure is the
    total of the base-currency balance (the symbol without its last four
    characters), or 0 when the account holds none. *)
Theorem update_account_state_degrades (cfg : Config.t) (self : RiskManager.t)
    (conn : connection) :
  (forall e, get_account_balance conn = Raise e ->
     RiskManager.update_account_state cfg self conn = self)
  /\ (forall b, get_account_balance conn = Ok b ->
        RiskManager.balances (RiskManager.update_account_state cfg self conn) = Some b)
  /\ (forall b e, get_account_balance conn = Ok b -> get_open_orders conn = Raise e ->
        RiskManager.total_exposure (RiskManager.update_account_state cfg self conn)
          = RiskManager.total_exposure self
        /\ RiskManager.open_orders (RiskManager.update_account_state cfg self conn)
           = RiskManager.open_orders self)
  /\ (forall b orders, get_account_balance conn = Ok b -> get_open_orders conn = Ok orders ->
        RiskManager.open_orders (RiskManager.update_account_state cfg self conn)
          = Some (RiskManager.orders_by_id orders)
        /\ exists exposure,
             RiskManager.total_exposure (RiskManager.update_account_state cfg self conn)
               = Some exposure
             /\ exposure == match b !! Py.drop_last 4 (Config.SYMBOL cfg) with
                            | Some bal => total bal
                            | None => 0
                            end).
Proof.
  unfold RiskManager.update_account_state, RiskManager.calculate_exposure.
  split; [|split; [|split]].
  - intros e ->. reflexivity.
  - intros b ->. destruct (get_open_orders conn); simpl; [|reflexivity].
    destruct (b !! Py.drop_last 4 (Config.SYMBOL cfg)); reflexivity.
  - intros b e -> ->. split; reflexivity.
  - intros b orders -> ->. simpl.
    destruct (b !! Py.drop_last 4 (Config.SYMBOL cfg)) as [bal|]; simpl.
    + split; [reflexivity|]. eexists. split; [reflexivity|]. ring.
    + split; [reflexivity|]. eexists. split; reflexivity.
Qed.

Lemma update_account_state_degrades_witness :
  RiskManager.update_account_state Config.defaults (Scenarios.manager 10000 3)
    Cases.exchange_down = Scenarios.manager 10000 3
  /\ RiskManager.total_exposure
       (RiskManager.update_account_state Config.defaults (Scenarios.manager 10000 3)
          (Cases.orders_down 10000 7))
     = RiskManager.total_exposure (Scenarios.manager 10000 3)
  /\ (exists exposure,
        RiskManager.total_exposure
          (RiskManager.update_account_state Config.defaults (Scenarios.manager 10000 3)
             (Scenarios.exchange 10000 7)) = Some exposure
        /\ exposure == 7).
Proof.
  split; [|split].
  - exact (proj1 (update_account_state_degrades Config.defaults
                    (Scenarios.manager 10000 3) Cases.exchange_down)
             (ConnectionFailure "account") eq_refl).
  - exact (proj1 (proj1 (proj2 (proj2 (update_account_state_degrades Config.defaults
                    (Scenarios.manager 10000 3) (Cases.orders_down 10000 7))))
             (Scenarios.account 10000 7) (ConnectionFailure "openOrders")
             eq_refl eq_refl)).
  - destruct (proj2 (proj2 (proj2 (update_account_state_degrades Config.defaults
                    (Scenarios.manager 10000 3) (Scenarios.exchange 10000 7))))
                (Scenarios.account 10000 7) [] eq_refl eq_refl)
      as (_ & exposure & Hexp & Hval).
    exists exposure. split; [exact Hexp|]. rewrite Hval. reflexivity.
Defined.

(** X7.  The dictionary of open orders is keyed by [orderId], and of several
    orders with one id the last in the exchange's answer is the one kept:
    looking an id up gives the last order of the list that carries it. *)
Theorem orders_by_id_lookup (orders : list order) (id : Z) :
  RiskManager.orders_by_id orders !! id
  = last (filter (fun o => orderId o = id) orders).
Proof.
  unfold RiskManager.orders_by_id.
  induction orders as [|o orders IH] using rev_ind; [reflexivity|].
  rewrite fold_left_app, filter_app. simpl.
  rewrite filter_cons, filter_nil.
  destruct (decide (orderId o = id)) as [<-|Hne].
  - rewrite lookup_insert_eq, last_snoc. reflexivity.
  - rewrite lookup_insert_ne by exact Hne. rewrite app_nil_r. exact IH.
Qed.

(** ** risk_manager.py: what [adjust_stops] leaves alone *)

(** X8.  [adjust_stops] changes nothing but stop-loss values: the set of
    trade ids is kept, every trade keeps its symbol, side and entry price, a
    trade without a stop-loss is left as it is, and with
    [USE_TRAILING_STOP] off the call changes nothing at all. *)
Theorem adjust_stops_frame (cfg : Config.t) (price_of : string -> Q)
    (open_trades : gmap Z RiskManager.trade) :
  dom (RiskManager.adjust_stops_at cfg price_of open_trades) = dom open_trades
  /\ (forall id tr,
        open_trades !! id = Some tr ->
        exists tr',
          RiskManager.adjust_stops_at cfg price_of open_trades !! id = Some tr'
          /\ RiskManager.trade_symbol tr' = RiskManager.trade_symbol tr
          /\ RiskManager.trade_side tr' = RiskManager.trade_side tr
          /\ RiskManager.trade_price tr' = RiskManager.trade_price tr
          /\ (RiskManager.trade_stop_loss tr = None -> tr' = tr))
  /\ (Config.USE_TRAILING_STOP cfg = false ->
      RiskManager.adjust_stops_at cfg price_of open_trades = open_trades).
Proof.
  unfold RiskManager.adjust_stops_at.
  destruct (Config.USE_TRAILING_STOP cfg); simpl.
  - split; [apply dom_fmap_L|]. split; [|discriminate].
    intros id tr Hid. exists (RiskManager.adjust_trade_guarded cfg price_of tr).
    rewrite lookup_fmap, Hid. simpl.
    destruct (adjust_trade_guarded_frame cfg price_of tr) as (H1 & H2 & H3).
    repeat split; auto. apply adjust_trade_guarded_no_stop.
  - split; [reflexivity|]. split; [|reflexivity].
    intros id tr Hid. exists tr. auto.
Qed.

Lemma ratchet_settled (cfg : Config.t) (price_of : string -> Q)
    (tr tr' : RiskManager.trade) (stop : Q) :
  RiskManager.trade_symbol tr' = RiskManager.trade_symbol tr ->
  RiskManager.trade_side tr' = RiskManager.trade_side tr ->
  Spec.ratchet cfg price_of tr' (Spec.ratchet cfg price_of tr stop)
  = Spec.ratchet cfg price_of tr stop.
Proof.
  intros Hsym Hside. unfold Spec.ratchet. rewrite Hsym, Hside.
  destruct (String.eqb (RiskManager.trade_side tr) "BUY"); cbv zeta.
  - destruct (Py.gtb _ stop) eqn:E.
    + unfold Py.gtb, Py.ltb. rewrite (proj2 (Qle_bool_iff _ _) (Qle_refl _)). reflexivity.
    + rewrite E. reflexivity.
  - destruct (Py.ltb _ stop) eqn:E.
    + unfold Py.ltb. rewrite (proj2 (Qle_bool_iff _ _) (Qle_refl _)). reflexivity.
    + rewrite E. reflexivity.
Qed.

Lemma adjust_trade_guarded_again (cfg : Config.t) (price_of : string -> Q)
    (tr : RiskManager.trade) :
  RiskManager.adjust_trade_guarded cfg price_of
    (RiskManager.adjust_trade_guarded cfg price_of tr)
  = RiskManager.adjust_trade_guarded cfg price_of tr.
Proof.
  destruct (RiskManager.trade_stop_loss tr) as [stop|] eqn:Hs.
  2:{ rewrite !(adjust_trade_guarded_no_stop cfg price_of tr Hs). reflexivity. }
  destruct (adjust_trade_guarded_frame cfg price_of tr) as (Hsym & Hside & Hprice).
  pose proof (adjust_trade_guarded_stop cfg price_of tr stop Hs) as Hstop.
  set (tr1 := RiskManager.adjust_trade_guarded cfg price_of tr) in *.
  pose proof (adjust_trade_guarded_stop cfg price_of tr1 _ Hstop) as Hstop2.
  rewrite (ratchet_settled cfg price_of tr tr1 stop Hsym Hside) in Hstop2.
  destruct (adjust_trade_guarded_frame cfg price_of tr1) as (Hsym2 & Hside2 & Hprice2).
  destruct (RiskManager.adjust_trade_guarded cfg price_of tr1) as [s2 d2 p2 l2].
  destruct tr1 as [s1 d1 p1 l1]. simpl in *. congruence.
Qed.

(** X9.  At unchanged prices a second [adjust_stops] changes nothing more:
    the source's method, which reads every price from the placeholder
    [get_current_price], is idempotent, and after one call (trailing stops
    on) the stop of every long trade is at least
    [50000 * (1 - TRAILING_STOP_PCT)] and the stop of every other trade at
    most [50000 * (1 + TRAILING_STOP_PCT)]. *)
Theorem adjust_stops_settles (cfg : Config.t) (open_trades : gmap Z RiskManager.trade) :
  RiskManager.adjust_stops cfg (RiskManager.adjust_stops cfg open_trades)
  = RiskManager.adjust_stops cfg open_trades
  /\ (forall price_of,
        RiskManager.adjust_stops_at cfg price_of
          (RiskManager.adjust_stops_at cfg price_of open_trades)
        = RiskManager.adjust_stops_at cfg price_of open_trades)
  /\ (Config.USE_TRAILING_STOP cfg = true ->
      forall id tr stop,
        RiskManager.adjust_stops cfg open_trades !! id = Some tr ->
        RiskManager.trade_stop_loss tr = Some stop ->
        (RiskManager.trade_side tr = "BUY"%string ->
         50000 * (1 - Config.TRAILING_STOP_PCT cfg) <= stop)
        /\ (RiskManager.trade_side tr <> "BUY"%string ->
            stop <= 50000 * (1 + Config.TRAILING_STOP_PCT cfg))).
Proof.
  assert (Hagain : forall price_of,
        RiskManager.adjust_stops_at cfg price_of
          (RiskManager.adjust_stops_at cfg price_of open_trades)
        = RiskManager.adjust_stops_at cfg price_of open_trades).
  { intros price_of. unfold RiskManager.adjust_stops_at.
    destruct (Config.USE_TRAILING_STOP cfg); simpl; [|reflexivity].
    rewrite <- map_fmap_compose. apply map_fmap_ext.
    intros id tr _. simpl. apply adjust_trade_guarded_again. }
  split; [apply Hagain|]. split; [exact Hagain|].
  intros Hon id tr stop Hid Hstop.
  unfold RiskManager.adjust_stops, RiskManager.adjust_stops_at in Hid.
  rewrite Hon in Hid. simpl in Hid. rewrite lookup_fmap in Hid.
  destruct (open_trades !! id) as [tr0|] eqn:Hid0; [|discriminate].
  simpl in Hid. injection Hid as <-.
  destruct (adjust_trade_guarded_frame cfg RiskManager.get_current_price tr0)
    as (_ & Hside & _).
  destruct (RiskManager.trade_stop_loss tr0) as [stop0|] eqn:Hs0.
  2:{ rewrite (adjust_trade_guarded_no_stop cfg _ tr0 Hs0) in Hstop. congruence. }
  rewrite (adjust_trade_guarded_stop cfg _ tr0 stop0 Hs0) in Hstop.
  injection Hstop as <-. rewrite Hside. unfold Spec.ratchet, RiskManager.get_current_price.
  split; intros Hs.
  - rewrite Hs. simpl. destruct (Py.gtb _ stop0) eqn:E.
    + apply Qle_refl.
    + apply gtb_false in E. exact E.
  - apply String.eqb_neq in Hs. rewrite Hs. destruct (Py.ltb _ stop0) eqn:E.
    + apply Qle_refl.
    + apply ltb_false in E. exact E.
Qed.

(** ** base_strategy.py and ichimoku.py: the sizes a strategy asks for *)






(** ** ichimoku.py: the signals of one call *)

Ltac step H :=
  cbv beta iota zeta in H;
  match type of H with
  | (match ?r with Ok _ => _ | Raise _ => _ end) = _ =>
      let E := fresh "E" in destruct r eqn:E; [|discriminate H]
  end.

Lemma cell_gt_asym (a b : cell) : Pd.cell_gt a b = true -> Pd.cell_gt b a = true -> False.
Proof.
  destruct a as [|x], b as [|y]; simpl; try discriminate.
  intros H1 H2. apply gtb_true in H1, H2. lra.
Qed.

(** [calculate_ichimoku] writes its five columns and nothing else. *)
Lemma calculate_ichimoku_keeps (self : IchimokuStrategy.t) (df df' : frame) (label : string) :
  IchimokuStrategy.calculate_ichimoku self df = Ok df' ->
  label ∉ ["tenkan_sen"; "kijun_sen"; "senkou_span_a"; "senkou_span_b"; "chikou_span"]%string ->
  cols df' !! label = cols df !! label /\ index df' = index df.
Proof.
  intros H Hl. unfold IchimokuStrategy.calculate_ichimoku in H.
  unfold mbind, result_bind, bind in H.
  repeat step H. injection H as <-.
  rewrite !not_elem_of_cons in Hl. destruct Hl as (H1 & H2 & H3 & H4 & H5 & _).
  unfold Pd.setitem. simpl.
  rewrite !lookup_insert_ne by congruence. split; reflexivity.
Qed.

Lemma iloc_neg_last (c : column) (x : cell) : Pd.iloc_neg 1 c = Ok x -> last c = Some x.
Proof.
  unfold Pd.iloc_neg.
  destruct c as [|y c _] using rev_ind; [discriminate|].
  rewrite last_snoc, length_app. simpl.
  replace (length c + 1)%nat with (S (length c)) by lia. simpl.
  rewrite Nat.sub_0_r, nth_middle. congruence.
Qed.

(** X12. Whatever the candles, a call of [IchimokuStrategy.generate_signals]
    that returns gives at most one signal (never a Buy and a Sell together).
    The signal is named after the strategy and the configured symbol, its
    side is BUY or SELL, its price is the last close of the caller's frame,
    its quantity is [calculate_position_size] of that price, it carries a
    stop-loss and a take-profit, no confidence score, and the time of the
    call. *)
Theorem ichimoku_signals_shape {ties : Py.Ties} (self : IchimokuStrategy.t) (now : Z)
    (data : frame)
    (signals : list Signal) :
  IchimokuStrategy.generate_signals self now data = Ok signals ->
  (length signals <= 1)%nat
  /\ forall s, s ∈ signals ->
       exists close p,
         cols data !! "close"%string = Some close
         /\ last close = Some (Val p)
         /\ sig_price s = Some p
         /\ sig_strategy s = IchimokuStrategy.name self
         /\ sig_symbol s = Config.SYMBOL (IchimokuStrategy.config self)
         /\ (sig_side s = "BUY"%string \/ sig_side s = "SELL"%string)
         /\ IchimokuStrategy.calculate_position_size self p (sig_side s) = Ok (sig_quantity s)
         /\ is_Some (sig_stop_loss s) /\ is_Some (sig_take_profit s)
         /\ sig_confidence s = None
         /\ sig_timestamp s = now.
Proof.
  intros H. unfold IchimokuStrategy.generate_signals in H.
  unfold mbind, result_bind, bind in H.
  step H.
  cbv beta iota zeta in H.
  destruct (Pd.len a <? _)%nat eqn:Hlen.
  { injection H as <-. simpl. split; [lia|]. intros s Hs. apply elem_of_nil in Hs. tauto. }
  repeat step H. injection H as <-.
  assert (Hclose : cols data !! "close"%string = Some a0).
  { destruct (calculate_ichimoku_keeps self data a "close" E) as [<- _].
    - rewrite !not_elem_of_cons; repeat split; try discriminate; apply not_elem_of_nil.
    - unfold Pd.getitem in E0. destruct (cols a !! "close"%string); congruence. }
  apply iloc_neg_last in E1.
  assert (Hbuy : a15 = [] \/ Pd.cell_gt a3 a5 = true /\ exists p k s,
            a1 = Val p /\ IchimokuStrategy.buy_dict self now p k = Ok s /\ a15 = [s]).
  { destruct (Pd.cell_gt a3 a5) eqn:Hx; simpl in E15; [|left; congruence].
    destruct (_ && _) in E15; [|left; congruence].
    destruct a1 as [|p]; [left; congruence|].
    destruct a5 as [|k]; [left; congruence|].
    destruct (IchimokuStrategy.buy_dict self now p k) as [s|] eqn:Hs; [|discriminate].
    right. split; [reflexivity|]. exists p, k, s. simpl in E15. repeat split; congruence. }
  assert (Hsell : a16 = a15 \/ Pd.cell_gt a5 a3 = true /\ exists p k s,
            a1 = Val p /\ IchimokuStrategy.sell_dict self now p k = Ok s /\ a16 = a15 ++ [s]).
  { unfold Pd.cell_lt in E16 at 1.
    destruct (Pd.cell_gt a5 a3) eqn:Hx; simpl in E16; [|left; congruence].
    destruct (_ && _) in E16; [|left; congruence].
    destruct a1 as [|p]; [left; congruence|].
    destruct a5 as [|k]; [left; congruence|].
    destruct (IchimokuStrategy.sell_dict self now p k) as [s|] eqn:Hs; [|discriminate].
    right. split; [reflexivity|]. exists p, k, s. repeat split; congruence. }
  clear E15 E16.
  assert (Hshape : forall p k s,
            a1 = Val p ->
            IchimokuStrategy.buy_dict self now p k = Ok s
            \/ IchimokuStrategy.sell_dict self now p k = Ok s ->
            exists close p,
              cols data !! "close"%string = Some close
              /\ last close = Some (Val p)
              /\ sig_price s = Some p
              /\ sig_strategy s = IchimokuStrategy.name self
              /\ sig_symbol s = Config.SYMBOL (IchimokuStrategy.config self)
              /\ (sig_side s = "BUY"%string \/ sig_side s = "SELL"%string)
              /\ IchimokuStrategy.calculate_position_size self p (sig_side s)
                 = Ok (sig_quantity s)
              /\ is_Some (sig_stop_loss s) /\ is_Some (sig_take_profit s)
              /\ sig_confidence s = None
              /\ sig_timestamp s = now).
  { intros p k s -> Hs. exists a0, p.
    split; [exact Hclose|]. split; [exact E1|].
    unfold IchimokuStrategy.buy_dict, IchimokuStrategy.sell_dict in Hs.
    unfold mbind, result_bind, bind in Hs.
    destruct Hs as [Hs|Hs].
    - destruct (IchimokuStrategy.calculate_position_size self p "BUY") as [q|] eqn:Hq;
        [|discriminate].
      injection Hs as <-. simpl. repeat split; eauto.
    - destruct (IchimokuStrategy.calculate_position_size self p "SELL") as [q|] eqn:Hq;
        [|discriminate].
      injection Hs as <-. simpl. repeat split; eauto. }
  destruct Hbuy as [->|(Hb & p & k & s & Hp & Hs & ->)];
    destruct Hsell as [->|(Hc & p' & k' & s' & Hp' & Hs' & ->)].
  - split; [simpl; lia|]. intros s Hs. apply elem_of_nil in Hs. tauto.
  - split; [simpl; lia|]. intros s Hs. simpl in Hs. apply list_elem_of_singleton in Hs as ->.
    eapply Hshape; eauto.
  - split; [simpl; lia|]. intros s0 Hs0. apply list_elem_of_singleton in Hs0 as ->.
    eapply Hshape; eauto.
  - exfalso. eapply cell_gt_asym; eassumption.
Qed.

Lemma ichimoku_signals_shape_witness :
  exists s,
    IchimokuStrategy.generate_signals (ties := Cases.ties_up)
      Scenarios.short_ichimoku 0 Scenarios.breakout = Ok [s]
    /\ sig_side s = "BUY"%string
    /\ sig_confidence s = None
    /\ sig_timestamp s = 0%Z.
Proof.
  assert (H : exists s,
             IchimokuStrategy.generate_signals (ties := Cases.ties_up)
               Scenarios.short_ichimoku 0 Scenarios.breakout
             = Ok [s] /\ sig_side s = "BUY"%string)
    by (vm_compute; eexists; split; reflexivity).
  destruct H as (s & H & Hside). exists s. split; [exact H|]. split; [exact Hside|].
  destruct (ichimoku_signals_shape _ _ _ _ H) as [_ Hall].
  destruct (Hall s) as (close & p & Hs); [apply list_elem_of_singleton; reflexivity|].
  split; apply Hs.
Defined.

(** ** ichimoku.py: what a call can raise *)

Lemma length_rolling pick w c : length (Pd.rolling pick w c) = length c.
Proof. unfold Pd.rolling. rewrite length_fmap, length_seq. reflexivity. Qed.

Lemma length_shift k c : length (Pd.shift k c) = length c.
Proof. unfold Pd.shift. rewrite length_fmap, length_seq. reflexivity. Qed.

Lemma length_half_add a b : length (Pd.half (Pd.add a b)) = Nat.min (length a) (length b).
Proof.
  unfold Pd.half, Pd.over, Pd.add. rewrite length_fmap, length_zip_with. reflexivity.
Qed.

Lemma iloc_neg_ok (k : nat) (c : column) :
  (1 <= k <= length c)%nat -> exists x, Pd.iloc_neg k c = Ok x.
Proof.
  intros [H1 H2]. unfold Pd.iloc_neg.
  apply Nat.leb_le in H1, H2. rewrite H1, H2. simpl. eauto.
Qed.

Lemma calculate_ichimoku_columns (self : IchimokuStrategy.t) (df : frame)
    (high low close : column) :
  cols df !! "high"%string = Some high ->
  cols df !! "low"%string = Some low ->
  cols df !! "close"%string = Some close ->
  length high = Pd.len df -> length low = Pd.len df -> length close = Pd.len df ->
  exists df',
    IchimokuStrategy.calculate_ichimoku self df = Ok df'
    /\ Pd.len df' = Pd.len df
    /\ cols df' !! "close"%string = Some close
    /\ forall label,
         label ∈ ["tenkan_sen"; "kijun_sen"; "senkou_span_a"; "senkou_span_b";
                  "chikou_span"]%string ->
         exists c, cols df' !! label = Some c /\ length c = Pd.len df.
Proof.
  intros Hh Hl Hc Lh Ll Lc.
  unfold IchimokuStrategy.calculate_ichimoku, Pd.getitem, Pd.setitem. simpl.
  rewrite Hh, Hl. simpl.
  repeat (rewrite ?lookup_insert_eq, ?Hh, ?Hl, ?Hc;
          try (rewrite lookup_insert_ne by discriminate); simpl).
  eexists. split; [reflexivity|]. split; [reflexivity|]. simpl.
  split.
  { rewrite !lookup_insert_ne by discriminate. exact Hc. }
  intros label Hin.
  repeat (apply elem_of_cons in Hin as [->|Hin]);
    [ | | | | | apply elem_of_nil in Hin; tauto ];
    repeat (rewrite ?lookup_insert_eq; try (rewrite lookup_insert_ne by discriminate));
    eexists; (split; [reflexivity|]);
    unfold Pd.rolling_max, Pd.rolling_min;
    rewrite ?length_shift, ?length_half_add, ?length_rolling, ?length_half_add,
      ?length_rolling, ?Lh, ?Ll, ?Lc; lia.
Qed.

Lemma dict_total {ties : Py.Ties} (self : IchimokuStrategy.t) (now : Z) (p k : Q) :
  ((exists s, IchimokuStrategy.buy_dict self now p k = Ok s)
   \/ IchimokuStrategy.buy_dict self now p k = Raise ZeroDivisionError /\ p == 0)
  /\ ((exists s, IchimokuStrategy.sell_dict self now p k = Ok s)
      \/ IchimokuStrategy.sell_dict self now p k = Raise ZeroDivisionError /\ p == 0).
Proof.
  unfold IchimokuStrategy.buy_dict, IchimokuStrategy.sell_dict,
    IchimokuStrategy.calculate_position_size, Py.div, mbind, result_bind, bind.
  destruct (Py.eqb p 0) eqn:Hp.
  - apply eqb_true in Hp. split; right; split; auto.
  - split; left; eexists; reflexivity.
Qed.

Ltac locate k c :=
  let x := fresh "x" in
  let Hx := fresh "Hx" in
  destruct (iloc_neg_ok k c) as [x Hx]; [lia|]; rewrite Hx; cbv beta iota zeta.

(** With the three price columns as long as the index, and two candles or a
    strategy that asks for at least two, [generate_signals] finds every
    column and every position it reads. *)
Lemma generate_signals_on_candle_frame {ties : Py.Ties} (self : IchimokuStrategy.t)
    (now : Z) (data : frame) (high low close : column) :
  cols data !! "high"%string = Some high ->
  cols data !! "low"%string = Some low ->
  cols data !! "close"%string = Some close ->
  length high = Pd.len data -> length low = Pd.len data -> length close = Pd.len data ->
  (2 <= Pd.len data
   \/ 2 <= IchimokuStrategy.senkou_span_b_period self + IchimokuStrategy.displacement self)%nat ->
  (exists signals, IchimokuStrategy.generate_signals self now data = Ok signals)
  \/ (IchimokuStrategy.generate_signals self now data = Raise ZeroDivisionError
      /\ exists p, last close = Some (Val p) /\ p == 0).
Proof.
  intros Hh Hl Hc Lh Ll Lc Hlen.
  destruct (calculate_ichimoku_columns self data high low close Hh Hl Hc Lh Ll Lc)
    as (df' & Hdf & Hlen' & Hclose & Hcols).
  destruct (Hcols "tenkan_sen"%string) as (tenkan & Ht & Lt);
    [repeat constructor|].
  destruct (Hcols "kijun_sen"%string) as (kijun & Hk & Lk);
    [repeat constructor|].
  destruct (Hcols "senkou_span_a"%string) as (span_a & Ha & La);
    [repeat constructor|].
  destruct (Hcols "senkou_span_b"%string) as (span_b & Hb & Lb);
    [repeat constructor|].
  destruct (Hcols "chikou_span"%string) as (chikou & Hch & Lch);
    [repeat constructor|].
  clear Hcols.
  unfold IchimokuStrategy.generate_signals, mbind, result_bind, bind.
  rewrite Hdf. cbv beta iota zeta.
  destruct (Pd.len df' <? _)%nat eqn:Hshort; [left; eauto|].
  assert (Hrows : (2 <= Pd.len data)%nat).
  { apply Nat.ltb_ge in Hshort. rewrite Hlen' in Hshort. destruct Hlen as [Hlen|Hlen]; lia. }
  unfold Pd.getitem. rewrite Hclose, Ht, Hk, Ha, Hb, Hch, Hlen'. cbv beta iota zeta.
  locate 1%nat close. locate 1%nat tenkan. locate 1%nat kijun.
  locate 1%nat span_a. locate 1%nat span_b.
  assert (Hchikou : exists a,
            (if (IchimokuStrategy.displacement self + 1 <? Pd.len data)%nat
             then match Pd.iloc_neg (IchimokuStrategy.displacement self + 1) chikou with
                  | Ok a => Ok (Some a)
                  | Raise e => Raise e
                  end
             else Ok None) = Ok a).
  { destruct (IchimokuStrategy.displacement self + 1 <? Pd.len data)%nat eqn:Hd; [|eauto].
    apply Nat.ltb_lt in Hd.
    destruct (iloc_neg_ok (IchimokuStrategy.displacement self + 1) chikou) as [y ->];
      [lia|eexists; reflexivity]. }
  destruct Hchikou as [a ->]. cbv beta iota zeta.
  locate 2%nat tenkan. locate 2%nat kijun.
  assert (Hpast : forall f : cell -> cell -> bool, exists b,
            (if (2 * IchimokuStrategy.displacement self + 1 <? Pd.len data)%nat
             then match a with
                  | Some c =>
                      match Pd.iloc_neg (2 * IchimokuStrategy.displacement self + 1) close with
                      | Ok past => Ok (f c past)
                      | Raise e => Raise e
                      end
                  | None => Ok false
                  end
             else Ok false) = Ok b).
  { intros f.
    destruct (2 * IchimokuStrategy.displacement self + 1 <? Pd.len data)%nat eqn:Hd; [|eauto].
    apply Nat.ltb_lt in Hd.
    destruct a; [|eauto].
    destruct (iloc_neg_ok (2 * IchimokuStrategy.displacement self + 1) close) as [y ->];
      [lia|eexists; reflexivity]. }
  destruct (Hpast Pd.cell_gt) as [b1 ->]. destruct (Hpast Pd.cell_lt) as [b2 ->].
  cbv beta iota zeta. clear Hpast.
  apply iloc_neg_last in Hx.
  destruct (_ && b1); destruct (_ && b2); destruct x as [|p]; eauto;
    destruct x1 as [|k]; eauto;
    destruct (dict_total self now p k) as [[[s Hs]|[Hs Hp]] [[s' Hs']|[Hs' Hp']]];
    rewrite ?Hs, ?Hs'; cbv beta iota zeta; eauto 10.
Qed.

(** X13. On a frame whose [high], [low] and [close] columns are as long as
    its index and that holds at least two candles, [generate_signals] never
    fails on a missing column or a position out of range: it returns a list,
    or it raises [ZeroDivisionError], and that only when the last close is
    zero (the size of the position is a quotient by the price). *)
Theorem ichimoku_generate_signals_returns {ties : Py.Ties} (self : IchimokuStrategy.t)
    (now : Z) (data : frame) (high low close : column) :
  cols data !! "high"%string = Some high ->
  cols data !! "low"%string = Some low ->
  cols data !! "close"%string = Some close ->
  length high = Pd.len data -> length low = Pd.len data -> length close = Pd.len data ->
  (2 <= Pd.len data)%nat ->
  (exists signals, IchimokuStrategy.generate_signals self now data = Ok signals)
  \/ (IchimokuStrategy.generate_signals self now data = Raise ZeroDivisionError
      /\ exists p, last close = Some (Val p) /\ p == 0).
Proof.
  intros Hh Hl Hc Lh Ll Lc Hlen.
  apply (generate_signals_on_candle_frame self now data high low close Hh Hl Hc Lh Ll Lc).
  left. exact Hlen.
Qed.

Lemma ichimoku_generate_signals_returns_witness :
  ((exists signals,
      IchimokuStrategy.generate_signals (ties := Cases.ties_up)
        Scenarios.short_ichimoku 0 Scenarios.breakout
      = Ok signals)
   \/ (IchimokuStrategy.generate_signals (ties := Cases.ties_up)
         Scenarios.short_ichimoku 0 Scenarios.breakout
       = Raise ZeroDivisionError
       /\ exists p, last ((fun z => Val (inject_Z z)) <$> [9; 9; 9; 9; 9; 9; 9; 19]%Z)
                    = Some (Val p) /\ p == 0))
  /\ IchimokuStrategy.generate_signals (ties := Cases.ties_up)
       Scenarios.short_ichimoku 0 Cases.crash
     = Raise ZeroDivisionError.
Proof.
  split.
  - apply (ichimoku_generate_signals_returns (ties := Cases.ties_up)
             Scenarios.short_ichimoku 0 Scenarios.breakout
             ((fun z => Val (inject_Z z)) <$> [10; 10; 10; 10; 10; 10; 10; 20]%Z)
             ((fun z => Val (inject_Z z)) <$> [8; 8; 8; 2; 8; 8; 8; 18]%Z)
             ((fun z => Val (inject_Z z)) <$> [9; 9; 9; 9; 9; 9; 9; 19]%Z));
      try reflexivity.
    vm_compute. lia.
  - assert (Hrows : (2 <= Pd.len Cases.crash)%nat) by (vm_compute; lia).
    destruct (ichimoku_generate_signals_returns (ties := Cases.ties_up)
                Scenarios.short_ichimoku 0 Cases.crash
             ((fun z => Val (inject_Z z)) <$> [10; 10; 10; 10; 10; 10; 10; 1]%Z)
             ((fun z => Val (inject_Z z)) <$> [8; 8; 8; 8; 8; 8; 8; 0]%Z)
             ((fun z => Val (inject_Z z)) <$> [9; 9; 9; 9; 9; 9; 9; 0]%Z)
             eq_refl eq_refl eq_refl eq_refl eq_refl eq_refl Hrows)
      as [[signals H]|[H _]].
    + vm_compute in H. discriminate H.
    + exact H.
Defined.

(** ** binance_connection.py: the balances kept *)

Lemma record_assets_lookup (entries : list BinanceConnection.asset_entry) (name : string) :
  fold_left BinanceConnection.record_asset entries ∅ !! name
  = (fun a => {| free := BinanceConnection.asset_free a;
                 locked := BinanceConnection.asset_locked a;
                 total := BinanceConnection.asset_free a
                          + BinanceConnection.asset_locked a |})
    <$> last (filter (fun a => BinanceConnection.asset a = name
                               /\ (Py.gtb (BinanceConnection.asset_free a) 0
                                   || Py.gtb (BinanceConnection.asset_locked a) 0) = true)
                     entries).
Proof.
  induction entries as [|a entries IH] using rev_ind; [reflexivity|].
  rewrite fold_left_app, filter_app. simpl.
  rewrite filter_cons, filter_nil.
  unfold BinanceConnection.record_asset at 1.
  destruct (Py.gtb (BinanceConnection.asset_free a) 0
            || Py.gtb (BinanceConnection.asset_locked a) 0) eqn:Hpos.
  - destruct (decide (BinanceConnection.asset a = name)) as [<-|Hne].
    + rewrite lookup_insert_eq.
      rewrite decide_True by (split; reflexivity).
      rewrite last_snoc. reflexivity.
    + rewrite lookup_insert_ne by exact Hne.
      rewrite decide_False by (intros [? _]; contradiction).
      rewrite app_nil_r. exact IH.
  - rewrite decide_False by (intros [_ ?]; congruence).
    rewrite app_nil_r. exact IH.
Qed.

(** X14.  [get_account_balance] keeps an asset only when its free or its
    locked amount is positive; looking an asset up gives the amounts of the
    last such entry of the exchange's answer, with [total] their sum, and an
    asset without such an entry is not a key.  A failed request is passed
    on. *)
Theorem get_account_balance_lookup :
  (forall (entries : list BinanceConnection.asset_entry) (name : string),
     exists balances,
       BinanceConnection.get_account_balance (Ok entries) = Ok balances
       /\ balances !! name
          = (fun a => {| free := BinanceConnection.asset_free a;
                         locked := BinanceConnection.asset_locked a;
                         total := BinanceConnection.asset_free a
                                  + BinanceConnection.asset_locked a |})
            <$> last (filter (fun a => BinanceConnection.asset a = name
                                       /\ (Py.gtb (BinanceConnection.asset_free a) 0
                                           || Py.gtb (BinanceConnection.asset_locked a) 0) = true)
                             entries)
       /\ (forall bal, balances !! name = Some bal ->
             total bal = free bal + locked bal /\ (0 < free bal \/ 0 < locked bal)))
  /\ (forall e, BinanceConnection.get_account_balance (Raise e) = Raise e).
Proof.
  split; [|reflexivity].
  intros entries name.
  unfold BinanceConnection.get_account_balance. simpl.
  eexists. split; [reflexivity|].
  split; [apply record_assets_lookup|].
  intros bal Hbal. rewrite record_assets_lookup in Hbal.
  destruct (last _) as [a|] eqn:Hlast; [|discriminate].
  injection Hbal as <-. simpl. split; [reflexivity|].
  apply last_Some_elem_of in Hlast. apply list_elem_of_filter in Hlast as [[_ Hpos] _].
  apply orb_true_iff in Hpos as [H|H]; apply gtb_true in H; auto.
Qed.

(** X15.  An account whose quote asset (the last four letters of the
    symbol) shows no positive free or locked amount has no entry for it, and
    both readers of the balance fall back on 10000: the risk manager values
    the account at 10000 after its refresh, and a strategy wired to the
    connection sizes its positions from a balance of 10000. *)
Theorem empty_quote_balance_counts_as_default (cfg : Config.t) (self : RiskManager.t)
    (entries : list BinanceConnection.asset_entry) (orders : result (list order)) :
  (forall a, a ∈ entries ->
     BinanceConnection.asset a = Py.take_last 4 (Config.SYMBOL cfg) ->
     BinanceConnection.asset_free a <= 0 /\ BinanceConnection.asset_locked a <= 0) ->
  RiskManager.get_account_value cfg
    (RiskManager.update_account_state cfg self (Cases.binance (Ok entries) orders))
  = Ok 10000
  /\ (forall strategy : BaseStrategy.t,
        BaseStrategy.config strategy = cfg ->
        BaseStrategy.connection_of strategy = Some (Cases.binance (Ok entries) orders) ->
        BaseStrategy.get_account_balance strategy = Ok 10000).
Proof.
  intros Hzero.
  assert (Hnone : fold_left BinanceConnection.record_asset entries ∅
                  !! Py.take_last 4 (Config.SYMBOL cfg) = None).
  { rewrite record_assets_lookup.
    destruct (last _) as [a|] eqn:Hlast; [|reflexivity].
    apply last_Some_elem_of in Hlast.
    apply list_elem_of_filter in Hlast as [[Hname Hpos] Hin].
    destruct (Hzero a Hin Hname) as [Hf Hl].
    apply gtb_false in Hf, Hl. rewrite Hf, Hl in Hpos. discriminate. }
  split.
  - unfold RiskManager.update_account_state, Cases.binance,
      BinanceConnection.get_account_balance. simpl.
    destruct orders as [orders|e]; simpl.
    + unfold RiskManager.calculate_exposure, RiskManager.get_account_value. simpl.
      destruct (_ !! Py.drop_last 4 (Config.SYMBOL cfg)); simpl; rewrite Hnone; reflexivity.
    + unfold RiskManager.get_account_value. simpl. rewrite Hnone. reflexivity.
  - intros strategy Hcfg Hconn.
    unfold BaseStrategy.get_account_balance. rewrite Hconn, Hcfg.
    unfold Cases.binance, BinanceConnection.get_account_balance. simpl.
    rewrite Hnone. reflexivity.
Qed.

Lemma empty_quote_balance_counts_as_default_witness :
  RiskManager.get_account_value Config.defaults
    (RiskManager.update_account_state Config.defaults Scenarios.fresh_manager
       (Cases.binance (Ok Cases.bitcoin_only) (Ok [])))
  = Ok 10000.
Proof.
  apply (empty_quote_balance_counts_as_default Config.defaults Scenarios.fresh_manager
           Cases.bitcoin_only (Ok [])).
  intros a Ha Hname.
  unfold Cases.bitcoin_only in Ha.
  apply elem_of_cons in Ha as [->|Ha]; [vm_compute in Hname; discriminate Hname|].
  apply list_elem_of_singleton in Ha as ->. simpl. split; lra.
Defined.

(** ** strategy_manager.py: the registry of loaded strategies *)

Lemma load_strategy_lookup (import : StrategyRegistry.importer)
    (strategies : gmap string StrategyManager.Strategy) (loaded name : string) :
  StrategyRegistry.load_strategy import strategies loaded !! name
  = if decide (loaded = name)
    then match Cases.imported import name with
         | Some strategy => Some strategy
         | None => strategies !! name
         end
    else strategies !! name.
Proof.
  unfold StrategyRegistry.load_strategy, Cases.imported.
  destruct (decide (loaded = name)) as [->|Hne].
  - destruct (StrategyRegistry.strategy_modules !! name) as [path|]; [|reflexivity].
    destruct (import path _); [apply lookup_insert_eq|reflexivity].
  - destruct (StrategyRegistry.strategy_modules !! loaded) as [path|]; [|reflexivity].
    destruct (import path _); [apply lookup_insert_ne; exact Hne|reflexivity].
Qed.

Lemma load_strategies_lookup_from (import : StrategyRegistry.importer) (name : string)
    (names : list string) :
  forall strategies : gmap string StrategyManager.Strategy,
    fold_left (StrategyRegistry.load_strategy import) names strategies !! name
    = if bool_decide (name ∈ names)
      then match Cases.imported import name with
           | Some strategy => Some strategy
           | None => strategies !! name
           end
      else strategies !! name.
Proof.
  induction names as [|loaded names IH]; intros strategies.
  - reflexivity.
  - simpl. rewrite IH, load_strategy_lookup.
    destruct (decide (loaded = name)) as [->|Hne].
    + rewrite (bool_decide_eq_true_2 (name ∈ name :: names)) by (apply elem_of_cons; left; reflexivity).
      destruct (bool_decide (name ∈ names)); destruct (Cases.imported import name);
        reflexivity.
    + destruct (decide (name ∈ names)) as [Hin|Hout].
      * rewrite !bool_decide_eq_true_2; [reflexivity| |exact Hin].
        apply elem_of_cons; right; exact Hin.
      * rewrite !bool_decide_eq_false_2; [reflexivity| |exact Hout].
        rewrite not_elem_of_cons. split; [congruence|exact Hout].
Qed.

(** X16.  After [_load_strategies] a name of the enabled list that is known
    and whose import succeeds is bound to the strategy just built; every
    other name is bound as it was before.  So nothing is ever unloaded, an
    unknown name and a failed import load nothing, and the enabled list is
    left as it is. *)
Theorem load_strategies_lookup (import : StrategyRegistry.importer)
    (self : StrategyManager.t) (name : string) :
  StrategyManager.strategies (StrategyRegistry._load_strategies import self) !! name
  = (if bool_decide (name ∈ StrategyManager.enabled_strategies self)
     then match Cases.imported import name with
          | Some strategy => Some strategy
          | None => StrategyManager.strategies self !! name
          end
     else StrategyManager.strategies self !! name)
  /\ StrategyManager.enabled_strategies (StrategyRegistry._load_strategies import self)
     = StrategyManager.enabled_strategies self
  /\ (is_Some (StrategyManager.strategies self !! name) ->
      is_Some (StrategyManager.strategies
                 (StrategyRegistry._load_strategies import self) !! name))
  /\ (StrategyRegistry.strategy_modules !! name = None ->
      StrategyManager.strategies (StrategyRegistry._load_strategies import self) !! name
      = StrategyManager.strategies self !! name).
Proof.
  unfold StrategyRegistry._load_strategies. simpl.
  rewrite load_strategies_lookup_from.
  split; [reflexivity|]. split; [reflexivity|]. split.
  - intros Hsome. destruct (bool_decide _); [|exact Hsome].
    destruct (Cases.imported import name); [eauto|exact Hsome].
  - intros Hnone. unfold Cases.imported. rewrite Hnone.
    destruct (bool_decide _); reflexivity.
Qed.

Lemma omap_agree {A B} (f g : A -> option B) (l : list A) :
  (forall x, x ∈ l -> f x = g x) -> omap f l = omap g l.
Proof.
  induction l as [|x l IH]; intros H; [reflexivity|].
  assert (IH' : omap f l = omap g l).
  { apply IH. intros y Hy. apply H. apply elem_of_cons. right. exact Hy. }
  simpl. rewrite (H x) by (apply elem_of_cons; left; reflexivity).
  destruct (g x); [f_equal|]; exact IH'.
Qed.

(** X17.  What the manager gathers after [set_enabled_strategies] comes
    from the names of the new list only, in their order: for each name the
    strategy just imported answers, or, when the name is unknown or its
    import fails, the strategy that was loaded under the name before, if
    any.  Right after [__init__] nothing was loaded before, so the signals
    are those of the strategies the configured names import. *)
Theorem generate_signals_after_loading (import : StrategyRegistry.importer) (data : frame) :
  (forall (self : StrategyManager.t) (strategy_list : list string),
     StrategyManager.generate_signals
       (StrategyRegistry.set_enabled_strategies import self strategy_list) data
     = Ok (StrategyManager.order_signals
             (concat (omap (fun name =>
                              match Cases.imported import name with
                              | Some strategy => Cases.answered data strategy
                              | None => StrategyManager.strategies self !! name
                                        ≫= Cases.answered data
                              end) strategy_list))))
  /\ (forall cfg : Config.t,
        StrategyManager.generate_signals (StrategyRegistry.init import cfg) data
        = Ok (StrategyManager.order_signals
                (concat (omap (fun name => Cases.imported import name
                                           ≫= Cases.answered data)
                              (Config.ENABLED_STRATEGIES cfg))))).
Proof.
  assert (Hgen : forall (self : StrategyManager.t),
            StrategyManager.generate_signals
              (StrategyRegistry._load_strategies import self) data
            = Ok (StrategyManager.order_signals
                    (concat (omap (fun name =>
                                     match Cases.imported import name with
                                     | Some strategy => Cases.answered data strategy
                                     | None => StrategyManager.strategies self !! name
                                               ≫= Cases.answered data
                                     end) (StrategyManager.enabled_strategies self))))).
  { intros self.
    rewrite (proj2 (generate_signals_gathered _ data)).
    unfold Spec.gathered. do 3 f_equal.
    apply omap_agree. intros name Hin.
    unfold Spec.produced, StrategyRegistry._load_strategies. simpl.
    rewrite load_strategies_lookup_from, bool_decide_eq_true_2 by exact Hin.
    destruct (Cases.imported import name) as [strategy|]; [reflexivity|].
    destruct (StrategyManager.strategies self !! name); reflexivity. }
  split.
  - intros self strategy_list. unfold StrategyRegistry.set_enabled_strategies.
    rewrite Hgen. reflexivity.
  - intros cfg. unfold StrategyRegistry.init. rewrite Hgen.
    reflexivity.
Qed.

(** The class names the loop asks the modules for. *)
Example class_name_examples :
  StrategyRegistry.class_name "ichimoku" = "IchimokuStrategy"%string
  /\ StrategyRegistry.class_name "pivot_point" = "PivotPointStrategy"%string.
Proof. split; reflexivity. Qed.

(** ** strategy_manager.py: what the vote can return *)

(** X18.  Whatever the signals, [combine_signals] returns at most one
    signal, never a Buy together with a Sell.  The signal it returns is one
    of the signals it was given, its side is BUY or SELL, and its side holds
    a strict majority of more than three fifths of all the signals given
    (signals of any other side count in the total). *)
Theorem combine_signals_at_most_one (signals : list Signal) :
  (length (StrategyManager.combine_signals signals) <= 1)%nat
  /\ (forall s, s ∈ StrategyManager.combine_signals signals ->
        s ∈ signals
        /\ (sig_side s = "BUY"%string
              /\ (3 * length signals < 5 * length (Spec.buys signals))%nat
            \/ sig_side s = "SELL"%string
               /\ (3 * length signals < 5 * length (Spec.sells signals))%nat)).
Proof.
  destruct signals as [|s0 rest] eqn:Hsig.
  { split; [simpl; lia|]. intros s Hs. apply elem_of_nil in Hs. contradiction. }
  rewrite <- Hsig.
  assert (Hne : signals <> []) by (rewrite Hsig; discriminate).
  assert (Hpos : (0 < length signals)%nat) by (rewrite Hsig; simpl; lia).
  clear Hsig s0 rest.
  rewrite (combine_signals_sides signals Hne). cbv zeta.
  pose proof (sides_length signals) as Hlen.
  assert (Hbest : forall side_signals : list Signal,
            (length (option_list (StrategyManager.best_signal side_signals)) <= 1)%nat
            /\ forall s, s ∈ option_list (StrategyManager.best_signal side_signals) ->
                         s ∈ side_signals).
  { intros [|first others].
    - split; [simpl; lia|]. intros s Hs. apply elem_of_nil in Hs. contradiction.
    - destruct (best_signal_cons first others) as (best & -> & Hin & _).
      split; [simpl; lia|]. intros s Hs. apply list_elem_of_singleton in Hs as ->.
      exact Hin. }
  destruct (Py.gtb (Spec.fraction (length (Spec.buys signals)) (length signals)) (6 # 10))
    eqn:Hb;
    destruct (Py.gtb (Spec.fraction (length (Spec.sells signals)) (length signals)) (6 # 10))
      eqn:Hs.
  - apply gtb_true, fraction_above in Hb, Hs; try exact Hpos. lia.
  - apply gtb_true, fraction_above in Hb; try exact Hpos.
    rewrite app_nil_r. destruct (Hbest (Spec.buys signals)) as [Hl Hin].
    split; [exact Hl|]. intros s Hmem. apply Hin in Hmem.
    apply list_elem_of_filter in Hmem as [Hside Hmem]. auto.
  - apply gtb_true, fraction_above in Hs; try exact Hpos.
    destruct (Hbest (Spec.sells signals)) as [Hl Hin].
    split; [exact Hl|]. intros s Hmem. apply Hin in Hmem.
    apply list_elem_of_filter in Hmem as [Hside Hmem]. auto.
  - split; [simpl; lia|]. intros s Hmem. apply elem_of_nil in Hmem. contradiction.
Qed.

(** ** strategy_manager.py: ordering what is already ordered *)

Lemma sort_desc_of_descending (key : Signal -> Q) (l : list Signal) :
  Spec.descending key l -> StrategyManager.sort_desc key l = l.
Proof.
  unfold Spec.descending. induction 1 as [|x l Hsorted IH Hall]; [reflexivity|].
  unfold StrategyManager.sort_desc in *. simpl. rewrite IH.
  destruct l as [|y l']; [reflexivity|]. simpl.
  apply Forall_cons in Hall as [Hy _].
  assert (Hgt : Py.gtb (key y) (key x) = false) by (apply gtb_false; exact Hy).
  rewrite Hgt. reflexivity.
Qed.

(** X19.  The ordering step of [generate_signals] settles: applied to its
    own result it changes nothing, whether the first signal carried a
    confidence score or not.  It also keeps the number of signals. *)
Theorem order_signals_settles (all_signals : list Signal) :
  StrategyManager.order_signals (StrategyManager.order_signals all_signals)
  = StrategyManager.order_signals all_signals
  /\ length (StrategyManager.order_signals all_signals) = length all_signals.
Proof.
  unfold StrategyManager.order_signals at 2 3 4.
  destruct all_signals as [|first rest]; [split; reflexivity|].
  destruct (StrategyManager.has_confidence first) eqn:Hfirst.
  - split.
    + unfold StrategyManager.order_signals.
      destruct (StrategyManager.sort_desc _ (first :: rest)) as [|first' rest'] eqn:Hsort;
        [reflexivity|].
      destruct (StrategyManager.has_confidence first'); [|reflexivity].
      rewrite <- Hsort. apply sort_desc_of_descending. apply sort_desc_sorted.
    + symmetry. apply Permutation_length. apply sort_desc_perm.
  - split; [|reflexivity].
    unfold StrategyManager.order_signals. rewrite Hfirst. reflexivity.
Qed.

(** ** data_processor.py: the frames built from the exchange's candles *)

Lemma klines_frame_columns (klines : list DataProcessor.kline) :
  let df := DataProcessor._klines_to_dataframe klines in
  cols df !! "close"%string = Some ((fun k => Val (DataProcessor.k_close k)) <$> klines)
  /\ cols df !! "high"%string = Some ((fun k => Val (DataProcessor.k_high k)) <$> klines)
  /\ cols df !! "low"%string = Some ((fun k => Val (DataProcessor.k_low k)) <$> klines)
  /\ cols df !! "volume"%string = Some ((fun k => Val (DataProcessor.k_volume k)) <$> klines)
  /\ cols df !! "open_time"%string = None
  /\ cols df !! "date"%string = None
  /\ index_name df = Some "open_time"%string
  /\ index df = DataProcessor.k_open_time <$> klines.
Proof.
  repeat split; reflexivity.
Qed.

Ltac past_inserts :=
  repeat (rewrite lookup_insert_ne by discriminate);
  try (rewrite lookup_insert_eq); try reflexivity; try assumption.

Lemma not_empty (df : frame) (label : string) (c : column) :
  index df <> [] -> cols df !! label = Some c -> Pd.empty df = false.
Proof.
  intros Hidx Hc. unfold Pd.empty, Pd.len.
  destruct (index df); [contradiction|]. simpl.
  apply bool_decide_eq_false. intros Hempty. rewrite Hempty, lookup_empty in Hc.
  discriminate.
Qed.

Lemma calculate_vwap_ok (df : frame) (volume high low close : column) :
  index_name df = Some "open_time"%string ->
  cols df !! "open_time"%string = None ->
  cols df !! "date"%string = None ->
  index df <> [] ->
  cols df !! "volume"%string = Some volume ->
  cols df !! "high"%string = Some high ->
  cols df !! "low"%string = Some low ->
  cols df !! "close"%string = Some close ->
  exists vwap, DataProcessor.calculate_vwap df = Ok (Pd.setitem df "vwap" vwap).
Proof.
  intros Hname Hot Hdate Hidx Hv Hh Hl Hc.
  unfold DataProcessor.calculate_vwap, Pd.getitem.
  rewrite Hot, Hname, Hdate, Hv, Hh, Hl, Hc. simpl.
  destruct (index df); [contradiction|]. eexists. reflexivity.
Qed.

Lemma calculate_pivot_points_ok (cfg : Config.t) (df : frame) (high low close : column) :
  cols df !! "high"%string = Some high ->
  cols df !! "low"%string = Some low ->
  cols df !! "close"%string = Some close ->
  exists returned,
    DataProcessor.calculate_pivot_points cfg df = Ok returned
    /\ index returned = index df
    /\ (forall label, label ∉ Cases.pivot_labels -> cols returned !! label = cols df !! label)
    /\ (forall label, label ∈ Cases.pivot_labels -> is_Some (cols returned !! label)).
Proof.
  intros Hh Hl Hc. destruct df as [nm idx m]. simpl in *.
  unfold DataProcessor.calculate_pivot_points, Pd.getitem, Pd.setitem. simpl.
  rewrite Hh, Hl, Hc. simpl.
  repeat (rewrite ?lookup_insert_eq, ?Hh, ?Hl, ?Hc;
          try (rewrite lookup_insert_ne by discriminate); simpl).
  eexists. split; [reflexivity|]. simpl. split; [reflexivity|]. split.
  - intros label Hout. unfold Cases.pivot_labels in Hout.
    rewrite !not_elem_of_cons in Hout.
    destruct Hout as (H1 & H2 & H3 & H4 & H5 & H6 & H7 & _).
    rewrite !lookup_insert_ne by congruence. reflexivity.
  - intros label Hin. unfold Cases.pivot_labels in Hin.
    repeat (apply elem_of_cons in Hin; destruct Hin as [->|Hin];
            [past_inserts; eauto|]).
    apply elem_of_nil in Hin. contradiction.
Qed.

Ltac absent :=
  rewrite !not_elem_of_cons; repeat split; try discriminate; apply not_elem_of_nil.

Lemma calculate_indicators_ok (ta : DataProcessor.ta_library) (cfg : Config.t) (df : frame)
    (volume high low close : column) :
  index_name df = Some "open_time"%string ->
  cols df !! "open_time"%string = None ->
  cols df !! "date"%string = None ->
  index df <> [] ->
  cols df !! "volume"%string = Some volume ->
  cols df !! "high"%string = Some high ->
  cols df !! "low"%string = Some low ->
  cols df !! "close"%string = Some close ->
  exists df' returned,
    DataProcessor.calculate_indicators ta cfg df = (df', Ok returned)
    /\ index returned = index df
    /\ (forall label,
          label ∉ DataProcessor.indicator_labels ++ "vwap"%string :: Cases.pivot_labels ->
          cols returned !! label = cols df !! label)
    /\ (forall label,
          label ∈ DataProcessor.indicator_labels ++ "vwap"%string :: Cases.pivot_labels ->
          is_Some (cols returned !! label)).
Proof.
  intros Hname Hot Hdate Hidx Hv Hh Hl Hc.
  unfold DataProcessor.calculate_indicators.
  rewrite (not_empty df "close" close Hidx Hc).
  destruct (run_indicator_statements_writes ta df close volume Hc Hv)
    as (df' & Hrun & Hlabels & _ & _).
  rewrite Hrun.
  destruct (run_indicator_statements_frame ta df df' (Ok ()) Hrun) as (Hidx' & Hname' & Hkept).
  assert (Hv' : cols df' !! "volume"%string = Some volume)
    by (rewrite Hkept; [exact Hv|unfold DataProcessor.indicator_labels; absent]).
  assert (Hh' : cols df' !! "high"%string = Some high)
    by (rewrite Hkept; [exact Hh|unfold DataProcessor.indicator_labels; absent]).
  assert (Hl' : cols df' !! "low"%string = Some low)
    by (rewrite Hkept; [exact Hl|unfold DataProcessor.indicator_labels; absent]).
  assert (Hc' : cols df' !! "close"%string = Some close)
    by (rewrite Hkept; [exact Hc|unfold DataProcessor.indicator_labels; absent]).
  assert (Hot' : cols df' !! "open_time"%string = None)
    by (rewrite Hkept; [exact Hot|unfold DataProcessor.indicator_labels; absent]).
  assert (Hdate' : cols df' !! "date"%string = None)
    by (rewrite Hkept; [exact Hdate|unfold DataProcessor.indicator_labels; absent]).
  destruct (calculate_vwap_ok df' volume high low close) as [vwap Hvwap];
    try assumption; try congruence.
  rewrite Hvwap. cbn [mbind result_bind bind].
  destruct (calculate_pivot_points_ok cfg (Pd.setitem df' "vwap" vwap) high low close)
    as (returned & Hret & Hidx'' & Hkept' & Hpivots).
  { simpl. rewrite lookup_insert_ne by discriminate. exact Hh'. }
  { simpl. rewrite lookup_insert_ne by discriminate. exact Hl'. }
  { simpl. rewrite lookup_insert_ne by discriminate. exact Hc'. }
  exists df', returned. split.
  { unfold mbind, result_bind, bind. rewrite Hret. reflexivity. }
  split; [rewrite Hidx''; exact Hidx'|]. split.
  - intros label Hout. rewrite not_elem_of_app, not_elem_of_cons in Hout.
    destruct Hout as (Hind & Hvw & Hpiv).
    rewrite (Hkept' label Hpiv). simpl. rewrite lookup_insert_ne by congruence.
    apply Hkept, Hind.
  - intros label Hin. rewrite elem_of_app, elem_of_cons in Hin.
    destruct (decide (label ∈ Cases.pivot_labels)) as [Hpiv|Hpiv]; [apply Hpivots, Hpiv|].
    rewrite (Hkept' label Hpiv). simpl.
    destruct Hin as [Hind|[->|Hpiv']]; [| |contradiction].
    + destruct (decide (label = "vwap"%string)) as [->|Hne].
      * rewrite lookup_insert_eq. eauto.
      * rewrite lookup_insert_ne by congruence. apply Hlabels, Hind.
    + rewrite lookup_insert_eq. eauto.
Qed.

(** X21.  The frame built from the exchange's candles always passes
    through [calculate_indicators]: whatever the candles, the call returns a
    frame indexed by their open times, with the candles' own columns as they
    were.  When there is at least one candle the frame returned also has the
    thirteen indicator columns, [vwap] and the seven pivot levels; the frame
    of no candle is returned as it is. *)
Theorem klines_pass_calculate_indicators (ta : DataProcessor.ta_library) (cfg : Config.t)
    (klines : list DataProcessor.kline) :
  exists returned,
    (DataProcessor.calculate_indicators ta cfg
       (DataProcessor._klines_to_dataframe klines)).2 = Ok returned
    /\ index returned = DataProcessor.k_open_time <$> klines
    /\ (forall label,
          label ∉ DataProcessor.indicator_labels ++ "vwap"%string :: Cases.pivot_labels ->
          cols returned !! label
          = cols (DataProcessor._klines_to_dataframe klines) !! label)
    /\ (klines <> [] ->
        forall label,
          label ∈ DataProcessor.indicator_labels ++ "vwap"%string :: Cases.pivot_labels ->
          is_Some (cols returned !! label))
    /\ (klines = [] -> returned = DataProcessor._klines_to_dataframe []).
Proof.
  destruct klines as [|k klines].
  - exists (DataProcessor._klines_to_dataframe []).
    split; [reflexivity|]. split; [reflexivity|]. split; [reflexivity|].
    split; [intros H; contradiction|reflexivity].
  - destruct (klines_frame_columns (k :: klines))
      as (Hc & Hh & Hl & Hv & Hot & Hdate & Hname & Hidx).
    destruct (calculate_indicators_ok ta cfg
                (DataProcessor._klines_to_dataframe (k :: klines)) _ _ _ _
                Hname Hot Hdate (ltac:(rewrite Hidx; discriminate)) Hv Hh Hl Hc)
      as (df' & returned & Hcall & Hidx' & Hkept & Hlabels).
    exists returned. rewrite Hcall.
    split; [reflexivity|]. split; [rewrite Hidx'; exact Hidx|].
    split; [exact Hkept|]. split; [intros _; exact Hlabels|discriminate].
Qed.

(** ** data_processor.py: the cache of [get_latest_data] *)

(** X22.  Every key with a time of last update has a cached frame: this
    holds for a new [DataProcessor] and every call of [get_latest_data]
    keeps it, so the read of line 42 never misses.  The only exception a
    call can raise is the [KeyError] of a timeframe absent from
    [TIMEFRAMES], and only for a key that was refreshed before.  A call
    touches no cache entry but its own key's, and changes nothing at all
    when the candle request fails. *)
Theorem get_latest_data_keeps_cache (ta : DataProcessor.ta_library) (cfg : Config.t)
    (self : DataProcessor.t) (current_time : Q)
    (klines : result (list DataProcessor.kline)) (symbol timeframe : option string) :
  Cases.stamped_are_cached self ->
  Cases.stamped_are_cached DataProcessor.init
  /\ Cases.stamped_are_cached
       (DataProcessor.get_latest_data ta cfg self current_time klines symbol timeframe).1
  /\ (forall e,
        (DataProcessor.get_latest_data ta cfg self current_time klines symbol timeframe).2
        = Raise e ->
        e = KeyError (default (Config.DEFAULT_TIMEFRAME cfg) timeframe)
        /\ Config.TIMEFRAMES cfg !! default (Config.DEFAULT_TIMEFRAME cfg) timeframe = None
        /\ is_Some (DataProcessor.last_update self !! Cases.cache_key cfg symbol timeframe))
  /\ (forall key,
        key <> Cases.cache_key cfg symbol timeframe ->
        DataProcessor.data_cache
          (DataProcessor.get_latest_data ta cfg self current_time klines symbol timeframe).1
          !! key
        = DataProcessor.data_cache self !! key
        /\ DataProcessor.last_update
             (DataProcessor.get_latest_data ta cfg self current_time klines symbol
                timeframe).1 !! key
           = DataProcessor.last_update self !! key)
  /\ (forall e,
        klines = Raise e ->
        (DataProcessor.get_latest_data ta cfg self current_time klines symbol timeframe).1
        = self).
Proof.
  intros Hinv.
  split.
  { intros key Hkey. unfold DataProcessor.init in Hkey. simpl in Hkey.
    rewrite lookup_empty in Hkey. destruct Hkey; discriminate. }
  unfold DataProcessor.get_latest_data.
  fold (Cases.cache_key cfg symbol timeframe).
  set (key := Cases.cache_key cfg symbol timeframe).
  set (tf := default (Config.DEFAULT_TIMEFRAME cfg) timeframe).
  set (attempt := klines ≫= _).
  assert (Hfail : forall e df, klines = Raise e -> attempt = Ok df -> False).
  { intros e df -> H. discriminate H. }
  assert (Hnew : forall df,
            Cases.stamped_are_cached
              {| DataProcessor.data_cache := <[key := df]> (DataProcessor.data_cache self);
                 DataProcessor.last_update :=
                   <[key := current_time]> (DataProcessor.last_update self) |}).
  { intros df key' Hkey'. simpl in *.
    destruct (decide (key = key')) as [<-|Hne].
    - rewrite lookup_insert_eq. eauto.
    - rewrite lookup_insert_ne in Hkey' by exact Hne.
      rewrite lookup_insert_ne by exact Hne. apply Hinv, Hkey'. }
  destruct (DataProcessor.last_update self !! key) as [updated|] eqn:Hlu;
    [destruct (Config.TIMEFRAMES cfg !! tf) as [period|] eqn:Htf;
     [destruct (Py.ltb (current_time - updated) (period / 2)) eqn:Hfresh|]|];
    try (destruct attempt as [df|e0] eqn:Hatt); cbn [fst snd];
    (split; [first [exact Hinv|apply Hnew]|]);
    (split;
     [intros e He;
      first [discriminate He
            |injection He as <-; split; [reflexivity|]; split; [reflexivity|eauto]
            |destruct (Hinv key) as [cached Hcached]; [eauto|];
             rewrite Hcached in He; discriminate He]|]);
    (split;
     [intros key' Hne; cbn [DataProcessor.data_cache DataProcessor.last_update];
      rewrite ?lookup_insert_ne by congruence; split; reflexivity|]);
    intros e He;
    first [reflexivity|exfalso; eapply Hfail; [eassumption|reflexivity]].
Qed.

Lemma get_latest_data_keeps_cache_witness :
  Cases.stamped_are_cached
    (DataProcessor.get_latest_data Scenarios.sample_ta Config.defaults DataProcessor.init
       1700000000 (Ok [Scenarios.one_kline]) None None).1.
Proof.
  apply (get_latest_data_keeps_cache Scenarios.sample_ta Config.defaults DataProcessor.init
           1700000000 (Ok [Scenarios.one_kline]) None None).
  intros key Hkey. vm_compute in Hkey. destruct Hkey as [x Hx]. discriminate Hx.
Defined.

Lemma klines_frame_passes (ta : DataProcessor.ta_library) (cfg : Config.t)
    (klines : list DataProcessor.kline) :
  exists returned,
    (DataProcessor.calculate_indicators ta cfg
       (DataProcessor._klines_to_dataframe klines)).2 = Ok returned.
Proof.
  destruct klines as [|k klines]; [eexists; reflexivity|].
  destruct (klines_frame_columns (k :: klines))
    as (Hc & Hh & Hl & Hv & Hot & Hdate & Hname & Hidx).
  destruct (calculate_indicators_ok ta cfg
              (DataProcessor._klines_to_dataframe (k :: klines)) _ _ _ _
              Hname Hot Hdate (ltac:(rewrite Hidx; discriminate)) Hv Hh Hl Hc)
    as (df' & returned & Hcall & _).
  exists returned. rewrite Hcall. reflexivity.
Qed.

(** X23.  Outside the freshness window (no earlier refresh of the key, or
    at least half the timeframe's period since the last one) a call that
    gets candles from the exchange never takes the fallback: it returns the
    frame [calculate_indicators] gives for them, stores it under the key and
    stamps the key with the time of the call.  When the request fails
    instead, the call returns the frame cached under the key, however old,
    or the empty frame when there is none, and the stamp is not advanced.
    Inside the window the cached frame is returned whatever the exchange
    would answer. *)
Theorem get_latest_data_refreshes (ta : DataProcessor.ta_library) (cfg : Config.t)
    (self : DataProcessor.t) (current_time : Q) (symbol timeframe : option string) :
  let key := Cases.cache_key cfg symbol timeframe in
  let due :=
    DataProcessor.last_update self !! key = None
    \/ exists updated period,
         DataProcessor.last_update self !! key = Some updated
         /\ Config.TIMEFRAMES cfg !! default (Config.DEFAULT_TIMEFRAME cfg) timeframe
            = Some period
         /\ period / 2 <= current_time - updated in
  (forall klines : list DataProcessor.kline,
     due ->
     exists df,
       (DataProcessor.calculate_indicators ta cfg
          (DataProcessor._klines_to_dataframe klines)).2 = Ok df
       /\ DataProcessor.get_latest_data ta cfg self current_time (Ok klines) symbol timeframe
          = ({| DataProcessor.data_cache := <[key := df]> (DataProcessor.data_cache self);
                DataProcessor.last_update :=
                  <[key := current_time]> (DataProcessor.last_update self) |},
             Ok df))
  /\ (forall e : exn,
        due ->
        DataProcessor.get_latest_data ta cfg self current_time (Raise e) symbol timeframe
        = (self, Ok (default Pd.DataFrame (DataProcessor.data_cache self !! key))))
  /\ (forall (klines : result (list DataProcessor.kline)) (updated period : Q) (df : frame),
        DataProcessor.last_update self !! key = Some updated ->
        Config.TIMEFRAMES cfg !! default (Config.DEFAULT_TIMEFRAME cfg) timeframe
          = Some period ->
        current_time - updated < period / 2 ->
        DataProcessor.data_cache self !! key = Some df ->
        DataProcessor.get_latest_data ta cfg self current_time klines symbol timeframe
        = (self, Ok df)).
Proof.
  intros key due.
  split; [|split].
  - intros klines Hdue.
    destruct (klines_frame_passes ta cfg klines) as [df Hdf].
    exists df. split; [exact Hdf|].
    unfold DataProcessor.get_latest_data. fold (Cases.cache_key cfg symbol timeframe).
    fold key. cbn [mbind result_bind bind]. unfold mbind, result_bind, bind. rewrite Hdf.
    destruct Hdue as [->|(updated & period & -> & -> & Hold)]; [reflexivity|].
    apply ltb_false in Hold. rewrite Hold. reflexivity.
  - intros e Hdue.
    unfold DataProcessor.get_latest_data. fold (Cases.cache_key cfg symbol timeframe).
    fold key. cbn [mbind result_bind bind]. unfold mbind, result_bind, bind.
    destruct Hdue as [->|(updated & period & -> & -> & Hold)]; [reflexivity|].
    apply ltb_false in Hold. rewrite Hold. reflexivity.
  - intros klines updated period df Hlu Htf Hfresh Hcached.
    unfold DataProcessor.get_latest_data. fold (Cases.cache_key cfg symbol timeframe).
    fold key. rewrite Hlu, Htf.
    apply ltb_true in Hfresh. rewrite Hfresh, Hcached. reflexivity.
Qed.

(** ** data_processor.py: frames that lack a column *)



(** ** utils.py: saving and loading the trade history *)



(** ** data_processor.py: the pivot levels *)

Lemma shift_lookup (k : Z) (c : column) (i : nat) :
  (i < length c)%nat ->
  Pd.shift k c !! i
  = Some (if (0 <=? Z.of_nat i - k)%Z && (Z.of_nat i - k <? Z.of_nat (length c))%Z
          then nth (Z.to_nat (Z.of_nat i - k)) c NaN
          else NaN).
Proof.
  intros Hi. unfold Pd.shift. rewrite list_lookup_fmap, lookup_seq_lt by exact Hi.
  reflexivity.
Qed.

Lemma shift_lookup_early (k : Z) (c : column) (i : nat) :
  (i < length c)%nat -> (Z.of_nat i < k)%Z -> Pd.shift k c !! i = Some NaN.
Proof.
  intros Hi Hk. rewrite shift_lookup by exact Hi.
  assert (H : (0 <=? Z.of_nat i - k)%Z = false) by (apply Z.leb_gt; lia).
  rewrite H. reflexivity.
Qed.

Lemma shift_lookup_back (k : Z) (c : column) (i : nat) (x : cell) :
  (i < length c)%nat -> (k <= Z.of_nat i)%Z ->
  c !! Z.to_nat (Z.of_nat i - k) = Some x ->
  Pd.shift k c !! i = Some x.
Proof.
  intros Hi Hk Hx. rewrite shift_lookup by exact Hi.
  pose proof (lookup_lt_Some _ _ _ Hx) as Hlt.
  assert (H1 : (0 <=? Z.of_nat i - k)%Z = true) by (apply Z.leb_le; lia).
  assert (H2 : (Z.of_nat i - k <? Z.of_nat (length c))%Z = true) by (apply Z.ltb_lt; lia).
  rewrite H1, H2. simpl. f_equal. apply nth_lookup_Some with (d := NaN) in Hx. exact Hx.
Qed.

Ltac cells :=
  unfold Pd.add, Pd.sub, Pd.mul, Pd.scale, Pd.over, Pd.half;
  repeat first [rewrite lookup_zip_with | rewrite list_lookup_fmap].

(** X26.  The pivot levels of a row are the floor-trader formulas on the
    candle [lookback_period] rows earlier (one row by default), and on
    nothing else: pivot = (high + low + close) / 3, r1 = 2 pivot - low,
    s1 = 2 pivot - high, r2 = pivot + (high - low), s2 = pivot - (high - low),
    r3 = high + 2 (pivot - low), s3 = low - 2 (high - pivot).  When that
    candle's close lies between its low and its high the seven levels are in
    order, s3 <= s2 <= s1 <= pivot <= r1 <= r2 <= r3.  The rows that have no
    candle that far back carry no level. *)
Theorem pivot_levels_at (cfg : Config.t) (df returned : frame) (high low close : column)
    (i : nat) :
  cols df !! "high"%string = Some high ->
  cols df !! "low"%string = Some low ->
  cols df !! "close"%string = Some close ->
  (i < length high)%nat -> (i < length low)%nat -> (i < length close)%nat ->
  DataProcessor.calculate_pivot_points cfg df = Ok returned ->
  let lookback := default 1%Z (Config.PIVOT_POINT_lookback_period cfg) in
  ((Z.of_nat i < lookback)%Z ->
   forall label, label ∈ Cases.pivot_labels -> Cases.cell_at returned label i = Some NaN)
  /\ (forall h l c : Q,
        (lookback <= Z.of_nat i)%Z ->
        high !! Z.to_nat (Z.of_nat i - lookback) = Some (Val h) ->
        low !! Z.to_nat (Z.of_nat i - lookback) = Some (Val l) ->
        close !! Z.to_nat (Z.of_nat i - lookback) = Some (Val c) ->
        let pivot := (h + l + c) / 3 in
        Cases.cell_at returned "pivot" i = Some (Val pivot)
        /\ Cases.cell_at returned "r1" i = Some (Val (2 * pivot - l))
        /\ Cases.cell_at returned "s1" i = Some (Val (2 * pivot - h))
        /\ Cases.cell_at returned "r2" i = Some (Val (pivot + (h - l)))
        /\ Cases.cell_at returned "s2" i = Some (Val (pivot - (h - l)))
        /\ Cases.cell_at returned "r3" i = Some (Val (h + 2 * (pivot - l)))
        /\ Cases.cell_at returned "s3" i = Some (Val (l - 2 * (h - pivot)))
        /\ (l <= c -> c <= h ->
            l - 2 * (h - pivot) <= pivot - (h - l)
            /\ pivot - (h - l) <= 2 * pivot - h
            /\ 2 * pivot - h <= pivot
            /\ pivot <= 2 * pivot - l
            /\ 2 * pivot - l <= pivot + (h - l)
            /\ pivot + (h - l) <= h + 2 * (pivot - l))).
Proof.
  intros Hh Hl Hc Lh Ll Lc Hret lookback.
  destruct df as [nm idx m]. simpl in Hh, Hl, Hc.
  unfold DataProcessor.calculate_pivot_points, Pd.getitem, Pd.setitem in Hret.
  simpl in Hret. rewrite Hh, Hl, Hc in Hret. simpl in Hret.
  repeat (rewrite ?lookup_insert_eq, ?Hh, ?Hl, ?Hc in Hret;
          try (rewrite lookup_insert_ne in Hret by discriminate); simpl in Hret).
  injection Hret as <-.
  fold lookback.
  split.
  - intros Hearly label Hin.
    pose proof (shift_lookup_early lookback high i Lh Hearly) as Hh'.
    pose proof (shift_lookup_early lookback low i Ll Hearly) as Hl'.
    pose proof (shift_lookup_early lookback close i Lc Hearly) as Hc'.
    unfold Cases.pivot_labels in Hin.
    repeat (apply elem_of_cons in Hin; destruct Hin as [->|Hin];
            [unfold Cases.cell_at; simpl; past_inserts; simpl; cells;
             rewrite ?Hh', ?Hl', ?Hc'; reflexivity|]).
    apply elem_of_nil in Hin. contradiction.
  - intros h l c Hback Hhi Hli Hci pivot.
    pose proof (shift_lookup_back lookback high i _ Lh Hback Hhi) as Hh'.
    pose proof (shift_lookup_back lookback low i _ Ll Hback Hli) as Hl'.
    pose proof (shift_lookup_back lookback close i _ Lc Hback Hci) as Hc'.
    repeat (split; [unfold Cases.cell_at; simpl; past_inserts; simpl; cells;
                    rewrite ?Hh', ?Hl', ?Hc'; reflexivity|]).
    intros Hlc Hch. subst pivot.
    assert (Hlo : l <= (h + l + c) / 3).
    { apply Qle_shift_div_l; lra. }
    assert (Hup : (h + l + c) / 3 <= h).
    { apply Qle_shift_div_r; lra. }
    repeat split; lra.
Qed.

Lemma pivot_levels_at_witness :
  exists returned,
    DataProcessor.calculate_pivot_points Config.defaults Scenarios.breakout = Ok returned
    /\ Cases.cell_at returned "pivot" 1 = Some (Val ((10 + 8 + 9) / 3))
    /\ Cases.cell_at returned "r1" 1 = Some (Val (2 * ((10 + 8 + 9) / 3) - 8))
    /\ Cases.cell_at returned "s3" 0 = Some NaN.
Proof.
  destruct (calculate_pivot_points_ok Config.defaults Scenarios.breakout
              ((fun z => Val (inject_Z z)) <$> [10; 10; 10; 10; 10; 10; 10; 20]%Z)
              ((fun z => Val (inject_Z z)) <$> [8; 8; 8; 2; 8; 8; 8; 18]%Z)
              ((fun z => Val (inject_Z z)) <$> [9; 9; 9; 9; 9; 9; 9; 19]%Z)
              eq_refl eq_refl eq_refl) as (returned & Hret & _).
  exists returned. split; [exact Hret|].
  assert (L1 : (1 < 8)%nat) by lia.
  assert (L0 : (0 < 8)%nat) by lia.
  destruct (pivot_levels_at Config.defaults Scenarios.breakout returned _ _ _ 1%nat
              eq_refl eq_refl eq_refl L1 L1 L1 Hret) as [_ Hlevels].
  destruct (pivot_levels_at Config.defaults Scenarios.breakout returned _ _ _ 0%nat
              eq_refl eq_refl eq_refl L0 L0 L0 Hret) as [Hearly _].
  destruct (Hlevels 10 8 9) as (Hp & Hr1 & _); [simpl; lia|reflexivity..|].
  split; [exact Hp|]. split; [exact Hr1|].
  apply Hearly; [simpl; lia|].
  unfold Cases.pivot_labels. rewrite !elem_of_cons. auto 10.
Defined.

(** ** data_processor.py and ichimoku.py: the strategy on the exchange's candles *)

(** X27.  On every frame [calculate_indicators] returns for candles of the
    exchange, whatever their number, a strategy whose
    [senkou_span_b_period + displacement] is at least 2 (it is 78 by default)
    finds every column and every row it reads: [generate_signals] returns a
    list, or it raises [ZeroDivisionError], and that only when the last
    candle closed at 0.  The column-less frame of the fallback of
    [get_latest_data] is the one that breaks it. *)
Theorem ichimoku_on_exchange_candles {ties : Py.Ties} (ta : DataProcessor.ta_library)
    (cfg : Config.t) (self : IchimokuStrategy.t) (now : Z)
    (klines : list DataProcessor.kline) (returned : frame) :
  (2 <= IchimokuStrategy.senkou_span_b_period self + IchimokuStrategy.displacement self)%nat ->
  (DataProcessor.calculate_indicators ta cfg
     (DataProcessor._klines_to_dataframe klines)).2 = Ok returned ->
  (exists signals, IchimokuStrategy.generate_signals self now returned = Ok signals)
  \/ (IchimokuStrategy.generate_signals self now returned = Raise ZeroDivisionError
      /\ exists k, last klines = Some k /\ DataProcessor.k_close k == 0).
Proof.
  intros Hperiods Hret.
  assert (Hframe : index returned = DataProcessor.k_open_time <$> klines
                   /\ forall label,
                        label ∉ DataProcessor.indicator_labels
                                ++ "vwap"%string :: Cases.pivot_labels ->
                        cols returned !! label
                        = cols (DataProcessor._klines_to_dataframe klines) !! label).
  { destruct klines as [|k klines].
    - injection Hret as <-. split; reflexivity.
    - destruct (klines_frame_columns (k :: klines))
        as (Hc & Hh & Hl & Hv & Hot & Hdate & Hname & Hidx).
      destruct (calculate_indicators_ok ta cfg
                  (DataProcessor._klines_to_dataframe (k :: klines)) _ _ _ _
                  Hname Hot Hdate (ltac:(rewrite Hidx; discriminate)) Hv Hh Hl Hc)
        as (df' & returned' & Hcall & Hidx' & Hkept & _).
      rewrite Hcall in Hret. injection Hret as <-.
      split; [rewrite Hidx'; exact Hidx|exact Hkept]. }
  destruct Hframe as [Hidx Hkept].
  destruct (klines_frame_columns klines) as (Hc & Hh & Hl & _).
  assert (Hlen : Pd.len returned = length klines).
  { unfold Pd.len. rewrite Hidx, length_fmap. reflexivity. }
  destruct (generate_signals_on_candle_frame self now returned
              ((fun k => Val (DataProcessor.k_high k)) <$> klines)
              ((fun k => Val (DataProcessor.k_low k)) <$> klines)
              ((fun k => Val (DataProcessor.k_close k)) <$> klines))
    as [Hok|[Hraise (p & Hlast & Hp)]].
  - rewrite Hkept; [exact Hh|].
    unfold DataProcessor.indicator_labels, Cases.pivot_labels. simpl. absent.
  - rewrite Hkept; [exact Hl|].
    unfold DataProcessor.indicator_labels, Cases.pivot_labels. simpl. absent.
  - rewrite Hkept; [exact Hc|].
    unfold DataProcessor.indicator_labels, Cases.pivot_labels. simpl. absent.
  - rewrite length_fmap, Hlen. reflexivity.
  - rewrite length_fmap, Hlen. reflexivity.
  - rewrite length_fmap, Hlen. reflexivity.
  - right. exact Hperiods.
  - left. exact Hok.
  - right. split; [exact Hraise|].
    rewrite fmap_last in Hlast.
    destruct (last klines) as [k|]; [|discriminate].
    exists k. split; [reflexivity|]. injection Hlast as <-. exact Hp.
Qed.

Lemma ichimoku_on_exchange_candles_witness :
  exists returned,
    (DataProcessor.calculate_indicators Scenarios.sample_ta Config.defaults
       (DataProcessor._klines_to_dataframe [Scenarios.one_kline; Scenarios.one_kline])).2
    = Ok returned
    /\ ((exists signals,
           IchimokuStrategy.generate_signals (ties := Cases.ties_up)
             (IchimokuStrategy.init Config.defaults) 0 returned = Ok signals)
        \/ (IchimokuStrategy.generate_signals (ties := Cases.ties_up)
              (IchimokuStrategy.init Config.defaults) 0 returned = Raise ZeroDivisionError
            /\ exists k, last [Scenarios.one_kline; Scenarios.one_kline] = Some k
                         /\ DataProcessor.k_close k == 0)).
Proof.
  destruct (klines_frame_passes Scenarios.sample_ta Config.defaults
              [Scenarios.one_kline; Scenarios.one_kline]) as [returned Hret].
  exists returned. split; [exact Hret|].
  apply (ichimoku_on_exchange_candles (ties := Cases.ties_up) Scenarios.sample_ta
           Config.defaults (IchimokuStrategy.init Config.defaults) 0
           [Scenarios.one_kline; Scenarios.one_kline] returned); [|exact Hret].
  simpl. lia.
Defined.
